(** * HSR/PRP frame forwarding (net/hsr-prp/hsr_prp_forward.c)

    A shallow embedding of the forwarding core of the HSR/PRP driver:
    the supervision classifier, the tag codec (strip / add tag), the
    per-port forwarding loop and the receive entry point, followed by
    the properties the design document states about them.

    Conventions.
    - A byte is a [Z]; multi-byte fields are read and written big-endian
      ([__be16] fields are identified with the number they carry, so
      [x == htons(C)] in the source reads [x =? C] here).
    - A socket buffer is its linear byte area (head .. tail) with the
      offsets the source manipulates; paged fragments are not modelled.
    - The code runs in a small state monad over a [world] that holds the
      node registry, the outcomes of the allocator and of [netif_rx], the
      shared sequence counter, the device statistics and the trace of the
      calls made to the collaborators and of the accesses to the shared
      counter.  A kernel fault (NULL dereference, [skb_under_panic]) is
      the outcome [Oops]. *)

From Stdlib Require Import ZArith List Bool Lia Arith.
Import ListNotations.
Open Scope Z_scope.

(** ** Constants *)

(** Modelled from the spec: the header [hsr_prp_main.h] and the uapi
    headers [if_ether.h], [if_vlan.h], [if_packet.h], [skbuff.h] are not
    part of the sources at hand; the values are the ones the redundancy
    standard and the kernel ABI fix (a 6-byte tag, the two redundancy
    ethertypes, VLAN ethertype 0x8100). *)
Definition ETH_ALEN : nat := 6.
Definition ETH_HLEN : nat := 14.
Definition VLAN_HLEN : nat := 4.
Definition HSR_PRP_HLEN : nat := 6.

Definition ETH_P_8021Q : Z := 0x8100.
Definition ETH_P_PRP : Z := 0x88FB.
Definition ETH_P_HSR : Z := 0x892F.

Definition CHECKSUM_PARTIAL : Z := 3.

Definition PACKET_HOST : Z := 0.
Definition PACKET_BROADCAST : Z := 1.
Definition PACKET_MULTICAST : Z := 2.
Definition PACKET_OTHERHOST : Z := 3.

Definition HSR_TLV_ANNOUNCE : Z := 22.
Definition HSR_TLV_LIFE_CHECK : Z := 23.

(** [sizeof(struct hsr_prp_sup_payload)]: one MAC address. *)
Definition sizeof_hsr_prp_sup_payload : Z := 6.

(** ** Bytes and memory *)

Definition u16 (v : Z) : Z := v mod 65536.

(** [n] bytes of [mem] starting at offset [off].  A read that runs past
    the end of the area, which in C fetches whatever lies behind it,
    yields the bytes there are; the statements about bytes below assume
    frames that hold the headers the code moves. *)
Definition mem_read (mem : list Z) (off n : nat) : list Z :=
  firstn n (skipn off mem).

(** [mem] with [bytes] stored from offset [off] on ([memcpy], and
    [memmove] when the bytes were read from [mem] itself before). *)
Definition mem_write (mem : list Z) (off : nat) (bytes : list Z) : list Z :=
  firstn off mem ++ bytes ++ skipn (off + length bytes) mem.

Definition get_u8 (mem : list Z) (off : nat) : Z := nth off mem 0.

(** [ntohs] of the 16-bit field at [off]. *)
Definition get_be16 (mem : list Z) (off : nat) : Z :=
  nth off mem 0 * 256 + nth (S off) mem 0.

(** The two bytes [htons v] occupies in memory. *)
Definition be16_bytes (v : Z) : list Z := [(v / 256) mod 256; v mod 256].

Definition put_be16 (mem : list Z) (off : nat) (v : Z) : list Z :=
  mem_write mem off (be16_bytes v).

Definition is_byte (b : Z) : Prop := 0 <= b < 256.

Fixpoint bytes_eqb (a b : list Z) : bool :=
  match a, b with
  | [], [] => true
  | x :: a', y :: b' => (x =? y) && bytes_eqb a' b'
  | _, _ => false
  end.

(** ** Devices, ports, socket buffers *)

Record net_device := mk_dev {
  dev_id : nat;
  dev_addr : list Z
}.

Record net_device_stats := mk_stats {
  rx_packets : Z;
  rx_bytes : Z;
  rx_dropped : Z;
  tx_dropped : Z;
  multicast : Z
}.

(** [enum hsr_prp_port_type]. *)
Inductive hsr_prp_port_type :=
| HSR_PRP_PT_NONE
| HSR_PRP_PT_SLAVE_A
| HSR_PRP_PT_SLAVE_B
| HSR_PRP_PT_INTERLINK
| HSR_PRP_PT_MASTER.

Definition port_type_eqb (a b : hsr_prp_port_type) : bool :=
  match a, b with
  | HSR_PRP_PT_NONE, HSR_PRP_PT_NONE
  | HSR_PRP_PT_SLAVE_A, HSR_PRP_PT_SLAVE_A
  | HSR_PRP_PT_SLAVE_B, HSR_PRP_PT_SLAVE_B
  | HSR_PRP_PT_INTERLINK, HSR_PRP_PT_INTERLINK
  | HSR_PRP_PT_MASTER, HSR_PRP_PT_MASTER => true
  | _, _ => false
  end.

(** [struct hsr_prp_port].  [port_id] stands for the address of the
    object: the source compares ports as pointers.  The back pointer
    [port->priv] is the node instance every function below receives as
    its [priv] argument. *)
Record hsr_prp_port := mk_port {
  port_id : nat;
  type : hsr_prp_port_type;
  dev : net_device
}.

Definition port_eqb (p q : hsr_prp_port) : bool :=
  Nat.eqb (port_id p) (port_id q).

(** The configuration part of [struct hsr_prp_priv]; the mutable
    [sequence_nr] lives in the [world]. *)
Record hsr_prp_priv := mk_priv {
  ports : list hsr_prp_port;
  sup_multicast_addr : list Z;
  prot_ver : Z;
  rx_offloaded : bool;
  l2_fwd_offloaded : bool
}.

(** [struct sk_buff], linear part.  [skb_head] is the byte area from
    [head] to [tail]; [skb_data] and [skb_mac_header] are offsets from
    [head], so the headroom is [skb_data] and [len] is what follows. *)
Record sk_buff := mk_skb {
  skb_head : list Z;
  skb_data : nat;
  skb_mac_header : nat;
  ip_summed : Z;
  csum_start : Z;
  protocol : Z;
  pkt_type : Z;
  skb_dev : option net_device
}.

Definition skb_len (skb : sk_buff) : nat := length (skb_head skb) - skb_data skb.
Definition skb_headroom (skb : sk_buff) : nat := skb_data skb.

(** The bytes of the frame, from [data] to [tail]. *)
Definition skb_bytes (skb : sk_buff) : list Z := skipn (skb_data skb) (skb_head skb).

Definition set_skb_head (skb : sk_buff) (m : list Z) : sk_buff :=
  mk_skb m (skb_data skb) (skb_mac_header skb) (ip_summed skb) (csum_start skb)
         (protocol skb) (pkt_type skb) (skb_dev skb).
Definition set_skb_data (skb : sk_buff) (d : nat) : sk_buff :=
  mk_skb (skb_head skb) d (skb_mac_header skb) (ip_summed skb) (csum_start skb)
         (protocol skb) (pkt_type skb) (skb_dev skb).
Definition set_skb_mac_header (skb : sk_buff) (m : nat) : sk_buff :=
  mk_skb (skb_head skb) (skb_data skb) m (ip_summed skb) (csum_start skb)
         (protocol skb) (pkt_type skb) (skb_dev skb).
Definition set_csum_start (skb : sk_buff) (c : Z) : sk_buff :=
  mk_skb (skb_head skb) (skb_data skb) (skb_mac_header skb) (ip_summed skb) c
         (protocol skb) (pkt_type skb) (skb_dev skb).
Definition set_protocol (skb : sk_buff) (p : Z) : sk_buff :=
  mk_skb (skb_head skb) (skb_data skb) (skb_mac_header skb) (ip_summed skb)
         (csum_start skb) p (pkt_type skb) (skb_dev skb).
Definition set_pkt_type (skb : sk_buff) (p : Z) : sk_buff :=
  mk_skb (skb_head skb) (skb_data skb) (skb_mac_header skb) (ip_summed skb)
         (csum_start skb) (protocol skb) p (skb_dev skb).
Definition set_skb_dev (skb : sk_buff) (d : net_device) : sk_buff :=
  mk_skb (skb_head skb) (skb_data skb) (skb_mac_header skb) (ip_summed skb)
         (csum_start skb) (protocol skb) (pkt_type skb) (Some d).

(** *** Header fields, at their offsets from the mac header

    [struct ethhdr] is [h_dest] (6), [h_source] (6), [h_proto] (2);
    [struct hsr_ethhdr] appends [struct hsr_tag]: [path_and_LSDU_size],
    [sequence_nr], [encap_proto], two bytes each. *)
Definition h_dest (skb : sk_buff) : list Z :=
  mem_read (skb_head skb) (skb_mac_header skb) ETH_ALEN.
Definition h_source (skb : sk_buff) : list Z :=
  mem_read (skb_head skb) (skb_mac_header skb + 6) ETH_ALEN.
Definition h_proto (skb : sk_buff) : Z :=
  get_be16 (skb_head skb) (skb_mac_header skb + 12).
Definition hsr_tag_path_and_LSDU_size (skb : sk_buff) : Z :=
  get_be16 (skb_head skb) (skb_mac_header skb + 14).
Definition hsr_tag_sequence_nr (skb : sk_buff) : Z :=
  get_be16 (skb_head skb) (skb_mac_header skb + 16).
Definition hsr_tag_encap_proto (skb : sk_buff) : Z :=
  get_be16 (skb_head skb) (skb_mac_header skb + 18).

(** Modelled from the spec: the accessors of [hsr_prp_main.h] are not in
    the sources at hand.  The tag carries the lane in the top four bits
    and the payload length in the low twelve bits of its first field, and
    the sequence number big-endian in its second. *)
Definition get_hsr_tag_path (skb : sk_buff) : Z :=
  Z.shiftr (hsr_tag_path_and_LSDU_size skb) 12.
Definition get_hsr_tag_LSDU_size (skb : sk_buff) : Z :=
  Z.land (hsr_tag_path_and_LSDU_size skb) 0x0FFF.
Definition hsr_get_skb_sequence_nr (skb : sk_buff) : Z :=
  hsr_tag_sequence_nr skb.

Definition set_hsr_tag_path (skb : sk_buff) (path : Z) : sk_buff :=
  set_skb_head skb
    (put_be16 (skb_head skb) (skb_mac_header skb + 14)
       (u16 (Z.lor (Z.land (hsr_tag_path_and_LSDU_size skb) 0x0FFF)
                   (Z.shiftl path 12)))).
Definition set_hsr_tag_LSDU_size (skb : sk_buff) (LSDU_size : Z) : sk_buff :=
  set_skb_head skb
    (put_be16 (skb_head skb) (skb_mac_header skb + 14)
       (u16 (Z.lor (Z.land (hsr_tag_path_and_LSDU_size skb) 0xF000)
                   (Z.land LSDU_size 0x0FFF)))).

(** ** The frame context *)

Definition node := nat.

(** [struct hsr_prp_frame_info].  A pointer that may be NULL is an
    [option]. *)
Record hsr_prp_frame_info := mk_frame {
  skb_std : option sk_buff;
  skb_hsr : option sk_buff;
  port_rcv : hsr_prp_port;
  node_src : option node;
  sequence_nr : Z;
  is_supervision : bool;
  is_vlan : bool;
  is_local_dest : bool;
  is_local_exclusive : bool
}.

Definition set_frame_skb_std (f : hsr_prp_frame_info) (s : option sk_buff) :=
  mk_frame s (skb_hsr f) (port_rcv f) (node_src f) (sequence_nr f)
           (is_supervision f) (is_vlan f) (is_local_dest f) (is_local_exclusive f).
Definition set_frame_skb_hsr (f : hsr_prp_frame_info) (s : option sk_buff) :=
  mk_frame (skb_std f) s (port_rcv f) (node_src f) (sequence_nr f)
           (is_supervision f) (is_vlan f) (is_local_dest f) (is_local_exclusive f).

(** ** The node registry *)

(** Modelled from the spec: the node registry ([hsr_prp_framereg.c]) is
    not in the sources at hand; the forwarding code only relies on the
    interface below (peer lookup, registration of an incoming sequence
    number, the test-and-set of an outgoing one on a port, the
    supervision handler, the address substitutions and the test for the
    node's own address).  [R] is the state of the registry; nothing is
    assumed about the operations, so what is proved holds for every
    registry. *)
Class Framereg (R : Type) := {
  hsr_prp_get_node : R -> hsr_prp_port -> sk_buff -> bool -> option node * R;
  hsr_register_frame_in : R -> option node -> hsr_prp_port -> Z -> R;
  hsr_register_frame_out : R -> hsr_prp_port -> option node -> Z -> bool * R;
  hsr_prp_handle_sup_frame : R -> option sk_buff -> option node -> hsr_prp_port -> R;
  hsr_addr_subst_source : R -> option node -> sk_buff -> sk_buff;
  hsr_addr_subst_dest : R -> option node -> sk_buff -> hsr_prp_port -> sk_buff;
  hsr_prp_addr_is_self : hsr_prp_priv -> list Z -> bool
}.

(** ** The world and the monad *)

Inductive warning :=
| WARN_malformed_frame
| WARN_vlan_not_supported
| WARN_sup_frame_when_offloaded
| WARN_tag_for_non_slave_port.

(** The calls the forwarding code makes to its collaborators, and its
    accesses to the shared counter [priv->sequence_nr]: the value a read
    finds and the value a write leaves. *)
Inductive event :=
| Ev_dev_queue_xmit (port : hsr_prp_port) (skb : sk_buff)
| Ev_netif_rx (port : hsr_prp_port) (skb : sk_buff)
| Ev_handle_sup_frame (skb : option sk_buff) (n : option node) (port : hsr_prp_port)
| Ev_kfree_skb (skb : sk_buff)
| Ev_warn (msg : warning)
| Ev_spin_lock_irqsave
| Ev_spin_unlock_irqrestore
| Ev_sequence_nr_read (v : Z)
| Ev_sequence_nr_write (v : Z).

Definition NET_RX_SUCCESS : Z := 0.
Definition NET_RX_DROP : Z := 1.

(** - [w_nodes]: the registry;
    - [w_allocs]: what the next [GFP_ATOMIC] allocations return, [None]
      for a failure and [Some b] for fresh memory that reads [b]; an
      exhausted script allocates zeroed memory;
    - [w_netif_rx]: what the next calls of [netif_rx] return;
    - [w_sequence_nr]: [priv->sequence_nr];
    - [w_stats]: [dev->stats], by device;
    - [w_trace]: the calls made so far, oldest first. *)
Record world (R : Type) := mk_world {
  w_nodes : R;
  w_allocs : list (option Z);
  w_netif_rx : list Z;
  w_sequence_nr : Z;
  w_stats : nat -> net_device_stats;
  w_trace : list event
}.
Arguments mk_world {R}.
Arguments w_nodes {R}.
Arguments w_allocs {R}.
Arguments w_netif_rx {R}.
Arguments w_sequence_nr {R}.
Arguments w_stats {R}.
Arguments w_trace {R}.

Inductive outcome (R A : Type) :=
| Ret (a : A) (w : world R)
| Oops (w : world R).
Arguments Ret {R A}.
Arguments Oops {R A}.

Definition M (R A : Type) : Type := world R -> outcome R A.

Definition ret {R A} (a : A) : M R A := fun w => Ret a w.

Definition bind {R A B} (m : M R A) (k : A -> M R B) : M R B :=
  fun w => match m w with
           | Ret a w' => k a w'
           | Oops w' => Oops w'
           end.

Definition oops {R A} : M R A := fun w => Oops w.

Declare Scope fwd_scope.
Delimit Scope fwd_scope with fwd.
Notation "x <- m ;; k" := (bind m (fun x => k))
  (at level 61, m at next level, right associativity) : fwd_scope.
Notation "m ;; k" := (bind m (fun _ => k))
  (at level 61, right associativity) : fwd_scope.
Open Scope fwd_scope.

Section Primitives.
Context {R : Type}.

Definition set_w_nodes (w : world R) (r : R) : world R :=
  mk_world r (w_allocs w) (w_netif_rx w) (w_sequence_nr w) (w_stats w) (w_trace w).
Definition set_w_allocs (w : world R) (l : list (option Z)) : world R :=
  mk_world (w_nodes w) l (w_netif_rx w) (w_sequence_nr w) (w_stats w) (w_trace w).
Definition set_w_netif_rx (w : world R) (l : list Z) : world R :=
  mk_world (w_nodes w) (w_allocs w) l (w_sequence_nr w) (w_stats w) (w_trace w).
Definition set_w_sequence_nr (w : world R) (s : Z) : world R :=
  mk_world (w_nodes w) (w_allocs w) (w_netif_rx w) s (w_stats w) (w_trace w).
Definition set_w_stats (w : world R) (st : nat -> net_device_stats) : world R :=
  mk_world (w_nodes w) (w_allocs w) (w_netif_rx w) (w_sequence_nr w) st (w_trace w).
Definition set_w_trace (w : world R) (tr : list event) : world R :=
  mk_world (w_nodes w) (w_allocs w) (w_netif_rx w) (w_sequence_nr w) (w_stats w) tr.

Definition emit (e : event) : M R unit :=
  fun w => Ret tt (set_w_trace w (w_trace w ++ [e])).

(** One [GFP_ATOMIC] allocation. *)
Definition alloc : M R (option Z) :=
  fun w => match w_allocs w with
           | [] => Ret (Some 0) w
           | a :: rest => Ret a (set_w_allocs w rest)
           end.

Definition netif_rx (port : hsr_prp_port) (skb : sk_buff) : M R Z :=
  fun w =>
    let w := set_w_trace w (w_trace w ++ [Ev_netif_rx port skb]) in
    match w_netif_rx w with
    | [] => Ret NET_RX_SUCCESS w
    | r :: rest => Ret r (set_w_netif_rx w rest)
    end.

Definition dev_queue_xmit (port : hsr_prp_port) (skb : sk_buff) : M R unit :=
  emit (Ev_dev_queue_xmit port skb).

Definition kfree_skb (skb : sk_buff) : M R unit := emit (Ev_kfree_skb skb).

(** [WARN_ONCE(1, ...)]: the kernel prints the first time only; the
    trace records every time the statement is reached. *)
Definition WARN_ONCE (msg : warning) : M R unit := emit (Ev_warn msg).

Definition upd_stats (st : nat -> net_device_stats) (d : nat)
    (f : net_device_stats -> net_device_stats) : nat -> net_device_stats :=
  fun d' => if Nat.eqb d' d then f (st d') else st d'.

(** [dev->stats.<field> op= ...] *)
Definition dev_stats (d : net_device) (f : net_device_stats -> net_device_stats)
    : M R unit :=
  fun w => Ret tt (set_w_stats w (upd_stats (w_stats w) (dev_id d) f)).

Definition inc_rx_dropped (s : net_device_stats) :=
  mk_stats (rx_packets s) (rx_bytes s) (rx_dropped s + 1) (tx_dropped s) (multicast s).
Definition inc_tx_dropped (s : net_device_stats) :=
  mk_stats (rx_packets s) (rx_bytes s) (rx_dropped s) (tx_dropped s + 1) (multicast s).
Definition inc_rx_packets (s : net_device_stats) :=
  mk_stats (rx_packets s + 1) (rx_bytes s) (rx_dropped s) (tx_dropped s) (multicast s).
Definition add_rx_bytes (n : Z) (s : net_device_stats) :=
  mk_stats (rx_packets s) (rx_bytes s + n) (rx_dropped s) (tx_dropped s) (multicast s).
Definition inc_multicast (s : net_device_stats) :=
  mk_stats (rx_packets s) (rx_bytes s) (rx_dropped s) (tx_dropped s) (multicast s + 1).

(** *** Socket-buffer primitives

    Modelled from the spec: [skb_pull], [skb_push], [__pskb_copy],
    [skb_clone] and [skb_reset_mac_header] are kernel primitives
    ([skbuff.h], [skbuff.c]) outside the sources at hand.  They are
    given their contract on a linear buffer: pull and push move [data],
    pull refusing to go past the tail and push faulting below [head];
    the copy allocates a buffer with the requested headroom (a negative
    one is outside its contract and counts as a fault), copies the
    bytes from [data] on and the header fields as they are; the clone
    allocates a second descriptor of the same buffer and, like every
    function handed a buffer, reads through its argument.

    Two limits of this rendering.  Offsets are natural numbers, where
    the kernel keeps [mac_header] in sixteen bits: the model follows
    the code for buffers whose headroom, with the six bytes of a tag,
    stays below 65536.  Buffers are values, where the kernel's clone
    shares the data area of the original: the bytes [hsr_prp_xmit] and
    [hsr_prp_deliver_master] write through a clone (the address
    substitutions) show in the buffer that is handed on and not in the
    buffer of the frame context it was cloned from. *)
Definition skb_pull (skb : sk_buff) (n : nat) : sk_buff :=
  if (skb_len skb <? n)%nat then skb
  else set_skb_data skb (skb_data skb + n).

Definition skb_push (skb : sk_buff) (n : nat) : M R sk_buff :=
  if (n <=? skb_data skb)%nat then ret (set_skb_data skb (skb_data skb - n))
  else oops.

Definition skb_reset_mac_header (skb : sk_buff) : sk_buff :=
  set_skb_mac_header skb (skb_data skb).

Definition pskb_copy_of (skb : sk_buff) (headroom : nat) (fill : Z) : sk_buff :=
  mk_skb (repeat fill headroom ++ skb_bytes skb) headroom (skb_mac_header skb)
         (ip_summed skb) (csum_start skb) (protocol skb) (pkt_type skb) (skb_dev skb).

Definition __pskb_copy (skb : sk_buff) (headroom : Z) : M R (option sk_buff) :=
  if headroom <? 0 then oops
  else
    a <- alloc ;;
    match a with
    | None => ret None
    | Some fill => ret (Some (pskb_copy_of skb (Z.to_nat headroom) fill))
    end.

Definition skb_clone (skb : option sk_buff) : M R (option sk_buff) :=
  match skb with
  | None => oops
  | Some s =>
      a <- alloc ;;
      match a with
      | None => ret None
      | Some _ => ret (Some s)
      end
  end.

(** ** The tag codec *)

(** [create_stripped_skb].  The input buffer is pulled and pushed back
    around the copy; its value after the call is returned along with
    the result so that the caller's pointer keeps denoting it. *)
Definition create_stripped_skb (skb_in : sk_buff) (frame : hsr_prp_frame_info)
    : M R (sk_buff * option sk_buff) :=
  let skb_in := skb_pull skb_in HSR_PRP_HLEN in
  skb <- __pskb_copy skb_in
           (Z.of_nat (skb_headroom skb_in) - Z.of_nat HSR_PRP_HLEN) ;;
  skb_in <- skb_push skb_in HSR_PRP_HLEN ;;
  match skb with
  | None => ret (skb_in, None)
  | Some skb =>
      let skb := skb_reset_mac_header skb in
      let skb :=
        if ip_summed skb =? CHECKSUM_PARTIAL
        then set_csum_start skb (u16 (csum_start skb - Z.of_nat HSR_PRP_HLEN))
        else skb in
      let copylen := (2 * ETH_ALEN + if is_vlan frame then VLAN_HLEN else 0)%nat in
      let src := skb_mac_header skb_in in
      let dst := skb_mac_header skb in
      let skb :=
        set_skb_head skb
          (mem_write (skb_head skb) dst (mem_read (skb_head skb_in) src copylen)) in
      let skb := set_protocol skb (h_proto skb) in
      ret (skb_in, Some skb)
  end.

(** [hsr_fill_tag] *)
Definition hsr_fill_tag (skb : sk_buff) (frame : hsr_prp_frame_info)
    (port : hsr_prp_port) (proto_ver : Z) : sk_buff :=
  let lane_id := if port_type_eqb (type port) HSR_PRP_PT_SLAVE_A then 0 else 1 in
  let lsdu_size := Z.of_nat (skb_len skb) - 14 in
  let lsdu_size := if is_vlan frame then lsdu_size - 4 else lsdu_size in
  let skb := set_hsr_tag_path skb (u16 lane_id) in
  let skb := set_hsr_tag_LSDU_size skb (u16 lsdu_size) in
  let skb := set_skb_head skb
               (put_be16 (skb_head skb) (skb_mac_header skb + 16) (sequence_nr frame)) in
  let skb := set_skb_head skb
               (put_be16 (skb_head skb) (skb_mac_header skb + 18) (h_proto skb)) in
  set_skb_head skb
    (put_be16 (skb_head skb) (skb_mac_header skb + 12)
       (if proto_ver =? 0 then ETH_P_PRP else ETH_P_HSR)).

(** [create_tagged_skb] *)
Definition create_tagged_skb (priv : hsr_prp_priv) (skb_o : sk_buff)
    (frame : hsr_prp_frame_info) (port : hsr_prp_port) : M R (option sk_buff) :=
  skb <- __pskb_copy skb_o
           (Z.of_nat (skb_headroom skb_o) + Z.of_nat HSR_PRP_HLEN) ;;
  match skb with
  | None => ret None
  | Some skb =>
      let skb := skb_reset_mac_header skb in
      let skb :=
        if ip_summed skb =? CHECKSUM_PARTIAL
        then set_csum_start skb (u16 (csum_start skb + Z.of_nat HSR_PRP_HLEN))
        else skb in
      let movelen := (ETH_HLEN + if is_vlan frame then VLAN_HLEN else 0)%nat in
      let src := skb_mac_header skb in
      skb <- skb_push skb HSR_PRP_HLEN ;;
      let dst := skb_data skb in
      let skb :=
        set_skb_head skb
          (mem_write (skb_head skb) dst (mem_read (skb_head skb) src movelen)) in
      let skb := skb_reset_mac_header skb in
      let skb := hsr_fill_tag skb frame port (prot_ver priv) in
      ret (Some skb)
  end.

End Primitives.

(** ** The forwarding code *)

Section Forward.
Context {R : Type} {FR : Framereg R}.

(** The registry operations, run on the registry of the world. *)
Definition get_node (port : hsr_prp_port) (skb : sk_buff) (is_sup : bool)
    : M R (option node) :=
  fun w =>
    let '(n, r) := hsr_prp_get_node (w_nodes w) port skb is_sup in
    Ret n (set_w_nodes w r).

Definition register_frame_in (n : option node) (port : hsr_prp_port) (seq : Z)
    : M R unit :=
  fun w =>
    Ret tt (set_w_nodes w (hsr_register_frame_in (w_nodes w) n port seq)).

Definition register_frame_out (port : hsr_prp_port) (n : option node) (seq : Z)
    : M R bool :=
  fun w =>
    let '(b, r) := hsr_register_frame_out (w_nodes w) port n seq in
    Ret b (set_w_nodes w r).

Definition handle_sup_frame (skb : option sk_buff) (n : option node)
    (port : hsr_prp_port) : M R unit :=
  fun w =>
    let w := set_w_nodes w (hsr_prp_handle_sup_frame (w_nodes w) skb n port) in
    Ret tt (set_w_trace w (w_trace w ++ [Ev_handle_sup_frame skb n port])).

Definition addr_subst_source (n : option node) (skb : sk_buff) : M R sk_buff :=
  fun w => Ret (hsr_addr_subst_source (w_nodes w) n skb) w.

Definition addr_subst_dest (n : option node) (skb : sk_buff) (port : hsr_prp_port)
    : M R sk_buff :=
  fun w => Ret (hsr_addr_subst_dest (w_nodes w) n skb port) w.

(** [ether_addr_equal]: the six bytes agree. *)
Definition ether_addr_equal (a b : list Z) : bool :=
  bytes_eqb (firstn ETH_ALEN a) (firstn ETH_ALEN b).

(** [is_supervision_frame].  The supervision tag ([path_and_HSR_ver],
    [sequence_nr], then the one-byte [HSR_TLV_type] and
    [HSR_TLV_length]) follows the Ethernet header, or the redundancy
    tag when the frame carries one. *)
Definition is_supervision_frame (priv : hsr_prp_priv) (skb : sk_buff) : bool :=
  if negb (ether_addr_equal (h_dest skb) (sup_multicast_addr priv)) then false
  else if negb ((h_proto skb =? ETH_P_PRP) || (h_proto skb =? ETH_P_HSR)) then false
  else
    let hsr_sup_tag :=
      if h_proto skb =? ETH_P_HSR then
        if negb (hsr_tag_encap_proto skb =? ETH_P_PRP) then None
        else Some (skb_mac_header skb + ETH_HLEN + HSR_PRP_HLEN)%nat
      else Some (skb_mac_header skb + ETH_HLEN)%nat in
    match hsr_sup_tag with
    | None => false
    | Some sup =>
        let HSR_TLV_type := get_u8 (skb_head skb) (sup + 4) in
        let HSR_TLV_length := get_u8 (skb_head skb) (sup + 5) in
        if negb (HSR_TLV_type =? HSR_TLV_ANNOUNCE)
           && negb (HSR_TLV_type =? HSR_TLV_LIFE_CHECK) then false
        else if negb (HSR_TLV_length =? 12)
                && negb (HSR_TLV_length =? sizeof_hsr_prp_sup_payload) then false
        else true
    end.

Definition is_master (port : hsr_prp_port) : bool :=
  port_type_eqb (type port) HSR_PRP_PT_MASTER.

(** [frame_get_stripped_skb]: the stripped form is made on first use
    and kept in the frame; the caller gets a clone. *)
Definition frame_get_stripped_skb (frame : hsr_prp_frame_info) (port : hsr_prp_port)
    : M R (hsr_prp_frame_info * option sk_buff) :=
  frame <- match skb_std frame with
           | Some _ => ret frame
           | None =>
               match skb_hsr frame with
               | None => oops
               | Some skb_in =>
                   r <- create_stripped_skb skb_in frame ;;
                   ret (set_frame_skb_std
                          (set_frame_skb_hsr frame (Some (fst r))) (snd r))
               end
           end ;;
  skb <- skb_clone (skb_std frame) ;;
  ret (frame, skb).

(** [frame_get_tagged_skb] *)
Definition frame_get_tagged_skb (priv : hsr_prp_priv) (frame : hsr_prp_frame_info)
    (port : hsr_prp_port) : M R (option sk_buff) :=
  match skb_hsr frame with
  | Some s => skb_clone (Some s)
  | None =>
      if negb (port_type_eqb (type port) HSR_PRP_PT_SLAVE_A)
         && negb (port_type_eqb (type port) HSR_PRP_PT_SLAVE_B)
      then WARN_ONCE WARN_tag_for_non_slave_port ;; ret None
      else
        match skb_std frame with
        | None => oops
        | Some skb_o => create_tagged_skb priv skb_o frame port
        end
  end.

(** [hsr_prp_deliver_master] *)
Definition hsr_prp_deliver_master (priv : hsr_prp_priv) (skb : sk_buff)
    (node_src : option node) (port : hsr_prp_port) : M R unit :=
  let dev := dev port in
  let was_multicast_frame := pkt_type skb =? PACKET_MULTICAST in
  skb <- (if negb (rx_offloaded priv) then addr_subst_source node_src skb
          else ret skb) ;;
  let skb := skb_pull skb ETH_HLEN in
  res <- netif_rx port skb ;;
  if res =? NET_RX_DROP then dev_stats dev inc_rx_dropped
  else
    dev_stats dev inc_rx_packets ;;
    dev_stats dev (add_rx_bytes (Z.of_nat (skb_len skb))) ;;
    if was_multicast_frame then dev_stats dev inc_multicast else ret tt.

(** [hsr_prp_xmit] *)
Definition hsr_prp_xmit (priv : hsr_prp_priv) (skb : sk_buff) (port : hsr_prp_port)
    (frame : hsr_prp_frame_info) : M R unit :=
  skb <- (if negb (rx_offloaded priv) && is_master (port_rcv frame)
          then
            skb <- addr_subst_dest (node_src frame) skb port ;;
            ret (set_skb_head skb
                   (mem_write (skb_head skb) (skb_mac_header skb + 6)
                      (firstn ETH_ALEN (dev_addr (dev port)))))
          else ret skb) ;;
  dev_queue_xmit port skb.

(** The body of the loop of [hsr_prp_forward_do] for one port; every
    [continue] of the source is a [ret frame] here. *)
Definition hsr_prp_forward_port (priv : hsr_prp_priv) (frame : hsr_prp_frame_info)
    (port : hsr_prp_port) : M R hsr_prp_frame_info :=
  if port_eqb port (port_rcv frame) then ret frame
  else if is_master port && negb (is_local_dest frame) then ret frame
  else if negb (is_master port) && is_local_exclusive frame then ret frame
  else
    sent <- (if negb (rx_offloaded priv)
             then register_frame_out port (node_src frame) (sequence_nr frame)
             else ret false) ;;
    if sent then ret frame
    else if is_supervision frame && is_master port && negb (rx_offloaded priv)
    then handle_sup_frame (skb_hsr frame) (node_src frame) (port_rcv frame) ;;
         ret frame
    else if l2_fwd_offloaded priv
            && ((port_type_eqb (type (port_rcv frame)) HSR_PRP_PT_SLAVE_A
                 && port_type_eqb (type port) HSR_PRP_PT_SLAVE_B)
                || (port_type_eqb (type (port_rcv frame)) HSR_PRP_PT_SLAVE_B
                    && port_type_eqb (type port) HSR_PRP_PT_SLAVE_A))
    then ret frame
    else
      r <- (if negb (is_master port)
            then skb <- frame_get_tagged_skb priv frame port ;; ret (frame, skb)
            else frame_get_stripped_skb frame port) ;;
      let frame := fst r in
      match snd r with
      | None => ret frame
      | Some skb =>
          let skb := set_skb_dev skb (dev port) in
          (if is_master port
           then hsr_prp_deliver_master priv skb (node_src frame) port
           else hsr_prp_xmit priv skb port frame) ;;
          ret frame
      end.

(** [hsr_prp_for_each_port] walks the list of ports of the node. *)
Fixpoint for_each_port (priv : hsr_prp_priv) (l : list hsr_prp_port)
    (frame : hsr_prp_frame_info) : M R hsr_prp_frame_info :=
  match l with
  | [] => ret frame
  | port :: rest =>
      frame <- hsr_prp_forward_port priv frame port ;;
      for_each_port priv rest frame
  end.

(** [hsr_prp_forward_do] *)
Definition hsr_prp_forward_do (priv : hsr_prp_priv) (frame : hsr_prp_frame_info)
    : M R hsr_prp_frame_info :=
  for_each_port priv (ports priv) frame.

Definition set_frame_local (f : hsr_prp_frame_info) (dest excl : bool) :=
  mk_frame (skb_std f) (skb_hsr f) (port_rcv f) (node_src f) (sequence_nr f)
           (is_supervision f) (is_vlan f) dest excl.

(** [check_local_dest].  The buffer is written ([pkt_type]); its new
    value is returned with the frame. *)
Definition check_local_dest (priv : hsr_prp_priv) (skb : sk_buff)
    (frame : hsr_prp_frame_info) : sk_buff * hsr_prp_frame_info :=
  let '(skb, excl) :=
    if hsr_prp_addr_is_self priv (h_dest skb)
    then (set_pkt_type skb PACKET_HOST, true)
    else (skb, false) in
  let dest :=
    if (pkt_type skb =? PACKET_HOST)
       || (pkt_type skb =? PACKET_MULTICAST)
       || (pkt_type skb =? PACKET_BROADCAST)
    then true else false in
  (skb, set_frame_local frame dest excl).

(** [priv->sequence_nr], a 16-bit counter: [frame->sequence_nr =
    priv->sequence_nr] reads it and [priv->sequence_nr++] writes it;
    both accesses are recorded in the trace, where their place relative
    to the lock events shows. *)
Definition read_sequence_nr : M R Z :=
  fun w =>
    Ret (w_sequence_nr w)
        (set_w_trace w (w_trace w ++ [Ev_sequence_nr_read (w_sequence_nr w)])).
Definition incr_sequence_nr : M R unit :=
  fun w =>
    let v := u16 (w_sequence_nr w + 1) in
    Ret tt (set_w_trace (set_w_sequence_nr w v)
                        (w_trace w ++ [Ev_sequence_nr_write v])).

(** The frame context before [hsr_prp_fill_frame_info] has written it:
    every field is written before it is read, except [node_src] when
    receive is offloaded, which no callee reads then. *)
Definition frame_uninit (port : hsr_prp_port) : hsr_prp_frame_info :=
  mk_frame None None port None 0 false false false false.

(** [hsr_prp_fill_frame_info].  Returns the return code and the frame;
    [frame->skb_std] or [frame->skb_hsr] is the very buffer [skb], so the
    write of [check_local_dest] shows through it. *)
Definition hsr_prp_fill_frame_info (priv : hsr_prp_priv) (frame : hsr_prp_frame_info)
    (skb : sk_buff) (port : hsr_prp_port) : M R (Z * hsr_prp_frame_info) :=
  let frame :=
    mk_frame (skb_std frame) (skb_hsr frame) (port_rcv frame) (node_src frame)
             (sequence_nr frame) (is_supervision_frame priv skb) (is_vlan frame)
             (is_local_dest frame) (is_local_exclusive frame) in
  if is_supervision frame && rx_offloaded priv && negb (is_master port)
  then WARN_ONCE WARN_sup_frame_when_offloaded ;; ret (-1, frame)
  else
    r <- (if negb (rx_offloaded priv)
          then
            n <- get_node port skb (is_supervision frame) ;;
            ret (mk_frame (skb_std frame) (skb_hsr frame) (port_rcv frame) n
                          (sequence_nr frame) (is_supervision frame) (is_vlan frame)
                          (is_local_dest frame) (is_local_exclusive frame),
                 match n with None => false | Some _ => true end)
          else ret (frame, true)) ;;
    let frame := fst r in
    if negb (snd r) then ret (-1, frame)
    else
      let vlan := h_proto skb =? ETH_P_8021Q in
      (if vlan then WARN_ONCE WARN_vlan_not_supported else ret tt) ;;
      let tagged := (h_proto skb =? ETH_P_PRP) || (h_proto skb =? ETH_P_HSR) in
      seq <- (if tagged then ret (hsr_get_skb_sequence_nr skb)
              else
                emit Ev_spin_lock_irqsave ;;
                s <- read_sequence_nr ;;
                incr_sequence_nr ;;
                emit Ev_spin_unlock_irqrestore ;;
                ret s) ;;
      let frame :=
        mk_frame (if tagged then None else Some skb)
                 (if tagged then Some skb else None)
                 port (node_src frame) seq (is_supervision frame) vlan
                 (is_local_dest frame) (is_local_exclusive frame) in
      let '(skb, frame) := check_local_dest priv skb frame in
      let frame :=
        if tagged then set_frame_skb_hsr frame (Some skb)
        else set_frame_skb_std frame (Some skb) in
      ret (0, frame).

(** The label [out_drop] of [hsr_prp_forward_skb]. *)
Definition out_drop (skb : sk_buff) (port : hsr_prp_port) : M R unit :=
  dev_stats (dev port) inc_tx_dropped ;;
  kfree_skb skb.

(** [hsr_prp_forward_skb] *)
Definition hsr_prp_forward_skb (priv : hsr_prp_priv) (skb : sk_buff)
    (port : hsr_prp_port) : M R unit :=
  if negb (Nat.eqb (skb_mac_header skb) (skb_data skb))
  then WARN_ONCE WARN_malformed_frame ;; out_drop skb port
  else
    r <- hsr_prp_fill_frame_info priv (frame_uninit port) skb port ;;
    let frame := snd r in
    if fst r <? 0 then out_drop skb port
    else
      (if negb (rx_offloaded priv)
       then register_frame_in (node_src frame) port (sequence_nr frame)
       else ret tt) ;;
      frame <- hsr_prp_forward_do priv frame ;;
      match skb_hsr frame with Some s => kfree_skb s | None => ret tt end ;;
      match skb_std frame with Some s => kfree_skb s | None => ret tt end.

End Forward.

(** ** A concrete registry and a concrete node *)

(** Modelled from the spec: a registry that follows the words of the
    design document for the operations of [hsr_prp_framereg.c], which is
    not in the sources at hand.  Peers are known by their source address;
    an unknown sender is created only for a supervision frame;
    [register_outgoing] tests and sets the triple (port, peer, sequence
    number); the node's own address is the address of the master device.
    It serves to run the forwarding code on concrete frames. *)
Record simple_reg := mk_reg {
  reg_known : list (list Z);
  reg_seen : list (nat * option node * Z);
  reg_sent : list (nat * option node * Z)
}.

Fixpoint find_addr (a : list Z) (l : list (list Z)) (i : nat) : option nat :=
  match l with
  | [] => None
  | b :: l' => if bytes_eqb a b then Some i else find_addr a l' (S i)
  end.

Definition node_opt_eqb (a b : option node) : bool :=
  match a, b with
  | None, None => true
  | Some x, Some y => Nat.eqb x y
  | _, _ => false
  end.

Definition triple_eqb (x y : nat * option node * Z) : bool :=
  Nat.eqb (fst (fst x)) (fst (fst y))
  && node_opt_eqb (snd (fst x)) (snd (fst y))
  && (snd x =? snd y).

Definition simple_get_node (r : simple_reg) (port : hsr_prp_port) (skb : sk_buff)
    (is_sup : bool) : option node * simple_reg :=
  match find_addr (h_source skb) (reg_known r) 0 with
  | Some i => (Some i, r)
  | None =>
      if is_sup
      then (Some (length (reg_known r)),
            mk_reg (reg_known r ++ [h_source skb]) (reg_seen r) (reg_sent r))
      else (None, r)
  end.

Definition simple_register_frame_out (r : simple_reg) (port : hsr_prp_port)
    (n : option node) (seq : Z) : bool * simple_reg :=
  if existsb (triple_eqb (port_id port, n, seq)) (reg_sent r) then (true, r)
  else (false, mk_reg (reg_known r) (reg_seen r) ((port_id port, n, seq) :: reg_sent r)).

Definition simple_addr_is_self (priv : hsr_prp_priv) (addr : list Z) : bool :=
  match find (fun p => port_type_eqb (type p) HSR_PRP_PT_MASTER) (ports priv) with
  | Some master => bytes_eqb (firstn ETH_ALEN addr) (firstn ETH_ALEN (dev_addr (dev master)))
  | None => false
  end.

#[export] Instance simple_framereg : Framereg simple_reg := {
  hsr_prp_get_node := simple_get_node;
  hsr_register_frame_in := fun r n port seq =>
    mk_reg (reg_known r) ((port_id port, n, seq) :: reg_seen r) (reg_sent r);
  hsr_register_frame_out := simple_register_frame_out;
  hsr_prp_handle_sup_frame := fun r _ _ _ => r;
  hsr_addr_subst_source := fun _ _ skb => skb;
  hsr_addr_subst_dest := fun _ _ skb _ => skb;
  hsr_prp_addr_is_self := simple_addr_is_self
}.

Module Sample.

Definition mac_master : list Z := [2; 0; 0; 0; 0; 1].
Definition mac_peer : list Z := [2; 0; 0; 0; 0; 9].
Definition mac_bcast : list Z := [255; 255; 255; 255; 255; 255].
Definition mac_sup : list Z := [1; 21; 78; 0; 1; 0].

Definition dev_m := mk_dev 0 mac_master.
Definition dev_a := mk_dev 1 mac_master.
Definition dev_b := mk_dev 2 mac_master.
Definition dev_i := mk_dev 3 mac_master.

Definition port_m := mk_port 10 HSR_PRP_PT_MASTER dev_m.
Definition port_a := mk_port 11 HSR_PRP_PT_SLAVE_A dev_a.
Definition port_b := mk_port 12 HSR_PRP_PT_SLAVE_B dev_b.
Definition port_i := mk_port 13 HSR_PRP_PT_INTERLINK dev_i.

(** A node with a master and two slaves, HSR tagging, no offload. *)
Definition priv0 : hsr_prp_priv :=
  mk_priv [port_m; port_a; port_b] mac_sup 1 false false.

Definition payload : list Z := [69; 0; 0; 20; 1; 2; 3; 4].

(** An untagged IPv4 frame with [room] bytes of headroom. *)
Definition untagged (room : nat) (dst src : list Z) (ptype : Z) : sk_buff :=
  mk_skb (repeat 0 room ++ dst ++ src ++ [8; 0] ++ payload)
         room room 0 0 0x0800 ptype None.

(** The same frame with an HSR tag: lane [lane], size [size],
    sequence number [seq]. *)
Definition tagged (room : nat) (dst src : list Z) (ptype : Z) (lane size seq : Z)
    : sk_buff :=
  mk_skb (repeat 0 room ++ dst ++ src ++ be16_bytes ETH_P_HSR
            ++ be16_bytes (lane * 4096 + size) ++ be16_bytes seq
            ++ [8; 0] ++ payload)
         room room 0 0 ETH_P_HSR ptype None.

(** A VLAN frame (ethertype 0x8100) carrying the same payload. *)
Definition vlan_frame (room : nat) (dst src : list Z) (ptype : Z) : sk_buff :=
  mk_skb (repeat 0 room ++ dst ++ src ++ [129; 0; 0; 5; 8; 0] ++ payload)
         room room 0 0 ETH_P_8021Q ptype None.

Definition stats0 : nat -> net_device_stats := fun _ => mk_stats 0 0 0 0 0.

(** A world where the peer is known, every allocation succeeds and the
    shared counter stands at [seq]. *)
Definition world0 (seq : Z) : world simple_reg :=
  mk_world (mk_reg [mac_master; mac_peer] [] []) [] [] seq stats0 [].

(** The same world, with the outcomes of the next allocations given. *)
Definition world_allocs (seq : Z) (allocs : list (option Z)) : world simple_reg :=
  mk_world (mk_reg [mac_master; mac_peer] [] []) allocs [] seq stats0 [].

End Sample.

(** ** Vocabulary of the statements *)

(** Whether the next [n] allocations of a script succeed. *)
Fixpoint allocs_succeed (n : nat) (l : list (option Z)) : Prop :=
  match n, l with
  | O, _ => True
  | S _, [] => True
  | S n', Some _ :: l' => allocs_succeed n' l'
  | S _, None :: _ => False
  end.

(** The lane [hsr_fill_tag] writes for a port, and the outer ethertype
    it writes for a protocol version. *)
Definition lane_of (port : hsr_prp_port) : Z :=
  if port_type_eqb (type port) HSR_PRP_PT_SLAVE_A then 0 else 1.

Definition ethertype_of (ver : Z) : Z := if ver =? 0 then ETH_P_PRP else ETH_P_HSR.

(** The checksum start after tagging and after stripping. *)
Definition tagged_csum (s c : Z) : Z :=
  if s =? CHECKSUM_PARTIAL then u16 (c + Z.of_nat HSR_PRP_HLEN) else c.

Definition stripped_csum (s c : Z) : Z :=
  if s =? CHECKSUM_PARTIAL then u16 (c - Z.of_nat HSR_PRP_HLEN) else c.

Module Frames.
Import Sample.

(** Frame contexts for the codec: an untagged frame about to be tagged
    with sequence number [seq], and a tagged frame about to be
    stripped. *)
Definition frame_to_tag (seq : Z) : hsr_prp_frame_info :=
  mk_frame None None port_m None seq false false true false.
Definition frame_to_strip : hsr_prp_frame_info :=
  mk_frame None None port_a None 0 false false true false.

(** A tagged frame as it comes off the wire after padding: 28 bytes
    long, lane 1, sequence number 7, and a size field of 10. *)
Definition padded_tagged : sk_buff :=
  tagged 16 mac_bcast mac_peer PACKET_BROADCAST 1 10 7.

(** The same frame with the size field [hsr_fill_tag] computes. *)
Definition exact_tagged : sk_buff :=
  tagged 16 mac_bcast mac_peer PACKET_BROADCAST 1 14 7.

(** A unicast frame for the node itself, and a malformed buffer whose
    mac header is not where the data starts. *)
Definition to_self : sk_buff := untagged 16 mac_master mac_peer PACKET_OTHERHOST.
Definition malformed : sk_buff :=
  set_skb_mac_header (untagged 16 mac_bcast mac_peer PACKET_BROADCAST) 2.

(** An HSR supervision frame: life check, payload of one address. *)
Definition sup_frame : sk_buff :=
  mk_skb (repeat 0 16 ++ mac_sup ++ mac_peer ++ be16_bytes ETH_P_HSR
            ++ be16_bytes 4124 ++ be16_bytes 3 ++ be16_bytes ETH_P_PRP
            ++ [0; 1; 0; 3; 23; 6] ++ mac_peer)
         16 16 0 0 ETH_P_HSR PACKET_MULTICAST None.

(** The frame contexts the classifier builds for the broadcast frame,
    untagged and tagged, received on slave A with the counter at 5. *)
Definition frame_untagged : hsr_prp_frame_info :=
  mk_frame (Some (untagged 16 mac_bcast mac_peer PACKET_BROADCAST)) None
           port_a (Some 1%nat) 5 false false true false.
Definition frame_tagged : hsr_prp_frame_info :=
  mk_frame None (Some exact_tagged) port_a (Some 1%nat) 7 false false true false.
Definition frame_to_self : hsr_prp_frame_info :=
  mk_frame (Some (set_pkt_type to_self PACKET_HOST)) None
           port_a (Some 1%nat) 5 false false true true.

End Frames.

(** The world an outcome ends in, fault or not. *)
Definition final_world {R A} (o : outcome R A) : world R :=
  match o with
  | Ret _ w => w
  | Oops w => w
  end.

(** Where the supervision tag of a frame starts, and its two one-byte
    fields. *)
Definition sup_tag_offset (skb : sk_buff) : nat :=
  (skb_mac_header skb + ETH_HLEN
   + if (h_proto skb =? ETH_P_HSR)%Z then HSR_PRP_HLEN else 0)%nat.
Definition HSR_TLV_type (skb : sk_buff) : Z :=
  get_u8 (skb_head skb) (sup_tag_offset skb + 4).
Definition HSR_TLV_length (skb : sk_buff) : Z :=
  get_u8 (skb_head skb) (sup_tag_offset skb + 5).

(** Egress and local-delivery attempts recorded in a trace. *)
Definition is_egress (e : event) : bool :=
  match e with Ev_dev_queue_xmit _ _ => true | _ => false end.
Definition is_delivery (e : event) : bool :=
  match e with Ev_netif_rx _ _ => true | _ => false end.

(** Accesses to the shared sequence counter. *)
Definition is_counter_access (e : event) : bool :=
  match e with
  | Ev_sequence_nr_read _ | Ev_sequence_nr_write _ => true
  | _ => false
  end.

Definition is_warning (e : event) : Prop :=
  match e with Ev_warn _ => True | _ => False end.

(** The lock discipline of the sequence counter along a trace, from a
    state [held] of the lock: the lock is taken only when free and
    released only when held, and the counter is read and written only
    while the lock is held.  The result is the final state of the lock,
    or [None] when the discipline is broken. *)
Fixpoint lock_discipline (held : bool) (tr : list event) : option bool :=
  match tr with
  | [] => Some held
  | Ev_spin_lock_irqsave :: tr' =>
      if held then None else lock_discipline true tr'
  | Ev_spin_unlock_irqrestore :: tr' =>
      if held then lock_discipline false tr' else None
  | Ev_sequence_nr_read _ :: tr' | Ev_sequence_nr_write _ :: tr' =>
      if held then lock_discipline held tr' else None
  | _ :: tr' => lock_discipline held tr'
  end.
Definition egress_attempts (tr : list event) : nat := length (filter is_egress tr).
Definition delivery_attempts (tr : list event) : nat := length (filter is_delivery tr).

(** Dispatch attempts (of either kind) made to port [p]. *)
Definition is_dispatch_to (p : hsr_prp_port) (e : event) : bool :=
  match e with
  | Ev_dev_queue_xmit q _ | Ev_netif_rx q _ => port_eqb q p
  | _ => false
  end.
Definition dispatches (p : hsr_prp_port) (tr : list event) : nat :=
  length (filter (is_dispatch_to p) tr).

Section Vocabulary.
Context {R : Type} {FR : Framereg R}.

(** The frame passes the two checks that precede framing detection in
    [hsr_prp_fill_frame_info]: it is not a supervision frame seen on a
    slave while receive is offloaded, and its sender is found (or
    receive is offloaded and no peer is looked up). *)
Definition passes_checks (priv : hsr_prp_priv) (skb : sk_buff) (port : hsr_prp_port)
    (w : world R) : bool :=
  negb (is_supervision_frame priv skb && rx_offloaded priv && negb (is_master port))
  && (rx_offloaded priv
      || match fst (hsr_prp_get_node (w_nodes w) port skb
                      (is_supervision_frame priv skb)) with
         | Some _ => true
         | None => false
         end).

End Vocabulary.

Section Evolution.
Context {R : Type}.

(** [evolves phi w w']: from [w] to [w'] the trace has grown by events
    that satisfy [phi], and no transmit-drop counter has moved. *)
Definition evolves (phi : event -> Prop) (w w' : world R) : Prop :=
  (exists ext, w_trace w' = w_trace w ++ ext /\ Forall phi ext)
  /\ (forall d, tx_dropped (w_stats w' d) = tx_dropped (w_stats w d)).

(** [sat phi Q m]: whatever the world, running [m] makes it evolve
    under [phi], fault or not, and a result satisfies [Q]. *)
Definition sat (phi : event -> Prop) {A : Type} (Q : A -> Prop) (m : M R A) : Prop :=
  forall w, match m w with
            | Ret a w' => Q a /\ evolves phi w w'
            | Oops w' => evolves phi w w'
            end.

End Evolution.

(** Events other than a dispatch to a port. *)
Definition not_dispatch (e : event) : Prop :=
  is_egress e = false /\ is_delivery e = false.

(** Events a frame addressed to the node alone may cause: no egress, and
    deliveries on master ports only. *)
Definition master_only (e : event) : Prop :=
  match e with
  | Ev_dev_queue_xmit _ _ => False
  | Ev_netif_rx p _ => port_type_eqb (type p) HSR_PRP_PT_MASTER = true
  | _ => True
  end.

(** The frame a port leaves behind differs from the one it found in its
    two buffers at most. *)
Definition same_flags (f f' : hsr_prp_frame_info) : Prop :=
  port_rcv f' = port_rcv f /\ node_src f' = node_src f
  /\ sequence_nr f' = sequence_nr f /\ is_supervision f' = is_supervision f
  /\ is_vlan f' = is_vlan f /\ is_local_dest f' = is_local_dest f
  /\ is_local_exclusive f' = is_local_exclusive f.


(** *** The exclusion predicates of the forwarding loop, as the design
    document lists them (section 4.4) *)

Inductive exclusion :=
| Excl_receiving_port
| Excl_master_not_local
| Excl_exclusive_local
| Excl_already_sent
| Excl_supervision
| Excl_cross_slave.

(** The two roles are exactly the pair slave-A, slave-B. *)
Definition slave_pair (a b : hsr_prp_port_type) : bool :=
  match a, b with
  | HSR_PRP_PT_SLAVE_A, HSR_PRP_PT_SLAVE_B
  | HSR_PRP_PT_SLAVE_B, HSR_PRP_PT_SLAVE_A => true
  | _, _ => false
  end.

(** The six predicates in the order of the document; [already_sent] is
    what [register_outgoing] reports for the port. *)
Definition exclusion_predicates (priv : hsr_prp_priv) (frame : hsr_prp_frame_info)
    (port : hsr_prp_port) (already_sent : bool) : list (exclusion * bool) :=
  [ (Excl_receiving_port, port_eqb port (port_rcv frame));
    (Excl_master_not_local,
     port_type_eqb (type port) HSR_PRP_PT_MASTER && negb (is_local_dest frame));
    (Excl_exclusive_local,
     negb (port_type_eqb (type port) HSR_PRP_PT_MASTER) && is_local_exclusive frame);
    (Excl_already_sent, negb (rx_offloaded priv) && already_sent);
    (Excl_supervision,
     is_supervision frame && port_type_eqb (type port) HSR_PRP_PT_MASTER
     && negb (rx_offloaded priv));
    (Excl_cross_slave,
     l2_fwd_offloaded priv && slave_pair (type (port_rcv frame)) (type port)) ].

(** The first predicate that holds, if any. *)
Fixpoint first_match (l : list (exclusion * bool)) : option exclusion :=
  match l with
  | [] => None
  | (e, true) :: _ => Some e
  | (_, false) :: l' => first_match l'
  end.

Section Exclusions.
Context {R : Type} {FR : Framereg R}.

Definition already_sent (frame : hsr_prp_frame_info) (port : hsr_prp_port)
    (w : world R) : bool :=
  fst (hsr_register_frame_out (w_nodes w) port (node_src frame) (sequence_nr frame)).

(** The world once the registry has been consulted for the port (it is
    not when receive is offloaded). *)
Definition consulted (priv : hsr_prp_priv) (frame : hsr_prp_frame_info)
    (port : hsr_prp_port) (w : world R) : world R :=
  if rx_offloaded priv then w
  else set_w_nodes w
         (snd (hsr_register_frame_out (w_nodes w) port (node_src frame)
                 (sequence_nr frame))).

(** The world a skipped port leaves: untouched by the first three
    predicates, with the registry consulted by the later ones, and with
    the frame handed to the supervision handler by the fifth. *)
Definition skipped_world (priv : hsr_prp_priv) (frame : hsr_prp_frame_info)
    (port : hsr_prp_port) (w : world R) (e : exclusion) : world R :=
  match e with
  | Excl_receiving_port | Excl_master_not_local | Excl_exclusive_local => w
  | Excl_already_sent | Excl_cross_slave => consulted priv frame port w
  | Excl_supervision =>
      final_world (handle_sup_frame (skb_hsr frame) (node_src frame) (port_rcv frame)
                     (consulted priv frame port w))
  end.

(** What it takes for the copy of a surviving port to be made: the
    allocator delivers, the frame context holds a buffer (long enough
    for the tag to be pulled when it is a tagged one), and a frame that
    arrived untagged is only tagged for a slave. *)
Definition copy_obtainable (frame : hsr_prp_frame_info) (port : hsr_prp_port)
    (w : world R) : Prop :=
  allocs_succeed 2 (w_allocs w)
  /\ match skb_hsr frame with
     | Some t => (HSR_PRP_HLEN <= skb_len t)%nat
     | None =>
         skb_std frame <> None
         /\ (type port = HSR_PRP_PT_MASTER \/ type port = HSR_PRP_PT_SLAVE_A
             \/ type port = HSR_PRP_PT_SLAVE_B)
     end.


(** The tail of the loop body of [hsr_prp_forward_do], past its six
    tests: the copy for the port and its dispatch. *)
Definition copy_and_dispatch (priv : hsr_prp_priv) (frame : hsr_prp_frame_info)
    (port : hsr_prp_port) : M R hsr_prp_frame_info :=
  r <- (if negb (is_master port)
        then skb <- frame_get_tagged_skb priv frame port ;; ret (frame, skb)
        else frame_get_stripped_skb frame port) ;;
  let frame := fst r in
  match snd r with
  | None => ret frame
  | Some skb =>
      let skb := set_skb_dev skb (dev port) in
      (if is_master port
       then hsr_prp_deliver_master priv skb (node_src frame) port
       else hsr_prp_xmit priv skb port frame) ;;
      ret frame
  end.

End Exclusions.

(** Splits off the first element of a list known to be long enough. *)
Ltac explode_list l H :=
  destruct l as [|? l];
  [exfalso; cbn [length] in H;
   unfold ETH_HLEN, HSR_PRP_HLEN, VLAN_HLEN in H; lia|].


(** ** Further vocabulary: the codec seen from outside *)

(** The number of bytes the VLAN flag of a frame context adds to the
    Ethernet header. *)
Definition vlan_len (frame : hsr_prp_frame_info) : nat :=
  if is_vlan frame then VLAN_HLEN else 0.

(** The byte a checksum start designates: [csum_start] is an offset
    from [head]. *)
Definition csum_byte (skb : sk_buff) : Z :=
  nth (Z.to_nat (csum_start skb)) (skb_head skb) 0.

(** What the guards of the forwarding loop allow for a frame: a local
    delivery on a master port other than the receiving one, for a frame
    locally destined that the supervision handler does not take; an
    egress on a port that is neither master nor the receiving one, for a
    frame not addressed to the node alone, and not across the two slaves
    when the hardware forwards between them; the supervision handler
    for a supervision frame when receive is not offloaded, with the
    source node and the receiving port of the frame; warnings; and
    nothing else. *)
Definition allowed (priv : hsr_prp_priv) (frame : hsr_prp_frame_info) (e : event)
    : Prop :=
  match e with
  | Ev_netif_rx p _ =>
      port_type_eqb (type p) HSR_PRP_PT_MASTER = true
      /\ port_eqb p (port_rcv frame) = false
      /\ is_local_dest frame = true
      /\ is_supervision frame && negb (rx_offloaded priv) = false
  | Ev_dev_queue_xmit p _ =>
      port_type_eqb (type p) HSR_PRP_PT_MASTER = false
      /\ port_eqb p (port_rcv frame) = false
      /\ is_local_exclusive frame = false
      /\ l2_fwd_offloaded priv && slave_pair (type (port_rcv frame)) (type p) = false
  | Ev_handle_sup_frame _ n p =>
      is_supervision frame = true /\ rx_offloaded priv = false
      /\ n = node_src frame /\ p = port_rcv frame
  | Ev_warn _ => True
  | Ev_kfree_skb _ | Ev_spin_lock_irqsave | Ev_spin_unlock_irqrestore
  | Ev_sequence_nr_read _ | Ev_sequence_nr_write _ => False
  end.

(** Each dispatch goes to the sink of its port: deliveries on master
    ports, egress on the others. *)
Definition sink_matches_role (e : event) : Prop :=
  match e with
  | Ev_netif_rx p _ => type p = HSR_PRP_PT_MASTER
  | Ev_dev_queue_xmit p _ => type p <> HSR_PRP_PT_MASTER
  | _ => True
  end.

Section Locality.
Context {R : Type} {FR : Framereg R}.

(** Whether [check_local_dest] finds a buffer locally destined: it is
    addressed to the node, or its packet type is host, multicast or
    broadcast. *)
Definition local_dest_of (priv : hsr_prp_priv) (skb : sk_buff) : bool :=
  hsr_prp_addr_is_self priv (h_dest skb)
  || (pkt_type skb =? PACKET_HOST)
  || (pkt_type skb =? PACKET_MULTICAST)
  || (pkt_type skb =? PACKET_BROADCAST).

(** The received buffer as the classifier leaves it: its packet type is
    set to host when it is addressed to the node. *)
Definition classified_skb (priv : hsr_prp_priv) (skb : sk_buff) : sk_buff :=
  if hsr_prp_addr_is_self priv (h_dest skb) then set_pkt_type skb PACKET_HOST
  else skb.

End Locality.



(** Events of the classifier: warnings, the accesses to the sequence
    counter and the lock around them. *)
Definition is_bookkeeping (e : event) : Prop :=
  match e with
  | Ev_warn _ | Ev_spin_lock_irqsave | Ev_spin_unlock_irqrestore
  | Ev_sequence_nr_read _ | Ev_sequence_nr_write _ => True
  | _ => False
  end.

Section Quiet.
Context {R : Type}.

(** What the forwarding loop leaves alone in the world: the sequence
    counter, and, with receive offload, the registry. *)
Definition quiet (offl : bool) (w w' : world R) : Prop :=
  w_sequence_nr w' = w_sequence_nr w
  /\ (offl = true -> w_nodes w' = w_nodes w).

(** [keeps offl Q m]: whatever the world, running [m] leaves it
    [quiet], fault or not, and a result satisfies [Q]. *)
Definition keeps (offl : bool) {A : Type} (Q : A -> Prop) (m : M R A) : Prop :=
  forall w, match m w with
            | Ret a w' => Q a /\ quiet offl w w'
            | Oops w' => quiet offl w w'
            end.

End Quiet.

(** The buffers of the frame context along the loop: the tagged form
    stays, and so does the stripped form once it is there. *)
Definition buffers_kept (f f' : hsr_prp_frame_info) : Prop :=
  skb_hsr f' = skb_hsr f
  /\ (skb_std f <> None -> skb_std f' = skb_std f).

(** The tagged form of the frame, if any, is long enough for the tag to
    be pulled. *)
Definition tag_pullable (f : hsr_prp_frame_info) : Prop :=
  match skb_hsr f with
  | Some t => (HSR_PRP_HLEN <= skb_len t)%nat
  | None => True
  end.

(** [e] is the transmission on port [p] of a tagged copy of the frame
    [f] of the frame context [frame]. *)
Definition is_tagged_copy (priv : hsr_prp_priv) (frame : hsr_prp_frame_info)
    (f : sk_buff) (p : hsr_prp_port) (e : event) : Prop :=
  exists s,
    e = Ev_dev_queue_xmit p s
    /\ skb_dev s = Some (dev p)
    /\ h_proto s = ethertype_of (prot_ver priv)
    /\ get_hsr_tag_path s = lane_of p
    /\ hsr_tag_sequence_nr s = u16 (sequence_nr frame)
    /\ skb_len s = (skb_len f + HSR_PRP_HLEN)%nat.

(** The ports of a list other than the receiving one. *)
Definition other_ports (frame : hsr_prp_frame_info) (l : list hsr_prp_port)
    : list hsr_prp_port :=
  filter (fun p => negb (port_eqb p (port_rcv frame))) l.

(** Further sample data: a node with receive and forwarding offload, a
    sender the registry does not know, and buffers whose checksum is
    left to the device. *)
Module Scenes.
Import Sample Frames.

Definition priv_off : hsr_prp_priv :=
  mk_priv [port_m; port_a; port_b] mac_sup 1 true true.

Definition mac_stranger : list Z := [2; 0; 0; 0; 0; 7].

(** A frame the host sends, and its frame context. *)
Definition host_frame : sk_buff := untagged 16 mac_peer mac_master PACKET_HOST.
Definition frame_from_host : hsr_prp_frame_info :=
  mk_frame (Some host_frame) None port_m None 5 false false false false.

(** The broadcast frame, untagged and tagged, with a checksum to be
    filled in at the start of the payload. *)
Definition csum_untagged : sk_buff :=
  mk_skb (skb_head (untagged 16 mac_bcast mac_peer PACKET_BROADCAST))
         16 16 CHECKSUM_PARTIAL 30 0x0800 PACKET_BROADCAST None.
Definition csum_tagged : sk_buff :=
  mk_skb (skb_head exact_tagged) 16 16 CHECKSUM_PARTIAL 36 ETH_P_HSR
         PACKET_BROADCAST None.

(** A frame between two other hosts, seen in promiscuous mode. *)
Definition transit : sk_buff := untagged 16 mac_stranger mac_peer PACKET_OTHERHOST.

(** A broadcast frame from the unknown sender. *)
Definition from_stranger : sk_buff :=
  untagged 16 mac_bcast mac_stranger PACKET_BROADCAST.

End Scenes.

(** * Properties *)

(** ** Memory lemmas *)

Lemma skipn_app_pre {A : Type} (pre l : list A) (k : nat) :
  skipn (length pre + k) (pre ++ l) = skipn k l.
Proof.
  induction pre as [|x pre IH]; simpl; auto.
Qed.

Lemma firstn_app_pre {A : Type} (pre l : list A) (k : nat) :
  firstn (length pre + k) (pre ++ l) = pre ++ firstn k l.
Proof.
  induction pre as [|x pre IH]; simpl; auto. now rewrite IH.
Qed.

Lemma nth_app_pre (pre l : list Z) (k : nat) :
  nth (length pre + k) (pre ++ l) 0 = nth k l 0.
Proof.
  induction pre as [|x pre IH]; simpl; auto.
Qed.

Lemma mem_read_app_pre (pre l : list Z) (k n : nat) :
  mem_read (pre ++ l) (length pre + k) n = mem_read l k n.
Proof.
  unfold mem_read. now rewrite skipn_app_pre.
Qed.

Lemma mem_write_app_pre (pre l bs : list Z) (k : nat) :
  mem_write (pre ++ l) (length pre + k) bs = pre ++ mem_write l k bs.
Proof.
  unfold mem_write.
  rewrite firstn_app_pre, <- Nat.add_assoc, skipn_app_pre.
  now rewrite <- app_assoc.
Qed.

Lemma get_be16_app_pre (pre l : list Z) (k : nat) :
  get_be16 (pre ++ l) (length pre + k) = get_be16 l k.
Proof.
  unfold get_be16.
  rewrite nth_app_pre, <- Nat.add_succ_r, nth_app_pre. reflexivity.
Qed.

Lemma put_be16_app_pre (pre l : list Z) (k : nat) (v : Z) :
  put_be16 (pre ++ l) (length pre + k) v = pre ++ put_be16 l k v.
Proof.
  unfold put_be16. apply mem_write_app_pre.
Qed.

Lemma split_at_data (skb : sk_buff) :
  (skb_data skb <= length (skb_head skb))%nat ->
  exists pre, skb_head skb = pre ++ skb_bytes skb /\ length pre = skb_data skb.
Proof.
  intros H. exists (firstn (skb_data skb) (skb_head skb)). split.
  - unfold skb_bytes. now rewrite firstn_skipn.
  - apply firstn_length_le. exact H.
Qed.


Section CodecProperties.
Context {R : Type}.

Lemma skb_pull_push (skb : sk_buff) (n : nat) (w : world R) :
  (n <= skb_len skb)%nat ->
  skb_push (skb_pull skb n) n w = Ret skb w.
Proof.
  intros H. unfold skb_pull, skb_push.
  destruct (Nat.ltb_spec (skb_len skb) n) as [Hlt|_]; [lia|].
  destruct skb as [hd d mh s c p t dv]; cbn.
  destruct (Nat.leb_spec n (d + n)) as [_|Hc]; [|lia].
  unfold ret, set_skb_data; cbn. do 2 f_equal. lia.
Qed.

(** The copy either fails cleanly or yields the copy; it never faults
    on a non-negative headroom and leaves the trace alone. *)
Lemma pskb_copy_run (skb : sk_buff) (headroom : Z) (w : world R) :
  0 <= headroom ->
  (exists fill w',
      __pskb_copy skb headroom w
      = Ret (Some (pskb_copy_of skb (Z.to_nat headroom) fill)) w'
      /\ w_trace w' = w_trace w /\ w_allocs w' = tl (w_allocs w)
      /\ hd (Some 0) (w_allocs w) = Some fill)
  \/ (exists w',
      __pskb_copy skb headroom w = Ret None w'
      /\ w_trace w' = w_trace w /\ w_allocs w' = tl (w_allocs w)
      /\ hd (Some 0) (w_allocs w) = None).
Proof.
  intros H. unfold __pskb_copy.
  destruct (Z.ltb_spec headroom 0) as [Hc|_]; [lia|].
  unfold bind, alloc.
  destruct (w_allocs w) as [|[fill|] rest] eqn:E.
  - left. exists 0, w. rewrite E. auto.
  - left. exists fill, (set_w_allocs w rest). auto.
  - right. exists (set_w_allocs w rest). auto.
Qed.

(** C9.  Stripping leaves its input as it found it: for every buffer
    that holds at least the six bytes of a tag, hence for every tagged
    frame, the call returns (it does not fault, whether or not the copy
    can be allocated) and the input buffer it hands back is the input
    buffer it was given, headers, length and contents; the trace of
    calls is untouched as well. *)
Theorem create_stripped_skb_keeps_input (skb_in : sk_buff)
    (frame : hsr_prp_frame_info) (w : world R) :
  (HSR_PRP_HLEN <= skb_len skb_in)%nat ->
  exists res w',
    create_stripped_skb skb_in frame w = Ret (skb_in, res) w'
    /\ w_trace w' = w_trace w.
Proof.
  intros Hlen. unfold create_stripped_skb.
  assert (Hroom : 0 <= Z.of_nat (skb_headroom (skb_pull skb_in HSR_PRP_HLEN))
                       - Z.of_nat HSR_PRP_HLEN).
  { unfold skb_pull.
    destruct (Nat.ltb_spec (skb_len skb_in) HSR_PRP_HLEN); [lia|].
    unfold skb_headroom, set_skb_data, skb_data. lia. }
  unfold bind at 1.
  destruct (pskb_copy_run (skb_pull skb_in HSR_PRP_HLEN) _ w Hroom)
    as [(fill & w' & E & Htr & _)|(w' & E & Htr & _)]; rewrite E; clear E.
  - unfold bind. rewrite skb_pull_push by exact Hlen.
    eexists; eexists; split; [reflexivity|exact Htr].
  - unfold bind. rewrite skb_pull_push by exact Hlen.
    eexists; eexists; split; [reflexivity|exact Htr].
Qed.

End CodecProperties.

Lemma land_low12_bound (x : Z) : 0 <= Z.land x 0x0FFF < 4096.
Proof.
  change 0x0FFF with (Z.ones 12). rewrite Z.land_ones by lia.
  change (2 ^ 12) with 4096. apply Z.mod_pos_bound. lia.
Qed.

Lemma land_low12_4096 (x : Z) : 0 <= x < 4096 -> Z.land x 4096 = 0.
Proof.
  intros H.
  assert (E : x = Z.land x (Z.ones 12)).
  { rewrite Z.land_ones by lia. change (2 ^ 12) with 4096.
    symmetry. apply Z.mod_small. exact H. }
  rewrite E, <- Z.land_assoc. change (Z.land (Z.ones 12) 4096) with 0.
  apply Z.land_0_r.
Qed.

Lemma land_low12_high (x : Z) : 0 <= x < 4096 -> Z.land x 0xF000 = 0.
Proof.
  intros H.
  assert (E : x = Z.land x (Z.ones 12)).
  { rewrite Z.land_ones by lia. change (2 ^ 12) with 4096.
    symmetry. apply Z.mod_small. exact H. }
  rewrite E, <- Z.land_assoc. change (Z.land (Z.ones 12) 0xF000) with 0.
  apply Z.land_0_r.
Qed.

Lemma lor_low12_4096 (x : Z) : 0 <= x < 4096 -> Z.lor x 4096 = x + 4096.
Proof.
  intros H. rewrite Z.add_nocarry_lxor by (apply land_low12_4096; exact H).
  symmetry. apply Z.lxor_lor. apply land_low12_4096; exact H.
Qed.

(** The 16-bit word [set_hsr_tag_path] then [set_hsr_tag_LSDU_size]
    leave in the tag: the lane in bit 12, the size in the low 12 bits. *)
Lemma tag_word (old lane lsdu : Z) :
  lane = 0 \/ lane = 1 ->
  u16 (Z.lor (Z.land (u16 (Z.lor (Z.land old 0x0FFF) (Z.shiftl (u16 lane) 12)))
                     0xF000)
             (Z.land (u16 lsdu) 0x0FFF))
  = lane * 4096 + lsdu mod 4096.
Proof.
  intros Hl.
  pose proof (land_low12_bound old) as Ho.
  pose proof (land_low12_bound (u16 lsdu)) as Hs.
  assert (Es : Z.land (u16 lsdu) 0x0FFF = lsdu mod 4096).
  { change 0x0FFF with (Z.ones 12). rewrite Z.land_ones by lia.
    unfold u16. change (2 ^ 12) with 4096.
    apply Z.mod_mod_divide. exists 16. reflexivity. }
  rewrite Es in *.
  set (a := Z.land old 0x0FFF) in *.
  destruct Hl as [-> | ->].
  - change (Z.shiftl (u16 0) 12) with 0. rewrite Z.lor_0_r.
    unfold u16 at 2. rewrite (Z.mod_small a) by lia.
    rewrite land_low12_high by exact Ho. rewrite Z.lor_0_l.
    unfold u16. rewrite Z.mod_small; lia.
  - change (Z.shiftl (u16 1) 12) with 4096.
    rewrite lor_low12_4096 by exact Ho.
    unfold u16 at 2. rewrite (Z.mod_small (a + 4096)) by lia.
    rewrite <- lor_low12_4096 by exact Ho.
    rewrite Z.land_lor_distr_l, land_low12_high by exact Ho.
    change (Z.land 4096 0xF000) with 4096. rewrite Z.lor_0_l.
    rewrite Z.lor_comm, lor_low12_4096 by exact Hs.
    unfold u16. rewrite Z.mod_small; lia.
Qed.

Lemma get_be16_be16_bytes (v : Z) (l : list Z) :
  get_be16 (be16_bytes v ++ l) 0 = v mod 65536.
Proof.
  unfold get_be16, be16_bytes. cbn [nth app].
  change 65536 with (256 * 256).
  rewrite (Z.rem_mul_r v 256 256) by lia. lia.
Qed.

Lemma be16_bytes_get (b0 b1 : Z) :
  is_byte b0 -> is_byte b1 -> be16_bytes (b0 * 256 + b1) = [b0; b1].
Proof.
  unfold is_byte, be16_bytes. intros H0 H1.
  rewrite Z.add_comm, Z.div_add by lia.
  rewrite (Z.div_small b1) by lia. rewrite Z.mod_add by lia.
  cbn [Z.add]. rewrite !Z.mod_small by lia. reflexivity.
Qed.


Lemma lane_of_cases (port : hsr_prp_port) : lane_of port = 0 \/ lane_of port = 1.
Proof. unfold lane_of. destruct (port_type_eqb _ _); auto. Qed.

Lemma mem_write_app_pre0 (pre l bs : list Z) :
  mem_write (pre ++ l) (length pre) bs = pre ++ mem_write l 0 bs.
Proof.
  rewrite <- (Nat.add_0_r (length pre)) at 1. apply mem_write_app_pre.
Qed.

Lemma mem_read_app_pre0 (pre l : list Z) (n : nat) :
  mem_read (pre ++ l) (length pre) n = mem_read l 0 n.
Proof.
  rewrite <- (Nat.add_0_r (length pre)) at 1. apply mem_read_app_pre.
Qed.

Lemma skipn_app_pre0 (pre l : list Z) : skipn (length pre) (pre ++ l) = l.
Proof.
  rewrite <- (Nat.add_0_r (length pre)). apply skipn_app_pre.
Qed.

Lemma be16_join (v : Z) : (v / 256) mod 256 * 256 + v mod 256 = v mod 65536.
Proof.
  change 65536 with (256 * 256). rewrite (Z.rem_mul_r v 256 256) by lia. lia.
Qed.

Lemma u16_idem (v : Z) : u16 v mod 65536 = u16 v.
Proof. unfold u16. apply Z.mod_mod. lia. Qed.

(** What [hsr_fill_tag] writes: the twenty bytes of the tagged header. *)
Lemma hsr_fill_tag_bytes (pre rest : list Z)
    (a0 a1 a2 a3 a4 a5 a6 a7 a8 a9 a10 a11 p0 p1 x0 x1 x2 x3 x4 x5 : Z)
    (d : nat) (s c p t : Z) (dv : option net_device)
    (frame : hsr_prp_frame_info) (port : hsr_prp_port) (ver : Z) :
  let body := a0 :: a1 :: a2 :: a3 :: a4 :: a5 :: a6 :: a7 :: a8 :: a9 :: a10
              :: a11 :: p0 :: p1 :: x0 :: x1 :: x2 :: x3 :: x4 :: x5 :: rest in
  hsr_fill_tag (mk_skb (pre ++ body) d (length pre) s c p t dv) frame port ver
  = mk_skb (pre ++ [a0; a1; a2; a3; a4; a5; a6; a7; a8; a9; a10; a11]
              ++ be16_bytes (ethertype_of ver)
              ++ be16_bytes
                   (lane_of port * 4096
                    + (Z.of_nat (length (pre ++ body) - d) - 14
                       - (if is_vlan frame then 4 else 0)) mod 4096)
              ++ be16_bytes (sequence_nr frame)
              ++ be16_bytes (p0 * 256 + p1) ++ rest)
           d (length pre) s c p t dv.
Proof.
  intros body. unfold body.
  unfold hsr_fill_tag, set_hsr_tag_LSDU_size, set_hsr_tag_path,
    hsr_tag_path_and_LSDU_size, h_proto, set_skb_head, skb_len.
  fold (lane_of port). fold (ethertype_of ver).
  cbn [skb_head skb_data skb_mac_header ip_summed csum_start protocol
       pkt_type skb_dev].
  repeat (rewrite put_be16_app_pre || rewrite get_be16_app_pre).
  unfold put_be16, mem_write, get_be16.
  cbn [firstn skipn app length nth Nat.add be16_bytes].
  rewrite be16_join, u16_idem.
  assert (E : (if is_vlan frame
               then Z.of_nat (length (pre ++ body) - d) - 14 - 4
               else Z.of_nat (length (pre ++ body) - d) - 14)
              = Z.of_nat (length (pre ++ body) - d) - 14
                - (if is_vlan frame then 4 else 0)).
  { destruct (is_vlan frame); lia. }
  unfold body in E. cbn [app] in E. rewrite E.
  rewrite tag_word by apply lane_of_cases.
  reflexivity.
Qed.

Section TagLayout.
Context {R : Type}.

Lemma alloc_run (w : world R) :
  alloc w = Ret (hd (Some 0) (w_allocs w)) (set_w_allocs w (tl (w_allocs w))).
Proof.
  unfold alloc. destruct w as [r [|a l] n s st tr]; reflexivity.
Qed.

Lemma skb_push_run (skb : sk_buff) (n : nat) (w : world R) :
  (n <= skb_data skb)%nat ->
  skb_push skb n w = Ret (set_skb_data skb (skb_data skb - n)) w.
Proof.
  intros H. unfold skb_push.
  destruct (Nat.leb_spec n (skb_data skb)); [reflexivity|lia].
Qed.


Lemma create_tagged_skb_run (priv : hsr_prp_priv) (pre rest : list Z)
    (a0 a1 a2 a3 a4 a5 a6 a7 a8 a9 a10 a11 p0 p1 : Z)
    (mh : nat) (s c p t : Z) (dv : option net_device)
    (frame : hsr_prp_frame_info) (port : hsr_prp_port) (w : world R) (fill : Z) :
  hd (Some 0) (w_allocs w) = Some fill ->
  (is_vlan frame = true -> (VLAN_HLEN <= length rest)%nat) ->
  create_tagged_skb priv
    (mk_skb (pre ++ a0 :: a1 :: a2 :: a3 :: a4 :: a5 :: a6 :: a7 :: a8 :: a9 :: a10
                 :: a11 :: p0 :: p1 :: rest)
            (length pre) mh s c p t dv) frame port w
  = Ret (Some (mk_skb
                 (repeat fill (length pre)
                    ++ [a0; a1; a2; a3; a4; a5; a6; a7; a8; a9; a10; a11]
                    ++ be16_bytes (ethertype_of (prot_ver priv))
                    ++ be16_bytes
                         (lane_of port * 4096
                          + (Z.of_nat (20 + length rest) - 14
                             - (if is_vlan frame then 4 else 0)) mod 4096)
                    ++ be16_bytes (sequence_nr frame)
                    ++ be16_bytes (p0 * 256 + p1) ++ rest)
                 (length pre) (length pre) s (tagged_csum s c) p t dv))
        (set_w_allocs w (tl (w_allocs w))).
Proof.
  intros Hfill Hvlan.
  unfold create_tagged_skb, __pskb_copy, skb_headroom.
  cbn [skb_data].
  destruct (Z.ltb_spec (Z.of_nat (length pre) + Z.of_nat HSR_PRP_HLEN) 0)
    as [Hc|_]; [lia|].
  unfold bind at 1. unfold bind at 1. rewrite alloc_run, Hfill.
  unfold ret at 1.
  rewrite <- Nat2Z.inj_add, Nat2Z.id.
  unfold pskb_copy_of, skb_bytes. cbn [skb_head skb_data skb_mac_header ip_summed csum_start protocol pkt_type skb_dev].
  rewrite skipn_app_pre0, repeat_app.
  pose proof (repeat_length fill (length pre)) as Hl.
  set (pre1 := repeat fill (length pre)) in *. clearbody pre1.
  rewrite <- Hl. clear Hl.
  unfold skb_reset_mac_header, set_skb_mac_header, set_csum_start, tagged_csum.
  cbn [skb_head skb_data skb_mac_header ip_summed csum_start protocol pkt_type skb_dev].
  destruct (s =? CHECKSUM_PARTIAL).
  all: unfold bind; rewrite skb_push_run by (cbn [skb_data]; lia).
  all: unfold ret, set_skb_data, set_skb_head.
  all: cbn [skb_head skb_data skb_mac_header ip_summed csum_start protocol pkt_type skb_dev].
  all: rewrite Nat.add_sub, <- app_assoc, mem_read_app_pre, mem_write_app_pre0.
  all: unfold HSR_PRP_HLEN, ETH_HLEN, VLAN_HLEN in *.
  all: destruct (is_vlan frame) eqn:Ev;
    [ specialize (Hvlan eq_refl);
      destruct rest as [|r0 [|r1 [|r2 [|r3 rest]]]];
      try (cbn [length] in Hvlan; lia) | ].
  all: unfold mem_read, mem_write.
  all: cbn [repeat firstn skipn app length Nat.add].
  all: rewrite hsr_fill_tag_bytes.
  all: rewrite Ev.
  all: match goal with
       | |- context [Z.of_nat (length (?pp ++ ?b) - length ?pp)] =>
           replace (length (pp ++ b) - length pp)%nat with (length b)
             by (rewrite length_app; lia)
       end.
  all: cbn [length Nat.add].
  all: reflexivity.
Qed.

End TagLayout.

Section StripLayout.
Context {R : Type}.


Lemma create_stripped_skb_run (pre rest : list Z)
    (a0 a1 a2 a3 a4 a5 a6 a7 a8 a9 a10 a11 x0 x1 x2 x3 x4 x5 : Z)
    (s c p t : Z) (dv : option net_device)
    (frame : hsr_prp_frame_info) (w : world R) (fill : Z) :
  let skb_in :=
    mk_skb (pre ++ a0 :: a1 :: a2 :: a3 :: a4 :: a5 :: a6 :: a7 :: a8 :: a9 :: a10
                :: a11 :: x0 :: x1 :: x2 :: x3 :: x4 :: x5 :: rest)
           (length pre) (length pre) s c p t dv in
  hd (Some 0) (w_allocs w) = Some fill ->
  is_vlan frame = false ->
  create_stripped_skb skb_in frame w
  = Ret (skb_in,
         Some (mk_skb (repeat fill (length pre)
                         ++ a0 :: a1 :: a2 :: a3 :: a4 :: a5 :: a6 :: a7 :: a8 :: a9
                         :: a10 :: a11 :: rest)
                      (length pre) (length pre) s (stripped_csum s c)
                      (get_be16 rest 0) t dv))
        (set_w_allocs w (tl (w_allocs w))).
Proof.
  intros skb_in Hfill Hvlan.
  assert (Hlen : (HSR_PRP_HLEN <= skb_len skb_in)%nat).
  { unfold skb_len, skb_in. cbn [skb_head skb_data]. rewrite length_app.
    cbn [length]. unfold HSR_PRP_HLEN. lia. }
  unfold create_stripped_skb. unfold bind at 1.
  assert (Epull : skb_pull skb_in HSR_PRP_HLEN
                  = set_skb_data skb_in (length pre + HSR_PRP_HLEN)).
  { unfold skb_pull. destruct (Nat.ltb_spec (skb_len skb_in) HSR_PRP_HLEN); [lia|].
    reflexivity. }
  rewrite Epull. unfold __pskb_copy, skb_headroom. cbn [skb_data set_skb_data].
  destruct (Z.ltb_spec (Z.of_nat (length pre + HSR_PRP_HLEN) - Z.of_nat HSR_PRP_HLEN) 0)
    as [Hc|_]; [lia|].
  unfold bind at 1. rewrite alloc_run, Hfill. unfold ret at 1.
  unfold bind at 1. rewrite skb_push_run by (cbn [skb_data set_skb_data]; lia).
  cbn [skb_data set_skb_data]. rewrite Nat.add_sub.
  change (set_skb_data (set_skb_data skb_in (length pre + HSR_PRP_HLEN)) (length pre))
    with skb_in.
  rewrite Hvlan.
  replace (Z.to_nat (Z.of_nat (length pre + HSR_PRP_HLEN) - Z.of_nat HSR_PRP_HLEN))
    with (length pre) by lia.
  unfold pskb_copy_of, skb_bytes, skb_in, set_skb_data.
  cbn [skb_head skb_data skb_mac_header ip_summed csum_start protocol pkt_type skb_dev].
  rewrite skipn_app_pre.
  unfold skb_reset_mac_header, set_skb_mac_header, set_csum_start, set_skb_head,
    set_protocol, h_proto, stripped_csum.
  cbn [skb_head skb_data skb_mac_header ip_summed csum_start protocol pkt_type skb_dev].
  destruct (s =? CHECKSUM_PARTIAL).
  all: cbn [skb_head skb_data skb_mac_header ip_summed csum_start protocol pkt_type skb_dev].
  all: rewrite mem_read_app_pre0.
  all: pose proof (repeat_length fill (length pre)) as Hl.
  all: set (pre1 := repeat fill (length pre)) in *; clearbody pre1.
  all: rewrite <- Hl; clear Hl.
  all: rewrite !mem_write_app_pre0, get_be16_app_pre.
  all: unfold mem_read, mem_write, get_be16, HSR_PRP_HLEN, ETH_ALEN.
  all: cbn [repeat firstn skipn app length Nat.add Nat.mul nth].
  all: reflexivity.
Qed.
End StripLayout.


Lemma allocs_succeed_S (n : nat) (l : list (option Z)) :
  allocs_succeed (S n) l ->
  exists fill, hd (Some 0) l = Some fill /\ allocs_succeed n (tl l).
Proof.
  destruct l as [|[fill|] l]; cbn.
  - intros _. exists 0. split; [reflexivity|]. destruct n; exact I.
  - intros H. exists fill. auto.
  - intros [].
Qed.

Lemma Forall_is_byte_cons (b : Z) (l : list Z) :
  Forall is_byte (b :: l) -> is_byte b /\ Forall is_byte l.
Proof. intros H. inversion H; auto. Qed.

Section RoundTrip.
Context {R : Type}.

(** Tagging an untagged frame and stripping the result gives the
    frame back. *)
Lemma strip_after_tag (priv : hsr_prp_priv) (f : sk_buff)
    (frame frame' : hsr_prp_frame_info) (port : hsr_prp_port) (w : world R) :
  (ETH_HLEN + (if is_vlan frame then VLAN_HLEN else 0) <= skb_len f)%nat ->
  Forall is_byte (skb_bytes f) ->
  is_vlan frame' = false ->
  allocs_succeed 2 (w_allocs w) ->
  exists t s w1 w2,
    create_tagged_skb priv f frame port w = Ret (Some t) w1
    /\ create_stripped_skb t frame' w1 = Ret (t, Some s) w2
    /\ skb_bytes s = skb_bytes f
    /\ protocol s = get_be16 (skb_bytes f) 12
    /\ skb_headroom s = skb_headroom f
    /\ pkt_type s = pkt_type f
    /\ (0 <= csum_start f < 65536 -> csum_start s = csum_start f).
Proof.
  intros Hlen Hbytes Hv' Hal.
  destruct (allocs_succeed_S _ _ Hal) as (fill1 & Hf1 & Hal1).
  destruct (allocs_succeed_S _ _ Hal1) as (fill2 & Hf2 & _).
  destruct (split_at_data f) as (pre & Hhead & Hpre).
  { unfold skb_len, ETH_HLEN in Hlen. lia. }
  assert (Hfr : (ETH_HLEN + (if is_vlan frame then VLAN_HLEN else 0)
                 <= length (skb_bytes f))%nat).
  { unfold skb_bytes. rewrite length_skipn. exact Hlen. }
  unfold skb_headroom.
  destruct f as [hd0 d mh s c p t dv].
  cbn [skb_data skb_head csum_start pkt_type] in *.
  remember (skb_bytes (mk_skb hd0 d mh s c p t dv)) as fr eqn:Efr.
  subst hd0 d.
  assert (Hfr14 : (14 <= length fr)%nat).
  { unfold ETH_HLEN in Hfr. lia. }
  do 14 (explode_list fr Hfr14).
  repeat match goal with
         | H : Forall is_byte (_ :: _) |- _ =>
             apply Forall_is_byte_cons in H; destruct H
         end.
  rewrite create_tagged_skb_run with (fill := fill1); [|exact Hf1|].
  2:{ intros E. rewrite E in Hfr. cbn [length] in Hfr.
      unfold ETH_HLEN, VLAN_HLEN in *. lia. }
  pose proof (repeat_length fill1 (length pre)) as Hl.
  set (pre1 := repeat fill1 (length pre)) in *. clearbody pre1.
  rewrite <- Hl. clear Hl.
  eexists. eexists. eexists. eexists. split; [reflexivity|].
  unfold be16_bytes at 1 2 3. cbn [app].
  rewrite create_stripped_skb_run with (fill := fill2);
    [|exact Hf2|exact Hv'].
  split; [reflexivity|].
  unfold skb_bytes. cbn [skb_data skb_head protocol pkt_type csum_start].
  rewrite <- (repeat_length fill2 (length pre1)) at 1.
  rewrite skipn_app_pre0.
  rewrite !get_be16_be16_bytes.
  rewrite be16_bytes_get by assumption.
  unfold get_be16. cbn [nth app].
  split; [reflexivity|].
  split.
  { unfold is_byte in *. rewrite Z.mod_small; lia. }
  split; [reflexivity|].
  split; [reflexivity|].
  intros Hc. unfold stripped_csum, tagged_csum.
  destruct (s =? CHECKSUM_PARTIAL); [|reflexivity].
  unfold u16, HSR_PRP_HLEN.
  rewrite Zminus_mod_idemp_l.
  replace (c + Z.of_nat 6 - Z.of_nat 6) with c by lia.
  apply Z.mod_small. exact Hc.
Qed.

End RoundTrip.

Lemma tag_word_fields (lane m : Z) :
  lane = 0 \/ lane = 1 -> 0 <= m < 4096 ->
  Z.shiftr ((lane * 4096 + m) mod 65536) 12 = lane
  /\ Z.land ((lane * 4096 + m) mod 65536) 0x0FFF = m.
Proof.
  intros Hl Hm.
  rewrite Z.mod_small by (destruct Hl; subst; lia).
  split.
  - rewrite Z.shiftr_div_pow2 by lia. change (2 ^ 12) with 4096.
    rewrite Z.add_comm, Z.div_add by lia. rewrite Z.div_small by lia. lia.
  - change 0x0FFF with (Z.ones 12). rewrite Z.land_ones by lia.
    change (2 ^ 12) with 4096. rewrite Z.add_comm, Z.mod_add by lia.
    apply Z.mod_small. exact Hm.
Qed.

Lemma word_of_fields (v : Z) :
  Z.shiftr v 12 * 4096 + Z.land v 0x0FFF = v.
Proof.
  rewrite Z.shiftr_div_pow2 by lia.
  change 0x0FFF with (Z.ones 12). rewrite Z.land_ones by lia.
  change (2 ^ 12) with 4096. pose proof (Z.div_mod v 4096). lia.
Qed.

Section RoundTrip2.
Context {R : Type}.

(** Stripping a tagged frame and tagging the result for the same lane,
    sequence number and version rewrites the tag in place: everything is
    as in the frame received, except the size field, which is computed
    anew from the length. *)
Lemma tag_after_strip (priv : hsr_prp_priv) (t : sk_buff)
    (frame frame' : hsr_prp_frame_info) (port : hsr_prp_port) (w : world R) :
  (ETH_HLEN + HSR_PRP_HLEN + (if is_vlan frame' then VLAN_HLEN else 0)
   <= skb_len t)%nat ->
  skb_mac_header t = skb_data t ->
  Forall is_byte (skb_bytes t) ->
  is_vlan frame = false ->
  lane_of port = get_hsr_tag_path t ->
  sequence_nr frame' = hsr_tag_sequence_nr t ->
  ethertype_of (prot_ver priv) = h_proto t ->
  allocs_succeed 2 (w_allocs w) ->
  let size := (Z.of_nat (skb_len t) - 14 - (if is_vlan frame' then 4 else 0)) mod 4096 in
  exists s t' w1 w2,
    create_stripped_skb t frame w = Ret (t, Some s) w1
    /\ create_tagged_skb priv s frame' port w1 = Ret (Some t') w2
    /\ skb_mac_header t' = skb_data t'
    /\ skb_bytes t'
       = firstn 14 (skb_bytes t)
           ++ be16_bytes (lane_of port * 4096 + size)
           ++ skipn 16 (skb_bytes t)
    /\ h_proto t' = h_proto t
    /\ get_hsr_tag_path t' = get_hsr_tag_path t
    /\ hsr_tag_sequence_nr t' = hsr_tag_sequence_nr t
    /\ hsr_tag_encap_proto t' = hsr_tag_encap_proto t
    /\ get_hsr_tag_LSDU_size t' = size
    /\ (get_hsr_tag_LSDU_size t = size -> skb_bytes t' = skb_bytes t).
Proof.
  intros Hlen Hmac Hbytes Hv Hlane Hseq Hver Hal size.
  destruct (allocs_succeed_S _ _ Hal) as (fill1 & Hf1 & Hal1).
  destruct (allocs_succeed_S _ _ Hal1) as (fill2 & Hf2 & _).
  destruct (split_at_data t) as (pre & Hhead & Hpre).
  { unfold skb_len, ETH_HLEN in Hlen. lia. }
  assert (Elen : skb_len t = length (skb_bytes t)).
  { unfold skb_bytes. rewrite length_skipn. reflexivity. }
  unfold get_hsr_tag_path, get_hsr_tag_LSDU_size, hsr_tag_path_and_LSDU_size,
    hsr_tag_sequence_nr, hsr_tag_encap_proto, h_proto in *.
  subst size. rewrite Elen in *. clear Elen.
  destruct t as [hd0 d mh s c p ty dv].
  cbn [skb_data skb_head skb_mac_header] in *.
  remember (skb_bytes (mk_skb hd0 d mh s c p ty dv)) as fr eqn:Efr.
  clear Efr. subst hd0 mh d.
  rewrite !get_be16_app_pre in *.
  assert (Hfr20 : (20 <= length fr)%nat).
  { unfold ETH_HLEN, HSR_PRP_HLEN in Hlen. lia. }
  do 20 (explode_list fr Hfr20). clear Hfr20.
  repeat match goal with
         | H : Forall is_byte (_ :: _) |- _ =>
             apply Forall_is_byte_cons in H; destruct H
         end.
  unfold get_be16 in Hlane, Hseq, Hver. cbn [nth] in Hlane, Hseq, Hver.
  rewrite create_stripped_skb_run with (fill := fill1); [|exact Hf1|exact Hv].
  pose proof (repeat_length fill1 (length pre)) as Hl.
  set (pre1 := repeat fill1 (length pre)) in *. clearbody pre1.
  rewrite <- Hl. clear Hl.
  eexists. eexists. eexists. eexists. split; [reflexivity|].
  rewrite create_tagged_skb_run with (fill := fill2); [|exact Hf2|].
  2:{ intros E. rewrite E in Hlen. cbn [length] in Hlen.
      unfold ETH_HLEN, HSR_PRP_HLEN, VLAN_HLEN in *. lia. }
  split; [reflexivity|].
  rewrite Hver, Hseq. rewrite !be16_bytes_get by assumption.
  pose proof (repeat_length fill2 (length pre1)) as Hl.
  set (pre2 := repeat fill2 (length pre1)) in *. clearbody pre2.
  rewrite <- Hl. clear Hl.
  unfold skb_bytes.
  cbn [skb_head skb_data skb_mac_header].
  rewrite skipn_app_pre0, !get_be16_app_pre.
  cbn [length Nat.add] in *.
  set (m := (Z.of_nat (S (S (S (S (S (S (S (S (S (S (S (S (S (S (S (S (S (S (S (S
              (length fr))))))))))))))))))))) - 14
             - (if is_vlan frame' then 4 else 0)) mod 4096) in *.
  assert (Hm : 0 <= m < 4096) by (apply Z.mod_pos_bound; lia).
  destruct (tag_word_fields (lane_of port) m (lane_of_cases port) Hm) as [Ep Es].
  split; [reflexivity|].
  split; [reflexivity|].
  split; [reflexivity|].
  split.
  { unfold get_be16, be16_bytes. cbn [nth app]. rewrite be16_join, Ep. exact Hlane. }
  split; [reflexivity|].
  split; [reflexivity|].
  split.
  { unfold get_be16, be16_bytes. cbn [nth app]. rewrite be16_join. exact Es. }
  intros Hsize. unfold get_be16 in Hsize. cbn [nth] in Hsize.
  rewrite Hlane, <- Hsize, word_of_fields.
  rewrite be16_bytes_get by assumption. reflexivity.
Qed.

End RoundTrip2.

Section C2.
Context {R : Type}.

(** C2 (amended).  Tagging an untagged frame and stripping the result
    gives back the bytes of the frame (addresses, ethertype, payload)
    and sets [protocol] to its ethertype.  Stripping a tagged frame and
    tagging the result again for the same lane, sequence number and
    version reproduces the outer ethertype, the lane, the sequence
    number and the encapsulated protocol of the tag; the size field is
    computed anew from the length of the frame, so the whole frame is
    reproduced exactly when the size field received was that value. *)
Theorem strip_tag_round_trip :
  (forall (priv : hsr_prp_priv) (f : sk_buff) (frame frame' : hsr_prp_frame_info)
          (port : hsr_prp_port) (w : world R),
      (ETH_HLEN + (if is_vlan frame then VLAN_HLEN else 0) <= skb_len f)%nat ->
      Forall is_byte (skb_bytes f) ->
      is_vlan frame' = false ->
      allocs_succeed 2 (w_allocs w) ->
      exists t s w1 w2,
        create_tagged_skb priv f frame port w = Ret (Some t) w1
        /\ create_stripped_skb t frame' w1 = Ret (t, Some s) w2
        /\ skb_bytes s = skb_bytes f
        /\ protocol s = get_be16 (skb_bytes f) 12)
  /\
  (forall (priv : hsr_prp_priv) (t : sk_buff) (frame frame' : hsr_prp_frame_info)
          (port : hsr_prp_port) (w : world R),
      (ETH_HLEN + HSR_PRP_HLEN + (if is_vlan frame' then VLAN_HLEN else 0)
       <= skb_len t)%nat ->
      skb_mac_header t = skb_data t ->
      Forall is_byte (skb_bytes t) ->
      is_vlan frame = false ->
      lane_of port = get_hsr_tag_path t ->
      sequence_nr frame' = hsr_tag_sequence_nr t ->
      ethertype_of (prot_ver priv) = h_proto t ->
      allocs_succeed 2 (w_allocs w) ->
      let size :=
        (Z.of_nat (skb_len t) - 14 - (if is_vlan frame' then 4 else 0)) mod 4096 in
      exists s t' w1 w2,
        create_stripped_skb t frame w = Ret (t, Some s) w1
        /\ create_tagged_skb priv s frame' port w1 = Ret (Some t') w2
        /\ h_proto t' = h_proto t
        /\ get_hsr_tag_path t' = get_hsr_tag_path t
        /\ hsr_tag_sequence_nr t' = hsr_tag_sequence_nr t
        /\ hsr_tag_encap_proto t' = hsr_tag_encap_proto t
        /\ get_hsr_tag_LSDU_size t' = size
        /\ (get_hsr_tag_LSDU_size t = size -> skb_bytes t' = skb_bytes t)).
Proof.
  split.
  - intros priv f frame frame' port w H1 H2 H3 H4.
    destruct (strip_after_tag priv f frame frame' port w H1 H2 H3 H4)
      as (t & s & w1 & w2 & A & B & C & D & _).
    exists t, s, w1, w2. auto.
  - intros priv t frame frame' port w H1 H2 H3 H4 H5 H6 H7 H8 size.
    destruct (tag_after_strip priv t frame frame' port w H1 H2 H3 H4 H5 H6 H7 H8)
      as (s & t' & w1 & w2 & A & B & _ & _ & C & D & E & F & G & H).
    exists s, t', w1, w2. repeat split; auto.
Qed.

End C2.

Lemma Forall_is_byte_dec (l : list Z) :
  forallb (fun b => (0 <=? b) && (b <? 256)) l = true -> Forall is_byte l.
Proof.
  intros H. apply Forall_forall. intros b Hb.
  rewrite forallb_forall in H. specialize (H b Hb).
  apply andb_true_iff in H. destruct H as [H0 H1].
  unfold is_byte. apply Z.leb_le in H0. apply Z.ltb_lt in H1. lia.
Qed.

(** A run of both round trips of C2 on the sample frames. *)
Lemma strip_tag_round_trip_witness :
  (exists t s w1 w2,
      create_tagged_skb Sample.priv0
        (Sample.untagged 16 Sample.mac_bcast Sample.mac_peer PACKET_BROADCAST)
        (Frames.frame_to_tag 5) Sample.port_b (Sample.world0 6) = Ret (Some t) w1
      /\ create_stripped_skb t Frames.frame_to_strip w1 = Ret (t, Some s) w2
      /\ skb_bytes s
         = skb_bytes (Sample.untagged 16 Sample.mac_bcast Sample.mac_peer
                        PACKET_BROADCAST)
      /\ protocol s = 0x0800)
  /\
  (exists s t' w1 w2,
      create_stripped_skb Frames.exact_tagged Frames.frame_to_strip (Sample.world0 6)
      = Ret (Frames.exact_tagged, Some s) w1
      /\ create_tagged_skb Sample.priv0 s (Frames.frame_to_tag 7) Sample.port_b w1
         = Ret (Some t') w2
      /\ h_proto t' = ETH_P_HSR
      /\ get_hsr_tag_path t' = 1
      /\ hsr_tag_sequence_nr t' = 7
      /\ hsr_tag_encap_proto t' = 0x0800
      /\ get_hsr_tag_LSDU_size t' = 14
      /\ skb_bytes t' = skb_bytes Frames.exact_tagged).
Proof.
  split.
  - destruct (proj1 (@strip_tag_round_trip simple_reg) Sample.priv0
                (Sample.untagged 16 Sample.mac_bcast Sample.mac_peer PACKET_BROADCAST)
                (Frames.frame_to_tag 5) Frames.frame_to_strip Sample.port_b
                (Sample.world0 6))
      as (t & s & w1 & w2 & A & B & C & D).
    + apply Nat.leb_le. vm_compute. reflexivity.
    + apply Forall_is_byte_dec. vm_compute. reflexivity.
    + reflexivity.
    + exact I.
    + exists t, s, w1, w2. repeat split; assumption.
  - destruct (proj2 (@strip_tag_round_trip simple_reg) Sample.priv0
                Frames.exact_tagged Frames.frame_to_strip (Frames.frame_to_tag 7)
                Sample.port_b (Sample.world0 6))
      as (s & t' & w1 & w2 & A & B & C & D & E & F & G & H).
    + apply Nat.leb_le. vm_compute. reflexivity.
    + reflexivity.
    + apply Forall_is_byte_dec. vm_compute. reflexivity.
    + reflexivity.
    + reflexivity.
    + reflexivity.
    + reflexivity.
    + exact I.
    + exists s, t', w1, w2. repeat split; try assumption.
      apply H. vm_compute. reflexivity.
Defined.

(** C2, as the design document words it, fails on a padded frame: the
    frame carries a size field of 10, and the tag written after the
    strip carries 14. *)
Lemma strip_tag_round_trip_counterexample :
  let t := Frames.padded_tagged in
  lane_of Sample.port_b = get_hsr_tag_path t
  /\ sequence_nr (Frames.frame_to_tag 7) = hsr_tag_sequence_nr t
  /\ ethertype_of (prot_ver Sample.priv0) = h_proto t
  /\ exists s t' w1 w2,
      create_stripped_skb t Frames.frame_to_strip (Sample.world0 6) = Ret (t, Some s) w1
      /\ create_tagged_skb Sample.priv0 s (Frames.frame_to_tag 7) Sample.port_b w1
         = Ret (Some t') w2
      /\ get_hsr_tag_LSDU_size t = 10
      /\ get_hsr_tag_LSDU_size t' = 14
      /\ get_hsr_tag_LSDU_size t' <> get_hsr_tag_LSDU_size t.
Proof.
  cbv zeta. split; [reflexivity|]. split; [reflexivity|]. split; [reflexivity|].
  eexists. eexists. eexists. eexists.
  split; [vm_compute; reflexivity|].
  split; [vm_compute; reflexivity|].
  split; [reflexivity|]. split; [reflexivity|].
  vm_compute. intros Hc; discriminate Hc.
Qed.

Lemma bytes_eqb_eq (a b : list Z) : bytes_eqb a b = true <-> a = b.
Proof.
  revert b. induction a as [|x a IH]; intros [|y b]; cbn; split; intros H;
    try reflexivity; try discriminate.
  - apply andb_true_iff in H. destruct H as [Hx Hr].
    apply Z.eqb_eq in Hx. apply IH in Hr. now subst.
  - injection H as -> ->. rewrite Z.eqb_refl. cbn. now apply IH.
Qed.

Section Classifier.
Context {R : Type} {FR : Framereg R}.

(** C5.  [is_supervision_frame] answers true exactly when the
    destination is the supervision multicast address of the node, the
    ethertype is one of the two redundancy ethertypes, an HSR frame
    encapsulates the PRP ethertype, the TLV type is announce or life
    check, and the TLV length is 12 or the size of the supervision
    payload.  The function is total: a mismatch is the answer false. *)
Theorem is_supervision_frame_iff (priv : hsr_prp_priv) (skb : sk_buff) :
  is_supervision_frame priv skb = true
  <-> firstn ETH_ALEN (h_dest skb) = firstn ETH_ALEN (sup_multicast_addr priv)
      /\ (h_proto skb = ETH_P_PRP \/ h_proto skb = ETH_P_HSR)
      /\ (h_proto skb = ETH_P_HSR -> hsr_tag_encap_proto skb = ETH_P_PRP)
      /\ (HSR_TLV_type skb = HSR_TLV_ANNOUNCE \/ HSR_TLV_type skb = HSR_TLV_LIFE_CHECK)
      /\ (HSR_TLV_length skb = 12
          \/ HSR_TLV_length skb = sizeof_hsr_prp_sup_payload).
Proof.
  unfold is_supervision_frame, HSR_TLV_type, HSR_TLV_length, sup_tag_offset,
    ether_addr_equal.
  destruct (bytes_eqb (firstn ETH_ALEN (h_dest skb))
              (firstn ETH_ALEN (sup_multicast_addr priv))) eqn:Ea; cbn [negb].
  2:{ split; [discriminate|]. intros (H & _).
      apply bytes_eqb_eq in H. congruence. }
  apply bytes_eqb_eq in Ea.
  destruct (Z.eqb_spec (h_proto skb) ETH_P_HSR) as [Eh|Eh].
  - assert (Ep : (h_proto skb =? ETH_P_PRP) = false).
    { rewrite Eh. reflexivity. }
    rewrite Ep. cbn [orb negb].
    destruct (Z.eqb_spec (hsr_tag_encap_proto skb) ETH_P_PRP) as [Ee|Ee]; cbn [negb].
    2:{ split; [discriminate|]. intros (_ & _ & H & _). tauto. }
    destruct (Z.eqb_spec (get_u8 (skb_head skb)
                (skb_mac_header skb + ETH_HLEN + HSR_PRP_HLEN + 4)) HSR_TLV_ANNOUNCE);
    destruct (Z.eqb_spec (get_u8 (skb_head skb)
                (skb_mac_header skb + ETH_HLEN + HSR_PRP_HLEN + 4)) HSR_TLV_LIFE_CHECK);
    destruct (Z.eqb_spec (get_u8 (skb_head skb)
                (skb_mac_header skb + ETH_HLEN + HSR_PRP_HLEN + 5)) 12);
    destruct (Z.eqb_spec (get_u8 (skb_head skb)
                (skb_mac_header skb + ETH_HLEN + HSR_PRP_HLEN + 5))
                sizeof_hsr_prp_sup_payload);
    cbn [negb andb]; split; try discriminate; try tauto.
  - destruct (Z.eqb_spec (h_proto skb) ETH_P_PRP) as [Ep|Ep]; cbn [orb negb].
    2:{ split; [discriminate|]. intros (_ & H & _). tauto. }
    rewrite Nat.add_0_r.
    destruct (Z.eqb_spec (get_u8 (skb_head skb)
                (skb_mac_header skb + ETH_HLEN + 4)) HSR_TLV_ANNOUNCE);
    destruct (Z.eqb_spec (get_u8 (skb_head skb)
                (skb_mac_header skb + ETH_HLEN + 4)) HSR_TLV_LIFE_CHECK);
    destruct (Z.eqb_spec (get_u8 (skb_head skb)
                (skb_mac_header skb + ETH_HLEN + 5)) 12);
    destruct (Z.eqb_spec (get_u8 (skb_head skb)
                (skb_mac_header skb + ETH_HLEN + 5)) sizeof_hsr_prp_sup_payload);
    cbn [negb andb]; split; try discriminate; try tauto.
Qed.

(** C10.  After [check_local_dest] a frame addressed to the node
    itself has packet type [PACKET_HOST] and both locality flags set;
    hence [is_local_exclusive] implies [is_local_dest], and the test
    "master and not locally destined" of the forwarding loop is false
    for such a frame on every port. *)
Theorem local_exclusive_is_local_dest (priv : hsr_prp_priv) (skb : sk_buff)
    (frame : hsr_prp_frame_info) :
  let r := check_local_dest priv skb frame in
  (hsr_prp_addr_is_self priv (h_dest skb) = true ->
   pkt_type (fst r) = PACKET_HOST
   /\ is_local_exclusive (snd r) = true /\ is_local_dest (snd r) = true)
  /\ (is_local_exclusive (snd r) = true -> is_local_dest (snd r) = true)
  /\ (is_local_exclusive (snd r) = true ->
      forall port, is_master port && negb (is_local_dest (snd r)) = false).
Proof.
  unfold check_local_dest.
  destruct (hsr_prp_addr_is_self priv (h_dest skb)); cbn.
  - repeat split; intros; try reflexivity. apply andb_false_r.
  - repeat split; intros; discriminate.
Qed.

End Classifier.

Section Classifier2.
Context {R : Type} {FR : Framereg R}.

(** What [hsr_prp_fill_frame_info] leaves behind for a frame that
    passes the checks ahead of framing detection. *)
Lemma fill_frame_info_run (priv : hsr_prp_priv) (frame0 : hsr_prp_frame_info)
    (skb : sk_buff) (port : hsr_prp_port) (w : world R) :
  passes_checks priv skb port w = true ->
  let tagged := (h_proto skb =? ETH_P_PRP) || (h_proto skb =? ETH_P_HSR) in
  let vlan := h_proto skb =? ETH_P_8021Q in
  exists frame w',
    hsr_prp_fill_frame_info priv frame0 skb port w = Ret (0, frame) w'
    /\ is_vlan frame = vlan
    /\ is_supervision frame = is_supervision_frame priv skb
    /\ port_rcv frame = port
    /\ is_local_exclusive frame = hsr_prp_addr_is_self priv (h_dest skb)
    /\ (is_local_exclusive frame = true -> is_local_dest frame = true)
    /\ skb_hsr frame = (if tagged then Some (fst (check_local_dest priv skb frame0))
                        else None)
    /\ skb_std frame = (if tagged then None
                        else Some (fst (check_local_dest priv skb frame0)))
    /\ sequence_nr frame = (if tagged then hsr_get_skb_sequence_nr skb
                            else w_sequence_nr w)
    /\ w_sequence_nr w' = (if tagged then w_sequence_nr w
                           else u16 (w_sequence_nr w + 1))
    /\ w_trace w' = w_trace w
                    ++ (if vlan then [Ev_warn WARN_vlan_not_supported] else [])
                    ++ (if tagged then []
                        else [Ev_spin_lock_irqsave;
                              Ev_sequence_nr_read (w_sequence_nr w);
                              Ev_sequence_nr_write (u16 (w_sequence_nr w + 1));
                              Ev_spin_unlock_irqrestore])
    /\ w_allocs w' = w_allocs w
    /\ w_stats w' = w_stats w
    /\ w_netif_rx w' = w_netif_rx w.
Proof.
  unfold passes_checks. intros Hp. apply andb_true_iff in Hp.
  destruct Hp as [Hsup Hnode]. apply negb_true_iff in Hsup.
  unfold hsr_prp_fill_frame_info.
  cbn [is_supervision skb_std skb_hsr port_rcv node_src sequence_nr is_vlan
       is_local_dest is_local_exclusive].
  rewrite Hsup.
  unfold bind at 1.
  assert (Hpre :
    exists frame1 w1,
      (if negb (rx_offloaded priv)
       then
         n <- get_node port skb (is_supervision_frame priv skb) ;;
         ret (mk_frame (skb_std frame0) (skb_hsr frame0) (port_rcv frame0) n
                       (sequence_nr frame0) (is_supervision_frame priv skb)
                       (is_vlan frame0) (is_local_dest frame0)
                       (is_local_exclusive frame0),
              match n with None => false | Some _ => true end)
       else
         ret (mk_frame (skb_std frame0) (skb_hsr frame0) (port_rcv frame0)
                       (node_src frame0) (sequence_nr frame0)
                       (is_supervision_frame priv skb) (is_vlan frame0)
                       (is_local_dest frame0) (is_local_exclusive frame0), true)) w
      = Ret (frame1, true) w1
      /\ is_supervision frame1 = is_supervision_frame priv skb
      /\ w_trace w1 = w_trace w /\ w_sequence_nr w1 = w_sequence_nr w
      /\ w_allocs w1 = w_allocs w /\ w_stats w1 = w_stats w
      /\ w_netif_rx w1 = w_netif_rx w).
  { destruct (rx_offloaded priv); cbn [negb orb] in *.
    - eexists. eexists. split; [reflexivity|]. cbn. auto 10.
    - unfold bind, get_node, ret.
      destruct (hsr_prp_get_node (w_nodes w) port skb (is_supervision_frame priv skb))
        as [[n|] r]; cbn [fst] in Hnode; [|discriminate].
      eexists. eexists. split; [reflexivity|]. cbn. auto 10. }
  destruct Hpre as (frame1 & w1 & E & Hs1 & Ht1 & Hq1 & Ha1 & Hst1 & Hn1).
  rewrite E. clear E. cbn [fst snd negb].
  rewrite <- Ht1, <- Hq1, <- Ha1, <- Hst1, <- Hn1.
  unfold check_local_dest, hsr_get_skb_sequence_nr.
  destruct (h_proto skb =? ETH_P_8021Q);
    destruct ((h_proto skb =? ETH_P_PRP) || (h_proto skb =? ETH_P_HSR));
    destruct (hsr_prp_addr_is_self priv (h_dest skb));
    (eexists; eexists; split; [reflexivity|]);
    cbn; rewrite ?app_nil_r, <- ?app_assoc; repeat split; auto;
    try discriminate.
Qed.

(** The classifier never flags a tagged frame as VLAN: the strip, which
    only serves frames that arrived tagged, always runs with [is_vlan]
    unset. *)
Lemma tagged_frame_not_vlan (priv : hsr_prp_priv) (frame0 : hsr_prp_frame_info)
    (skb : sk_buff) (port : hsr_prp_port) (w : world R) :
  passes_checks priv skb port w = true ->
  exists frame w',
    hsr_prp_fill_frame_info priv frame0 skb port w = Ret (0, frame) w'
    /\ (skb_hsr frame <> None -> is_vlan frame = false).
Proof.
  intros Hp.
  destruct (fill_frame_info_run priv frame0 skb port w Hp)
    as (frame & w' & E & Hv & _ & _ & _ & _ & Hh & _).
  exists frame, w'. split; [exact E|]. intros Hn. rewrite Hv.
  destruct (Z.eqb_spec (h_proto skb) ETH_P_8021Q) as [Eq|]; [|reflexivity].
  rewrite Eq in Hh.
  change ((ETH_P_8021Q =? ETH_P_PRP) || (ETH_P_8021Q =? ETH_P_HSR)) with false in Hh.
  congruence.
Qed.

(** C4.  For a frame that reaches framing detection: a frame with one
    of the two redundancy ethertypes gets the sequence number of its
    tag, and the shared counter is neither locked nor read nor written;
    any other frame gets the current value of the counter, and the
    counter, sixteen bits wide, is incremented by one, both under the
    lock of the counter: the lock is taken, the counter is read, then
    written, and the lock is released, in that order and with nothing
    in between.  In both cases the events of the classifier keep the
    lock discipline of the counter and leave the lock free. *)
Theorem sequence_nr_assignment (priv : hsr_prp_priv) (frame0 : hsr_prp_frame_info)
    (skb : sk_buff) (port : hsr_prp_port) (w : world R) :
  passes_checks priv skb port w = true ->
  exists frame w',
    hsr_prp_fill_frame_info priv frame0 skb port w = Ret (0, frame) w'
    /\ lock_discipline false (skipn (length (w_trace w)) (w_trace w')) = Some false
    /\ (h_proto skb = ETH_P_PRP \/ h_proto skb = ETH_P_HSR ->
        sequence_nr frame = hsr_get_skb_sequence_nr skb
        /\ w_sequence_nr w' = w_sequence_nr w
        /\ ~ In Ev_spin_lock_irqsave (skipn (length (w_trace w)) (w_trace w'))
        /\ Forall (fun e => is_counter_access e = false)
             (skipn (length (w_trace w)) (w_trace w')))
    /\ (h_proto skb <> ETH_P_PRP -> h_proto skb <> ETH_P_HSR ->
        sequence_nr frame = w_sequence_nr w
        /\ w_sequence_nr w' = u16 (w_sequence_nr w + 1)
        /\ exists warn,
            Forall is_warning warn
            /\ w_trace w' = w_trace w ++ warn
                            ++ [Ev_spin_lock_irqsave;
                                Ev_sequence_nr_read (w_sequence_nr w);
                                Ev_sequence_nr_write (u16 (w_sequence_nr w + 1));
                                Ev_spin_unlock_irqrestore]).
Proof.
  intros Hp.
  destruct (fill_frame_info_run priv frame0 skb port w Hp)
    as (frame & w' & E & _ & _ & _ & _ & _ & _ & _ & Hseq & Hcnt & Htr & _).
  exists frame, w'. split; [exact E|].
  assert (Hext : skipn (length (w_trace w)) (w_trace w')
                 = (if h_proto skb =? ETH_P_8021Q
                    then [Ev_warn WARN_vlan_not_supported] else [])
                   ++ (if (h_proto skb =? ETH_P_PRP) || (h_proto skb =? ETH_P_HSR)
                       then []
                       else [Ev_spin_lock_irqsave;
                             Ev_sequence_nr_read (w_sequence_nr w);
                             Ev_sequence_nr_write (u16 (w_sequence_nr w + 1));
                             Ev_spin_unlock_irqrestore])).
  { rewrite Htr.
    rewrite <- (Nat.add_0_r (length (w_trace w))), skipn_app_pre.
    reflexivity. }
  rewrite Hext. split; [|split].
  - destruct (h_proto skb =? ETH_P_8021Q), ((h_proto skb =? ETH_P_PRP)
                                             || (h_proto skb =? ETH_P_HSR));
      reflexivity.
  - intros Ht.
    assert (Et : (h_proto skb =? ETH_P_PRP) || (h_proto skb =? ETH_P_HSR) = true).
    { apply orb_true_iff. destruct Ht as [Ht|Ht]; [left|right];
        apply Z.eqb_eq; exact Ht. }
    rewrite Et in *. rewrite app_nil_r.
    split; [exact Hseq|]. split; [exact Hcnt|]. split.
    + destruct (h_proto skb =? ETH_P_8021Q); cbn; intuition discriminate.
    + destruct (h_proto skb =? ETH_P_8021Q); repeat constructor.
  - intros Hn1 Hn2.
    assert (Et : (h_proto skb =? ETH_P_PRP) || (h_proto skb =? ETH_P_HSR) = false).
    { apply orb_false_iff. split; apply Z.eqb_neq; assumption. }
    rewrite Et in *.
    split; [exact Hseq|]. split; [exact Hcnt|].
    eexists. split; [|exact Htr].
    destruct (h_proto skb =? ETH_P_8021Q); repeat constructor.
Qed.

End Classifier2.

Lemma egress_attempts_app (a b : list event) :
  egress_attempts (a ++ b) = (egress_attempts a + egress_attempts b)%nat.
Proof. unfold egress_attempts. now rewrite filter_app, length_app. Qed.

Lemma delivery_attempts_app (a b : list event) :
  delivery_attempts (a ++ b) = (delivery_attempts a + delivery_attempts b)%nat.
Proof. unfold delivery_attempts. now rewrite filter_app, length_app. Qed.

Lemma dispatches_app (p : hsr_prp_port) (a b : list event) :
  dispatches p (a ++ b) = (dispatches p a + dispatches p b)%nat.
Proof. unfold dispatches. now rewrite filter_app, length_app. Qed.

Section Malformed.
Context {R : Type} {FR : Framereg R}.

(** C8.  A frame whose mac header is not at the start of the buffer is
    dropped: the drop counter of the receiving device goes up by one,
    the buffer is freed, nothing is sent or delivered, and the registry,
    the sequence counter and every other counter stay as they were. *)
Theorem malformed_frame_dropped (priv : hsr_prp_priv) (skb : sk_buff)
    (port : hsr_prp_port) (w : world R) :
  skb_mac_header skb <> skb_data skb ->
  exists w',
    hsr_prp_forward_skb priv skb port w = Ret tt w'
    /\ w_trace w' = w_trace w ++ [Ev_warn WARN_malformed_frame; Ev_kfree_skb skb]
    /\ w_stats w' = upd_stats (w_stats w) (dev_id (dev port)) inc_tx_dropped
    /\ tx_dropped (w_stats w' (dev_id (dev port)))
       = tx_dropped (w_stats w (dev_id (dev port))) + 1
    /\ (forall d, d <> dev_id (dev port) -> w_stats w' d = w_stats w d)
    /\ egress_attempts (w_trace w') = egress_attempts (w_trace w)
    /\ delivery_attempts (w_trace w') = delivery_attempts (w_trace w)
    /\ w_nodes w' = w_nodes w
    /\ w_sequence_nr w' = w_sequence_nr w
    /\ w_allocs w' = w_allocs w.
Proof.
  intros Hm. unfold hsr_prp_forward_skb.
  destruct (Nat.eqb_spec (skb_mac_header skb) (skb_data skb)) as [E|_];
    [contradiction|].
  cbn [negb]. eexists. split; [reflexivity|].
  cbn [w_trace w_stats w_nodes w_sequence_nr w_allocs set_w_trace set_w_stats].
  rewrite <- app_assoc. cbn [app].
  split; [reflexivity|]. split; [reflexivity|].
  split.
  { unfold upd_stats. rewrite Nat.eqb_refl. reflexivity. }
  split.
  { intros d Hd. unfold upd_stats.
    destruct (Nat.eqb_spec d (dev_id (dev port))); [contradiction|reflexivity]. }
  rewrite egress_attempts_app, delivery_attempts_app. cbn.
  repeat split; lia.
Qed.

End Malformed.

Section Sat.
Context {R : Type}.
Variable phi : event -> Prop.

Lemma evolves_refl (w : world R) : evolves phi w w.
Proof.
  split; [|reflexivity]. exists []. rewrite app_nil_r. auto.
Qed.

Lemma evolves_trans (w1 w2 w3 : world R) :
  evolves phi w1 w2 -> evolves phi w2 w3 -> evolves phi w1 w3.
Proof.
  intros [(e1 & H1 & F1) S1] [(e2 & H2 & F2) S2]. split.
  - exists (e1 ++ e2). rewrite H2, H1, app_assoc. split; [reflexivity|].
    apply Forall_app. auto.
  - intros d. rewrite S2. apply S1.
Qed.

Lemma sat_ret {A} (Q : A -> Prop) (a : A) : Q a -> sat phi Q (@ret R A a).
Proof. intros H w. cbn. split; [exact H|apply evolves_refl]. Qed.

Lemma sat_oops {A} (Q : A -> Prop) : sat phi Q (@oops R A).
Proof. intros w. cbn. apply evolves_refl. Qed.

Lemma sat_bind {A B} (Q : A -> Prop) (Q' : B -> Prop) (m : M R A) (k : A -> M R B) :
  sat phi Q m -> (forall a, Q a -> sat phi Q' (k a)) -> sat phi Q' (bind m k).
Proof.
  intros Hm Hk w. unfold bind. specialize (Hm w).
  destruct (m w) as [a w1|w1]; [|exact Hm].
  destruct Hm as [Ha E1]. specialize (Hk a Ha w1).
  destruct (k a w1) as [b w2|w2].
  - destruct Hk as [Hb E2]. split; [exact Hb|]. eapply evolves_trans; eauto.
  - eapply evolves_trans; eauto.
Qed.

Lemma sat_weaken {A} (Q Q' : A -> Prop) (m : M R A) :
  sat phi Q m -> (forall a, Q a -> Q' a) -> sat phi Q' m.
Proof.
  intros H HQ w. specialize (H w). destruct (m w); [|exact H].
  destruct H. split; auto.
Qed.

Lemma sat_any {A} (Q : A -> Prop) (m : M R A) :
  sat phi Q m -> sat phi (fun _ => True) m.
Proof. intros H. eapply sat_weaken; eauto. Qed.

Lemma sat_emit (e : event) : phi e -> sat phi (fun _ => True) (@emit R e).
Proof.
  intros H w. cbn. split; [exact I|]. split; [|reflexivity].
  exists [e]. auto.
Qed.

Lemma sat_alloc : sat phi (fun _ => True) (@alloc R).
Proof.
  intros w. unfold alloc. destruct (w_allocs w); cbn; (split; [exact I|]).
  - apply evolves_refl.
  - split; [|reflexivity]. exists []. rewrite app_nil_r. auto.
Qed.

Lemma sat_dev_stats (d : net_device) (f : net_device_stats -> net_device_stats) :
  (forall s, tx_dropped (f s) = tx_dropped s) ->
  sat phi (fun _ => True) (@dev_stats R d f).
Proof.
  intros Hf w. cbn. split; [exact I|]. split.
  - exists []. rewrite app_nil_r. auto.
  - intros d'. cbn. unfold upd_stats. destruct (Nat.eqb d' (dev_id d)); auto.
Qed.

Lemma sat_netif_rx (port : hsr_prp_port) (skb : sk_buff) :
  phi (Ev_netif_rx port skb) -> sat phi (fun _ => True) (@netif_rx R port skb).
Proof.
  intros H w. unfold netif_rx. cbn.
  destruct (w_netif_rx w); cbn; (split; [exact I|]); (split; [|reflexivity]);
    exists [Ev_netif_rx port skb]; auto.
Qed.

Lemma sat_skb_push (skb : sk_buff) (n : nat) :
  sat phi (fun _ => True) (@skb_push R skb n).
Proof.
  unfold skb_push. destruct (n <=? skb_data skb)%nat.
  - now apply sat_ret.
  - apply sat_oops.
Qed.

Lemma sat_pskb_copy (skb : sk_buff) (headroom : Z) :
  sat phi (fun _ => True) (@__pskb_copy R skb headroom).
Proof.
  unfold __pskb_copy. destruct (headroom <? 0); [apply sat_oops|].
  eapply sat_bind; [apply sat_alloc|]. intros [fill|] _; now apply sat_ret.
Qed.

Lemma sat_skb_clone (skb : option sk_buff) :
  sat phi (fun _ => True) (@skb_clone R skb).
Proof.
  unfold skb_clone. destruct skb; [|apply sat_oops].
  eapply sat_bind; [apply sat_alloc|]. intros [fill|] _; now apply sat_ret.
Qed.

Lemma sat_create_stripped_skb (skb_in : sk_buff) (frame : hsr_prp_frame_info) :
  sat phi (fun _ => True) (@create_stripped_skb R skb_in frame).
Proof.
  unfold create_stripped_skb.
  eapply sat_bind; [apply sat_pskb_copy|]. intros skb _.
  eapply sat_bind; [apply sat_skb_push|]. intros s _.
  destruct skb; now apply sat_ret.
Qed.

Lemma sat_create_tagged_skb (priv : hsr_prp_priv) (skb_o : sk_buff)
    (frame : hsr_prp_frame_info) (port : hsr_prp_port) :
  sat phi (fun _ => True) (@create_tagged_skb R priv skb_o frame port).
Proof.
  unfold create_tagged_skb.
  eapply sat_bind; [apply sat_pskb_copy|]. intros [skb|] _; [|now apply sat_ret].
  eapply sat_bind; [apply sat_skb_push|]. intros s _. now apply sat_ret.
Qed.

End Sat.

Section SatForward.
Context {R : Type} {FR : Framereg R}.
Variable phi : event -> Prop.
Hypothesis phi_warn : forall m, phi (Ev_warn m).
Hypothesis phi_sup : forall skb n port, phi (Ev_handle_sup_frame skb n port).

Lemma sat_register_frame_out (port : hsr_prp_port) (n : option node) (seq : Z) :
  sat phi (fun _ => True) (register_frame_out port n seq).
Proof.
  intros w. unfold register_frame_out.
  destruct (hsr_register_frame_out (w_nodes w) port n seq) as [b r]. cbn.
  split; [exact I|]. split; [|reflexivity]. exists []. rewrite app_nil_r. auto.
Qed.

Lemma sat_register_frame_in (n : option node) (port : hsr_prp_port) (seq : Z) :
  sat phi (fun _ => True) (register_frame_in n port seq).
Proof.
  intros w. cbn. split; [exact I|]. split; [|reflexivity].
  exists []. rewrite app_nil_r. auto.
Qed.

Lemma sat_handle_sup_frame (skb : option sk_buff) (n : option node)
    (port : hsr_prp_port) :
  sat phi (fun _ => True) (handle_sup_frame skb n port).
Proof.
  intros w. cbn. split; [exact I|]. split; [|reflexivity].
  exists [Ev_handle_sup_frame skb n port]. auto.
Qed.

Lemma sat_addr_subst_source (n : option node) (skb : sk_buff) :
  sat phi (fun _ => True) (addr_subst_source n skb).
Proof. intros w. cbn. split; [exact I|apply evolves_refl]. Qed.

Lemma sat_addr_subst_dest (n : option node) (skb : sk_buff) (port : hsr_prp_port) :
  sat phi (fun _ => True) (addr_subst_dest n skb port).
Proof. intros w. cbn. split; [exact I|apply evolves_refl]. Qed.

Lemma same_flags_refl (f : hsr_prp_frame_info) : same_flags f f.
Proof. unfold same_flags. auto 10. Qed.

Lemma same_flags_trans (f1 f2 f3 : hsr_prp_frame_info) :
  same_flags f1 f2 -> same_flags f2 f3 -> same_flags f1 f3.
Proof. unfold same_flags. intuition congruence. Qed.

Lemma sat_frame_get_stripped_skb (frame : hsr_prp_frame_info) (port : hsr_prp_port) :
  sat phi (fun r => same_flags frame (fst r))
      (frame_get_stripped_skb (R:=R) frame port).
Proof.
  unfold frame_get_stripped_skb.
  eapply sat_bind with (Q := same_flags frame).
  - destruct (skb_std frame); [apply sat_ret, same_flags_refl|].
    destruct (skb_hsr frame); [|apply sat_oops].
    eapply sat_bind; [apply sat_create_stripped_skb|]. intros r _.
    apply sat_ret. unfold same_flags. cbn. auto 10.
  - intros f Hf. eapply sat_bind; [apply sat_skb_clone|]. intros s _.
    apply sat_ret. exact Hf.
Qed.

Lemma sat_frame_get_tagged_skb (priv : hsr_prp_priv) (frame : hsr_prp_frame_info)
    (port : hsr_prp_port) :
  sat phi (fun _ => True) (frame_get_tagged_skb (R:=R) priv frame port).
Proof.
  unfold frame_get_tagged_skb.
  destruct (skb_hsr frame); [apply sat_skb_clone|].
  destruct (_ && _).
  - eapply sat_bind; [apply sat_emit, phi_warn|]. intros _ _. now apply sat_ret.
  - destruct (skb_std frame); [apply sat_create_tagged_skb|apply sat_oops].
Qed.

Lemma sat_deliver_master (priv : hsr_prp_priv) (skb : sk_buff) (n : option node)
    (port : hsr_prp_port) :
  (forall s, phi (Ev_netif_rx port s)) ->
  sat phi (fun _ => True) (hsr_prp_deliver_master priv skb n port).
Proof.
  intros Hrx. unfold hsr_prp_deliver_master.
  eapply sat_bind with (Q := fun _ => True).
  { destruct (negb (rx_offloaded priv));
      [apply sat_addr_subst_source|now apply sat_ret]. }
  intros s _. eapply sat_bind; [apply sat_netif_rx, Hrx|]. intros res _.
  destruct (res =? NET_RX_DROP).
  - apply sat_dev_stats. reflexivity.
  - eapply sat_bind; [apply sat_dev_stats; reflexivity|]. intros _ _.
    eapply sat_bind; [apply sat_dev_stats; reflexivity|]. intros _ _.
    destruct (pkt_type skb =? PACKET_MULTICAST);
      [apply sat_dev_stats; reflexivity|now apply sat_ret].
Qed.

Lemma sat_xmit (priv : hsr_prp_priv) (skb : sk_buff) (port : hsr_prp_port)
    (frame : hsr_prp_frame_info) :
  (forall s, phi (Ev_dev_queue_xmit port s)) ->
  sat phi (fun _ => True) (hsr_prp_xmit priv skb port frame).
Proof.
  intros Htx. unfold hsr_prp_xmit.
  eapply sat_bind with (Q := fun _ => True).
  { destruct (_ && _); [|now apply sat_ret].
    eapply sat_bind; [apply sat_addr_subst_dest|]. intros s _. now apply sat_ret. }
  intros s _. apply sat_emit, Htx.
Qed.

(** One port of the loop: deliveries happen on master ports, egress on
    the other ports and never for a frame addressed to the node alone. *)
Lemma sat_forward_port (priv : hsr_prp_priv) (frame : hsr_prp_frame_info)
    (port : hsr_prp_port) :
  (is_master port = true -> forall s, phi (Ev_netif_rx port s)) ->
  (is_master port = false -> is_local_exclusive frame = false ->
   forall s, phi (Ev_dev_queue_xmit port s)) ->
  sat phi (same_flags frame) (hsr_prp_forward_port priv frame port).
Proof.
  intros Hrx Htx. unfold hsr_prp_forward_port.
  destruct (port_eqb port (port_rcv frame)); [apply sat_ret, same_flags_refl|].
  destruct (is_master port && negb (is_local_dest frame));
    [apply sat_ret, same_flags_refl|].
  destruct (negb (is_master port) && is_local_exclusive frame) eqn:Ex;
    [apply sat_ret, same_flags_refl|].
  eapply sat_bind with (Q := fun _ => True).
  { destruct (negb (rx_offloaded priv));
      [apply sat_register_frame_out|now apply sat_ret]. }
  intros sent _. destruct sent; [apply sat_ret, same_flags_refl|].
  destruct (is_supervision frame && is_master port && negb (rx_offloaded priv)).
  { eapply sat_bind; [apply sat_handle_sup_frame|]. intros _ _.
    apply sat_ret, same_flags_refl. }
  destruct (l2_fwd_offloaded priv && _); [apply sat_ret, same_flags_refl|].
  destruct (is_master port) eqn:Em; cbn [negb] in *.
  - eapply sat_bind; [apply sat_frame_get_stripped_skb|]. intros [f [s|]] Hf;
      cbn [fst snd] in *; [|apply sat_ret, Hf].
    eapply sat_bind; [apply sat_deliver_master, Hrx, eq_refl|]. intros _ _.
    apply sat_ret, Hf.
  - eapply sat_bind with (Q := fun r => fst r = frame).
    { eapply sat_bind; [apply sat_frame_get_tagged_skb|]. intros s _.
      now apply sat_ret. }
    intros [f [s|]] Hf; cbn [fst snd] in *; subst f;
      [|apply sat_ret, same_flags_refl].
    eapply sat_bind; [apply sat_xmit, Htx; [reflexivity|exact Ex]|]. intros _ _.
    apply sat_ret, same_flags_refl.
Qed.

Lemma sat_for_each_port (priv : hsr_prp_priv) (l : list hsr_prp_port)
    (frame : hsr_prp_frame_info) :
  (forall port s, is_master port = true -> phi (Ev_netif_rx port s)) ->
  (forall port s, is_master port = false -> is_local_exclusive frame = false ->
                  phi (Ev_dev_queue_xmit port s)) ->
  sat phi (same_flags frame) (for_each_port priv l frame).
Proof.
  intros Hrx Htx. revert frame Htx.
  induction l as [|port rest IH]; intros frame Htx; cbn [for_each_port].
  - apply sat_ret, same_flags_refl.
  - eapply sat_bind.
    + apply sat_forward_port.
      * intros Hm s. now apply Hrx.
      * intros Hm Hx s. now apply Htx.
    + intros f Hf. eapply sat_weaken.
      * apply IH. intros p s Hm Hx. apply Htx; [exact Hm|].
        destruct Hf as (_ & _ & _ & _ & _ & _ & He). congruence.
      * intros f' Hf'. eapply same_flags_trans; eauto.
Qed.

End SatForward.

Lemma Forall_master_only_no_egress (ext : list event) :
  Forall master_only ext -> egress_attempts ext = 0%nat.
Proof.
  induction 1 as [|e ext He _ IH]; [reflexivity|].
  unfold egress_attempts in *. cbn [filter].
  destruct e; cbn in *; try exact IH. contradiction.
Qed.

Section Vlan.
Context {R : Type} {FR : Framereg R}.

(** C3 (amended).  A frame with the VLAN ethertype is flagged and
    warned about, and then processed as any other untagged frame: when
    it passes the checks ahead of framing detection, classification
    succeeds with [is_vlan] set, the frame takes its sequence number
    from the shared counter and goes through the forwarding loop, and no
    transmit-drop counter moves. *)
Theorem vlan_frame_processed (priv : hsr_prp_priv) (skb : sk_buff)
    (port : hsr_prp_port) (w : world R) :
  skb_mac_header skb = skb_data skb ->
  h_proto skb = ETH_P_8021Q ->
  passes_checks priv skb port w = true ->
  exists frame w1,
    hsr_prp_fill_frame_info priv (frame_uninit port) skb port w = Ret (0, frame) w1
    /\ is_vlan frame = true
    /\ skb_hsr frame = None
    /\ skb_std frame <> None
    /\ sequence_nr frame = w_sequence_nr w
    /\ In (Ev_warn WARN_vlan_not_supported) (w_trace w1)
    /\ hsr_prp_forward_skb priv skb port w
       = ((if negb (rx_offloaded priv)
           then register_frame_in (node_src frame) port (sequence_nr frame)
           else ret tt) ;;
          frame' <- hsr_prp_forward_do priv frame ;;
          match skb_hsr frame' with Some s => kfree_skb s | None => ret tt end ;;
          match skb_std frame' with Some s => kfree_skb s | None => ret tt end) w1
    /\ forall d,
        tx_dropped (w_stats (final_world (hsr_prp_forward_skb priv skb port w)) d)
        = tx_dropped (w_stats w d).
Proof.
  intros Hmac Hv Hp.
  destruct (fill_frame_info_run priv (frame_uninit port) skb port w Hp)
    as (frame & w1 & E & Hvl & _ & _ & _ & _ & Hh & Hs & Hseq & _ & Htr & _ & Hst & _).
  rewrite Hv in *.
  change (ETH_P_8021Q =? ETH_P_8021Q) with true in *.
  change ((ETH_P_8021Q =? ETH_P_PRP) || (ETH_P_8021Q =? ETH_P_HSR)) with false in *.
  exists frame, w1. split; [exact E|]. split; [exact Hvl|]. split; [exact Hh|].
  split; [rewrite Hs; discriminate|]. split; [exact Hseq|].
  split.
  { rewrite Htr. apply in_or_app. right. left. reflexivity. }
  assert (Erun : hsr_prp_forward_skb priv skb port w
       = ((if negb (rx_offloaded priv)
           then register_frame_in (node_src frame) port (sequence_nr frame)
           else ret tt) ;;
          frame' <- hsr_prp_forward_do priv frame ;;
          match skb_hsr frame' with Some s => kfree_skb s | None => ret tt end ;;
          match skb_std frame' with Some s => kfree_skb s | None => ret tt end) w1).
  { unfold hsr_prp_forward_skb. rewrite Hmac, Nat.eqb_refl. cbn [negb].
    unfold bind at 1. rewrite E. cbn [fst snd]. reflexivity. }
  split; [exact Erun|].
  intros d. rewrite Erun.
  assert (S : sat (fun _ => True) (fun _ : unit => True)
       ((if negb (rx_offloaded priv)
         then register_frame_in (node_src frame) port (sequence_nr frame)
         else ret tt) ;;
        frame' <- hsr_prp_forward_do priv frame ;;
        match skb_hsr frame' with Some s => kfree_skb s | None => ret tt end ;;
        match skb_std frame' with Some s => kfree_skb s | None => ret tt end)).
  { eapply sat_bind with (Q := fun _ => True).
    { destruct (negb (rx_offloaded priv));
        [apply sat_register_frame_in|now apply sat_ret]. }
    intros _ _. eapply sat_bind.
    { apply sat_for_each_port; intros; exact I. }
    intros f _. eapply sat_bind with (Q := fun _ => True).
    { destruct (skb_hsr f); [now apply sat_emit|now apply sat_ret]. }
    intros _ _. destruct (skb_std f); [now apply sat_emit|now apply sat_ret]. }
  specialize (S w1). rewrite <- Hst.
  match goal with |- context [final_world ?o] => set (out := o) in * end.
  destruct out as [u w2|w2]; cbn [final_world].
  - destruct S as [_ [_ S]]. apply S.
  - destruct S as [_ S]. apply S.
Qed.

End Vlan.

Lemma Forall_not_dispatch (q : hsr_prp_port) (ext : list event) :
  Forall not_dispatch ext -> dispatches q ext = 0%nat.
Proof.
  induction 1 as [|e ext [He Hd] _ IH]; [reflexivity|].
  unfold dispatches in *. cbn [filter].
  destruct e; cbn in *; try exact IH; discriminate.
Qed.

Section Copies.
Context {R : Type}.

Lemma skb_clone_run (s : sk_buff) (w : world R) :
  skb_clone (Some s) w
  = Ret (match hd (Some 0) (w_allocs w) with Some _ => Some s | None => None end)
        (set_w_allocs w (tl (w_allocs w))).
Proof.
  unfold skb_clone, bind. rewrite alloc_run.
  destruct (hd (Some 0) (w_allocs w)); reflexivity.
Qed.

(** Stripping never faults on a buffer that holds the bytes of a tag;
    it uses one allocation, gives a copy exactly when the allocation
    succeeds, and hands the input back as it was. *)
Lemma create_stripped_skb_outcome (skb_in : sk_buff) (frame : hsr_prp_frame_info)
    (w : world R) :
  (HSR_PRP_HLEN <= skb_len skb_in)%nat ->
  exists res,
    create_stripped_skb skb_in frame w
    = Ret (skb_in, res) (set_w_allocs w (tl (w_allocs w)))
    /\ (res = None <-> hd (Some 0) (w_allocs w) = None).
Proof.
  intros Hlen. unfold create_stripped_skb, __pskb_copy.
  assert (Hroom : (Z.of_nat (skb_headroom (skb_pull skb_in HSR_PRP_HLEN))
                   - Z.of_nat HSR_PRP_HLEN <? 0) = false).
  { apply Z.ltb_ge. unfold skb_pull.
    destruct (Nat.ltb_spec (skb_len skb_in) HSR_PRP_HLEN); [lia|].
    unfold skb_headroom, set_skb_data, skb_data. lia. }
  rewrite Hroom. unfold bind at 1. unfold bind at 1. rewrite alloc_run.
  destruct (hd (Some 0) (w_allocs w)) as [fill|]; unfold ret at 1;
    unfold bind; rewrite skb_pull_push by exact Hlen.
  - eexists. split; [reflexivity|]. split; discriminate.
  - eexists. split; [reflexivity|]. split; reflexivity.
Qed.

(** Tagging uses one allocation and gives a copy when it succeeds. *)
Lemma create_tagged_skb_succeeds (priv : hsr_prp_priv) (skb_o : sk_buff)
    (frame : hsr_prp_frame_info) (port : hsr_prp_port) (w : world R) (fill : Z) :
  hd (Some 0) (w_allocs w) = Some fill ->
  exists t,
    create_tagged_skb priv skb_o frame port w
    = Ret (Some t) (set_w_allocs w (tl (w_allocs w))).
Proof.
  intros Hfill. unfold create_tagged_skb, __pskb_copy.
  destruct (Z.ltb_spec (Z.of_nat (skb_headroom skb_o) + Z.of_nat HSR_PRP_HLEN) 0)
    as [Hc|_]; [lia|].
  unfold bind at 1. unfold bind at 1. rewrite alloc_run, Hfill. unfold ret at 1.
  rewrite <- Nat2Z.inj_add, Nat2Z.id.
  unfold bind. rewrite skb_push_run.
  - eexists. reflexivity.
  - unfold pskb_copy_of, skb_reset_mac_header, set_skb_mac_header, set_csum_start.
    cbn [skb_data ip_summed]. destruct (ip_summed skb_o =? CHECKSUM_PARTIAL);
      cbn [skb_data]; lia.
Qed.

End Copies.

Section Dispatch.
Context {R : Type} {FR : Framereg R}.

Lemma deliver_master_run (priv : hsr_prp_priv) (skb : sk_buff) (n : option node)
    (port : hsr_prp_port) (w : world R) :
  exists skb' w',
    hsr_prp_deliver_master priv skb n port w = Ret tt w'
    /\ w_trace w' = w_trace w ++ [Ev_netif_rx port skb'].
Proof.
  unfold hsr_prp_deliver_master, bind, netif_rx, addr_subst_source, ret.
  destruct (negb (rx_offloaded priv)); cbn;
    destruct (w_netif_rx w) as [|r l]; cbn;
    try destruct (r =? NET_RX_DROP); cbn;
    destruct (pkt_type skb =? PACKET_MULTICAST); cbn;
    eexists; eexists; split; reflexivity.
Qed.

Lemma xmit_run (priv : hsr_prp_priv) (skb : sk_buff) (port : hsr_prp_port)
    (frame : hsr_prp_frame_info) (w : world R) :
  exists skb' w',
    hsr_prp_xmit priv skb port frame w = Ret tt w'
    /\ w_trace w' = w_trace w ++ [Ev_dev_queue_xmit port skb'].
Proof.
  unfold hsr_prp_xmit, bind, dev_queue_xmit, emit, addr_subst_dest, ret.
  destruct (negb (rx_offloaded priv) && is_master (port_rcv frame)); cbn;
    eexists; eexists; split; reflexivity.
Qed.

Lemma first_match_none (priv : hsr_prp_priv) (frame : hsr_prp_frame_info)
    (port : hsr_prp_port) (sent : bool) :
  first_match (exclusion_predicates priv frame port sent) = None ->
  port_eqb port (port_rcv frame) = false
  /\ is_master port && negb (is_local_dest frame) = false
  /\ negb (is_master port) && is_local_exclusive frame = false
  /\ negb (rx_offloaded priv) && sent = false
  /\ is_supervision frame && is_master port && negb (rx_offloaded priv) = false
  /\ l2_fwd_offloaded priv && slave_pair (type (port_rcv frame)) (type port) = false.
Proof.
  unfold exclusion_predicates, is_master. cbn [first_match].
  repeat match goal with
         | |- context [if ?b then _ else _] => destruct b; try discriminate
         | |- context [match ?b with true => _ | false => _ end] =>
             destruct b; try discriminate
         end.
  auto 10.
Qed.

Lemma slave_pair_spec (a b : hsr_prp_port_type) :
  (port_type_eqb a HSR_PRP_PT_SLAVE_A && port_type_eqb b HSR_PRP_PT_SLAVE_B)
  || (port_type_eqb a HSR_PRP_PT_SLAVE_B && port_type_eqb b HSR_PRP_PT_SLAVE_A)
  = slave_pair a b.
Proof. destruct a, b; reflexivity. Qed.

Lemma consult_run (priv : hsr_prp_priv) (frame : hsr_prp_frame_info)
    (port : hsr_prp_port) (w : world R) :
  (if negb (rx_offloaded priv)
   then register_frame_out port (node_src frame) (sequence_nr frame)
   else ret false) w
  = Ret (negb (rx_offloaded priv) && already_sent frame port w)
        (consulted priv frame port w).
Proof.
  unfold consulted, already_sent, register_frame_out, ret.
  destruct (rx_offloaded priv); cbn [negb andb]; [reflexivity|].
  destruct (hsr_register_frame_out _ _ _ _); reflexivity.
Qed.

(** The loop body is the six tests of the document, first match first,
    followed by the copy and the dispatch. *)
Lemma forward_port_by_exclusion (priv : hsr_prp_priv) (frame : hsr_prp_frame_info)
    (port : hsr_prp_port) (w : world R) :
  hsr_prp_forward_port priv frame port w
  = match first_match (exclusion_predicates priv frame port
                         (already_sent frame port w)) with
    | Some e => Ret frame (skipped_world priv frame port w e)
    | None => copy_and_dispatch priv frame port (consulted priv frame port w)
    end.
Proof.
  unfold hsr_prp_forward_port, exclusion_predicates. cbn [first_match].
  fold (is_master port).
  destruct (port_eqb port (port_rcv frame)); [reflexivity|].
  destruct (is_master port && negb (is_local_dest frame)); [reflexivity|].
  destruct (negb (is_master port) && is_local_exclusive frame); [reflexivity|].
  unfold bind at 1. rewrite consult_run.
  destruct (negb (rx_offloaded priv) && already_sent frame port w); [reflexivity|].
  destruct (is_supervision frame && is_master port && negb (rx_offloaded priv)).
  { reflexivity. }
  rewrite slave_pair_spec.
  destruct (l2_fwd_offloaded priv && slave_pair (type (port_rcv frame)) (type port));
    reflexivity.
Qed.

End Dispatch.

Section PortDecision.
Context {R : Type} {FR : Framereg R}.

Lemma consulted_trace (priv : hsr_prp_priv) (frame : hsr_prp_frame_info)
    (port : hsr_prp_port) (w : world R) :
  w_trace (consulted priv frame port w) = w_trace w
  /\ w_allocs (consulted priv frame port w) = w_allocs w.
Proof. unfold consulted. destruct (rx_offloaded priv); auto. Qed.

Lemma not_dispatch_warn (m : warning) : not_dispatch (Ev_warn m).
Proof. split; reflexivity. Qed.

Lemma not_dispatch_sup (skb : option sk_buff) (n : option node) (port : hsr_prp_port) :
  not_dispatch (Ev_handle_sup_frame skb n port).
Proof. split; reflexivity. Qed.

(** The copy and the dispatch add at most one dispatch event to the
    trace, and it is for the port at hand. *)
Lemma copy_and_dispatch_trace (priv : hsr_prp_priv) (frame : hsr_prp_frame_info)
    (port : hsr_prp_port) (w : world R) :
  exists ext,
    w_trace (final_world (copy_and_dispatch priv frame port w)) = w_trace w ++ ext
    /\ forall q, (dispatches q ext <= if port_eqb port q then 1 else 0)%nat.
Proof.
  unfold copy_and_dispatch.
  set (get := if negb (is_master port)
              then skb <- frame_get_tagged_skb priv frame port ;; ret (frame, skb)
              else frame_get_stripped_skb frame port).
  assert (S : sat not_dispatch (fun _ => True) get).
  { unfold get. destruct (negb (is_master port)).
    - eapply sat_bind.
      + apply sat_frame_get_tagged_skb. apply not_dispatch_warn.
      + intros s _. now apply sat_ret.
    - eapply sat_any. apply sat_frame_get_stripped_skb. }
  specialize (S w). unfold bind at 1.
  destruct (get w) as [[f [skb|]] w1|w1]; cbn [fst snd final_world].
  - destruct S as [_ [(ext & E & F) _]].
    assert (D : exists w2,
      ((if is_master port
        then hsr_prp_deliver_master priv (set_skb_dev skb (dev port)) (node_src f) port
        else hsr_prp_xmit priv (set_skb_dev skb (dev port)) port f) w1 = Ret tt w2)
      /\ exists e, w_trace w2 = w_trace w1 ++ [e]
                   /\ forall q, is_dispatch_to q e = port_eqb port q).
    { destruct (is_master port).
      - destruct (deliver_master_run priv (set_skb_dev skb (dev port)) (node_src f)
                    port w1) as (s' & w2 & E2 & T2).
        exists w2. split; [exact E2|]. eexists. split; [exact T2|]. reflexivity.
      - destruct (xmit_run priv (set_skb_dev skb (dev port)) port f w1)
          as (s' & w2 & E2 & T2).
        exists w2. split; [exact E2|]. eexists. split; [exact T2|]. reflexivity. }
    destruct D as (w2 & E2 & e & T2 & De).
    unfold bind. rewrite E2. cbn [ret final_world].
    exists (ext ++ [e]). rewrite T2, E, app_assoc. split; [reflexivity|].
    intros q. rewrite dispatches_app, (Forall_not_dispatch q ext F).
    unfold dispatches. cbn [filter]. rewrite De.
    destruct (port_eqb port q); cbn; lia.
  - destruct S as [_ [(ext & E & F) _]]. exists ext. split; [exact E|].
    intros q. rewrite (Forall_not_dispatch q ext F). lia.
  - destruct S as [(ext & E & F) _]. exists ext. split; [exact E|].
    intros q. rewrite (Forall_not_dispatch q ext F). lia.
Qed.

(** When the copy can be made, it is made and dispatched: one delivery
    on a master port, one egress attempt on any other. *)
Lemma copy_and_dispatch_once (priv : hsr_prp_priv) (frame : hsr_prp_frame_info)
    (port : hsr_prp_port) (w : world R) :
  copy_obtainable frame port w ->
  exists frame' skb w',
    copy_and_dispatch priv frame port w = Ret frame' w'
    /\ w_trace w' = w_trace w ++ [if is_master port then Ev_netif_rx port skb
                                  else Ev_dev_queue_xmit port skb].
Proof.
  intros [Hal Hbuf]. unfold copy_and_dispatch.
  destruct (allocs_succeed_S _ _ Hal) as (fill1 & Hf1 & Hal1).
  destruct (allocs_succeed_S _ _ Hal1) as (fill2 & Hf2 & _).
  destruct (is_master port) eqn:Em; cbn [negb].
  - (* master: the stripped form, then a clone of it *)
    assert (G : exists f s w1,
      frame_get_stripped_skb frame port w = Ret (f, Some s) w1
      /\ w_trace w1 = w_trace w).
    { unfold frame_get_stripped_skb.
      destruct (skb_std frame) as [s0|] eqn:Es.
      - unfold bind, ret. rewrite Es, skb_clone_run, Hf1.
        eexists. eexists. eexists. split; reflexivity.
      - destruct (skb_hsr frame) as [t|] eqn:Eh; [|destruct Hbuf as [Hc _]; congruence].
        destruct (create_stripped_skb_outcome t frame w Hbuf) as (res & Er & Hres).
        unfold bind at 1. unfold bind at 1. rewrite Er. unfold ret at 1.
        cbn [fst snd].
        destruct res as [s|]; [|exfalso; destruct Hres as [Hres _];
                                 specialize (Hres eq_refl); congruence].
        unfold bind, ret. cbn [skb_std set_frame_skb_std].
        rewrite skb_clone_run. cbn [w_allocs set_w_allocs]. rewrite Hf2.
        eexists. eexists. eexists. split; reflexivity. }
    destruct G as (f & s & w1 & Eg & Tg).
    unfold bind at 1. rewrite Eg. cbn [fst snd].
    destruct (deliver_master_run priv (set_skb_dev s (dev port)) (node_src f) port w1)
      as (s' & w2 & E2 & T2).
    unfold bind. rewrite E2. cbn [ret].
    exists f, s', w2. split; [reflexivity|]. rewrite T2, Tg. reflexivity.
  - (* another port: a clone of the tagged original, or a fresh tag *)
    assert (G : exists s w1,
      frame_get_tagged_skb priv frame port w = Ret (Some s) w1
      /\ w_trace w1 = w_trace w).
    { unfold frame_get_tagged_skb.
      destruct (skb_hsr frame) as [t|] eqn:Eh.
      - rewrite skb_clone_run, Hf1. eexists. eexists. split; reflexivity.
      - destruct Hbuf as [Hstd Hty].
        assert (Et : negb (port_type_eqb (type port) HSR_PRP_PT_SLAVE_A)
                     && negb (port_type_eqb (type port) HSR_PRP_PT_SLAVE_B) = false).
        { unfold is_master in Em.
          destruct Hty as [Hty|[Hty|Hty]]; rewrite Hty in *;
            [discriminate|reflexivity|reflexivity]. }
        rewrite Et. destruct (skb_std frame) as [s0|]; [|congruence].
        destruct (create_tagged_skb_succeeds priv s0 frame port w fill1 Hf1)
          as (t & Et').
        rewrite Et'. eexists. eexists. split; reflexivity. }
    destruct G as (s & w1 & Eg & Tg).
    unfold bind at 1. unfold bind at 1. rewrite Eg. unfold ret at 1. cbn [fst snd].
    destruct (xmit_run priv (set_skb_dev s (dev port)) port frame w1)
      as (s' & w2 & E2 & T2).
    unfold bind. rewrite E2. cbn [ret].
    exists frame, s', w2. split; [reflexivity|]. rewrite T2, Tg. reflexivity.
Qed.




End PortDecision.

Section ExclusiveLocal.
Context {R : Type} {FR : Framereg R}.

(** For a frame addressed to the node alone, the loop passes over the
    ports other than master without a trace. *)
Lemma exclusive_skips_non_master (priv : hsr_prp_priv) (l : list hsr_prp_port) :
  forall (frame : hsr_prp_frame_info) (w : world R),
    is_local_exclusive frame = true ->
    filter is_master l = [] ->
    for_each_port priv l frame w = Ret frame w.
Proof.
  induction l as [|p rest IH]; intros frame w Hx Hl; [reflexivity|].
  cbn [filter] in Hl. destruct (is_master p) eqn:Em; [discriminate|].
  cbn [for_each_port]. unfold bind, hsr_prp_forward_port.
  rewrite Em, Hx. cbn [andb negb].
  destruct (port_eqb p (port_rcv frame)); unfold ret at 1; apply IH; assumption.
Qed.

(** The master port, when the frame survives its tests and the copy is
    obtained: one delivery, and the flags of the frame stay. *)
Lemma forward_port_delivers (priv : hsr_prp_priv) (frame : hsr_prp_frame_info)
    (m : hsr_prp_port) (w : world R) :
  is_master m = true ->
  port_eqb m (port_rcv frame) = false ->
  is_local_dest frame = true ->
  rx_offloaded priv = true \/ already_sent frame m w = false ->
  is_supervision frame && negb (rx_offloaded priv) = false ->
  copy_obtainable frame m w ->
  exists frame' skb w',
    hsr_prp_forward_port priv frame m w = Ret frame' w'
    /\ same_flags frame frame'
    /\ w_trace w' = w_trace w ++ [Ev_netif_rx m skb].
Proof.
  intros Hm Hr Hd Hs Hsup Hc.
  assert (Hf : first_match (exclusion_predicates priv frame m
                              (already_sent frame m w)) = None).
  { unfold exclusion_predicates. unfold is_master in Hm.
    rewrite Hr, Hm, Hd. cbn [negb andb first_match].
    assert (E1 : negb (rx_offloaded priv) && already_sent frame m w = false).
    { destruct Hs as [Hs|Hs]; rewrite Hs; [reflexivity|apply andb_false_r]. }
    rewrite E1.
    assert (E2 : is_supervision frame && true && negb (rx_offloaded priv) = false).
    { rewrite andb_true_r. exact Hsup. }
    rewrite E2.
    assert (E3 : slave_pair (type (port_rcv frame)) (type m) = false).
    { destruct (type m); try discriminate.
      destruct (type (port_rcv frame)); reflexivity. }
    rewrite E3, andb_false_r. reflexivity. }
  destruct (consulted_trace priv frame m w) as [Tc Ac].
  destruct (copy_and_dispatch_once priv frame m (consulted priv frame m w))
    as (f & s & w' & E & T).
  { destruct Hc as [Ha Hb]. split; [rewrite Ac; exact Ha|exact Hb]. }
  pose proof (sat_forward_port (fun _ => True) (fun _ => I) (fun _ _ _ => I)
                priv frame m (fun _ _ => I) (fun _ _ _ => I) w) as S.
  rewrite forward_port_by_exclusion, Hf in *. rewrite E in S.
  exists f, s, w'. split; [exact E|]. split; [apply S|].
  rewrite T, Tc, Hm. reflexivity.
Qed.

Lemma for_each_port_delivers (priv : hsr_prp_priv) (m : hsr_prp_port)
    (l : list hsr_prp_port) :
  forall (frame : hsr_prp_frame_info) (w : world R),
    is_local_exclusive frame = true ->
    is_local_dest frame = true ->
    filter is_master l = [m] ->
    port_eqb m (port_rcv frame) = false ->
    rx_offloaded priv = true \/ already_sent frame m w = false ->
    is_supervision frame && negb (rx_offloaded priv) = false ->
    copy_obtainable frame m w ->
    exists frame' skb w',
      for_each_port priv l frame w = Ret frame' w'
      /\ w_trace w' = w_trace w ++ [Ev_netif_rx m skb].
Proof.
  induction l as [|p rest IH]; intros frame w Hx Hd Hl Hr Hs Hsup Hc;
    [discriminate|].
  cbn [filter] in Hl. cbn [for_each_port]. unfold bind.
  destruct (is_master p) eqn:Em.
  - injection Hl as Hp Hrest. subst p.
    destruct (forward_port_delivers priv frame m w Em Hr Hd Hs Hsup Hc)
      as (f & s & w' & E & Hf & T).
    rewrite E. exists f, s, w'. split; [|exact T].
    apply exclusive_skips_non_master; [|exact Hrest].
    destruct Hf as (_ & _ & _ & _ & _ & _ & He). congruence.
  - assert (E : hsr_prp_forward_port priv frame p w = Ret frame w).
    { unfold hsr_prp_forward_port. rewrite Em, Hx. cbn [andb negb].
      destruct (port_eqb p (port_rcv frame)); reflexivity. }
    rewrite E. apply IH; assumption.
Qed.

(** C6.  The classifier flags a frame as exclusively local, and as
    locally destined, when its destination is the node's own address.
    For a frame so flagged the forwarding loop makes no egress attempt
    at all, and every delivery it makes is on a master port, whatever
    the ports, the registry and the allocator do.  And the frame is
    delivered: on a node with one master port, when the frame did not
    come from that port, is not reported by the registry as already
    sent there, is not a supervision frame handled in software, and its
    copy is obtained, the loop makes exactly one call, the delivery on
    the master port. *)
Theorem exclusive_local_master_only (priv : hsr_prp_priv) :
  (forall (frame0 : hsr_prp_frame_info) (skb : sk_buff) (port : hsr_prp_port)
          (w : world R),
      passes_checks priv skb port w = true ->
      hsr_prp_addr_is_self priv (h_dest skb) = true ->
      exists frame w',
        hsr_prp_fill_frame_info priv frame0 skb port w = Ret (0, frame) w'
        /\ is_local_exclusive frame = true
        /\ is_local_dest frame = true)
  /\
  (forall (frame : hsr_prp_frame_info) (w : world R),
      is_local_exclusive frame = true ->
      exists ext,
        w_trace (final_world (hsr_prp_forward_do priv frame w)) = w_trace w ++ ext
        /\ Forall master_only ext
        /\ egress_attempts ext = 0%nat)
  /\
  (forall (frame : hsr_prp_frame_info) (w : world R) (m : hsr_prp_port),
      is_local_exclusive frame = true ->
      is_local_dest frame = true ->
      filter is_master (ports priv) = [m] ->
      port_eqb m (port_rcv frame) = false ->
      rx_offloaded priv = true \/ already_sent frame m w = false ->
      is_supervision frame && negb (rx_offloaded priv) = false ->
      copy_obtainable frame m w ->
      exists frame' skb w',
        hsr_prp_forward_do priv frame w = Ret frame' w'
        /\ w_trace w' = w_trace w ++ [Ev_netif_rx m skb]).
Proof.
  split; [|split].
  - intros frame0 skb port w Hp Hself.
    destruct (fill_frame_info_run priv frame0 skb port w Hp)
      as (frame & w' & E & _ & _ & _ & Hx & Hd & _).
    exists frame, w'. split; [exact E|].
    assert (He : is_local_exclusive frame = true) by congruence.
    split; [exact He|exact (Hd He)].
  - intros frame w Hx.
    assert (S : sat master_only (same_flags frame)
                  (for_each_port (R:=R) priv (ports priv) frame)).
    { apply sat_for_each_port.
      - intros m. exact I.
      - intros skb n port. exact I.
      - intros port s Hm. exact Hm.
      - intros port s _ Hc. congruence. }
    specialize (S w). unfold hsr_prp_forward_do.
    destruct (for_each_port priv (ports priv) frame w) as [f w'|w']; cbn.
    + destruct S as [_ [(ext & E & F) _]]. exists ext.
      repeat split; auto. now apply Forall_master_only_no_egress.
    + destruct S as [(ext & E & F) _]. exists ext.
      repeat split; auto. now apply Forall_master_only_no_egress.
  - intros frame w m Hx Hd Hl Hr Hs Hsup Hc.
    exact (for_each_port_delivers priv m (ports priv) frame w Hx Hd Hl Hr Hs Hsup Hc).
Qed.

End ExclusiveLocal.

Section AllocationFailure.
Context {R : Type} {FR : Framereg R}.

(** C7, where the code parts from it.  When the master port survives
    the six tests for a frame that arrived tagged and the copy made by
    the strip cannot be allocated, the stripped cache stays empty and
    [frame_get_stripped_skb] clones it all the same: the loop body
    faults, and with it the loop, whatever ports remain to be served. *)
Theorem failed_strip_faults (priv : hsr_prp_priv) (frame : hsr_prp_frame_info)
    (port : hsr_prp_port) (t : sk_buff) (w : world R) :
  is_master port = true ->
  first_match (exclusion_predicates priv frame port (already_sent frame port w)) = None ->
  skb_std frame = None ->
  skb_hsr frame = Some t ->
  (HSR_PRP_HLEN <= skb_len t)%nat ->
  hd (Some 0) (w_allocs w) = None ->
  exists w',
    hsr_prp_forward_port priv frame port w = Oops w'
    /\ forall rest, for_each_port priv (port :: rest) frame w = Oops w'.
Proof.
  intros Em Hf Hs Hh Hlen Hfail.
  assert (E : exists w', hsr_prp_forward_port priv frame port w = Oops w').
  { rewrite forward_port_by_exclusion, Hf. unfold copy_and_dispatch.
    rewrite Em. cbn [negb]. unfold frame_get_stripped_skb. rewrite Hs, Hh.
    destruct (create_stripped_skb_outcome t frame (consulted priv frame port w) Hlen)
      as (res & Er & Hres).
    rewrite (proj2 (consulted_trace priv frame port w)) in Hres.
    destruct Hres as [_ Hres]. specialize (Hres Hfail). subst res.
    unfold bind at 1. unfold bind at 1. unfold bind at 1. rewrite Er.
    cbn. eexists. reflexivity. }
  destruct E as (w' & E). exists w'. split; [exact E|].
  intros rest. cbn [for_each_port]. unfold bind. rewrite E. reflexivity.
Qed.

End AllocationFailure.

(** ** Runs on the sample node *)

Module Runs.
Import Sample Frames.

(** The sample frame contexts are the ones the classifier builds. *)
Lemma classifier_builds_sample_frames :
  (exists w',
      hsr_prp_fill_frame_info priv0 (frame_uninit port_a)
        (untagged 16 mac_bcast mac_peer PACKET_BROADCAST) port_a (world0 5)
      = Ret (0, frame_untagged) w')
  /\ (exists w',
      hsr_prp_fill_frame_info priv0 (frame_uninit port_a) exact_tagged port_a
        (world0 5)
      = Ret (0, frame_tagged) w')
  /\ (exists w',
      hsr_prp_fill_frame_info priv0 (frame_uninit port_a) to_self port_a (world0 5)
      = Ret (0, frame_to_self) w').
Proof.
  repeat split; eexists; vm_compute; reflexivity.
Qed.

Lemma create_stripped_skb_keeps_input_witness :
  (HSR_PRP_HLEN <= skb_len exact_tagged)%nat
  /\ exists res w',
      create_stripped_skb exact_tagged frame_to_strip (world0 6)
      = Ret (exact_tagged, res) w'
      /\ w_trace w' = w_trace (world0 6).
Proof.
  assert (H : (HSR_PRP_HLEN <= skb_len exact_tagged)%nat).
  { apply Nat.leb_le. reflexivity. }
  split; [exact H|].
  exact (create_stripped_skb_keeps_input exact_tagged frame_to_strip (world0 6) H).
Defined.

Lemma is_supervision_frame_iff_witness :
  is_supervision_frame priv0 sup_frame = true
  /\ HSR_TLV_type sup_frame = HSR_TLV_LIFE_CHECK
  /\ HSR_TLV_length sup_frame = sizeof_hsr_prp_sup_payload.
Proof.
  assert (H : is_supervision_frame priv0 sup_frame = true).
  { reflexivity. }
  split; [exact H|].
  destruct (proj1 (is_supervision_frame_iff priv0 sup_frame) H)
    as (_ & _ & _ & _ & _).
  split; reflexivity.
Defined.

Lemma local_exclusive_is_local_dest_witness :
  hsr_prp_addr_is_self priv0 (h_dest to_self) = true
  /\ let r := check_local_dest (FR := simple_framereg) priv0 to_self
                (frame_uninit port_a) in
     pkt_type (fst r) = PACKET_HOST
     /\ is_local_exclusive (snd r) = true /\ is_local_dest (snd r) = true.
Proof.
  assert (H : hsr_prp_addr_is_self priv0 (h_dest to_self) = true) by reflexivity.
  split; [exact H|].
  exact (proj1 (local_exclusive_is_local_dest (FR := simple_framereg) priv0 to_self
                  (frame_uninit port_a)) H).
Defined.

(** The scenario of the design document: counter at 5, the frame gets
    5 and the counter becomes 6, read and written under the lock. *)
Lemma sequence_nr_assignment_witness :
  let skb := untagged 16 mac_bcast mac_peer PACKET_BROADCAST in
  passes_checks priv0 skb port_a (world0 5) = true
  /\ exists frame w',
      hsr_prp_fill_frame_info priv0 (frame_uninit port_a) skb port_a (world0 5)
      = Ret (0, frame) w'
      /\ sequence_nr frame = 5 /\ w_sequence_nr w' = 6
      /\ exists warn,
          w_trace w' = warn ++ [Ev_spin_lock_irqsave; Ev_sequence_nr_read 5;
                                Ev_sequence_nr_write 6; Ev_spin_unlock_irqrestore].
Proof.
  cbv zeta.
  assert (H : passes_checks priv0 (untagged 16 mac_bcast mac_peer PACKET_BROADCAST)
                port_a (world0 5) = true) by reflexivity.
  split; [exact H|].
  destruct (sequence_nr_assignment priv0 (frame_uninit port_a)
              (untagged 16 mac_bcast mac_peer PACKET_BROADCAST) port_a (world0 5) H)
    as (frame & w' & E & _ & _ & Hun).
  exists frame, w'. split; [exact E|].
  destruct Hun as (Hs & Hc & warn & _ & Ht).
  - vm_compute. discriminate.
  - vm_compute. discriminate.
  - split; [exact Hs|]. split; [exact Hc|]. exists warn. exact Ht.
Defined.

Lemma malformed_frame_dropped_witness :
  skb_mac_header malformed <> skb_data malformed
  /\ exists w',
      hsr_prp_forward_skb priv0 malformed port_a (world0 5) = Ret tt w'
      /\ tx_dropped (w_stats w' (dev_id (dev port_a))) = 1
      /\ egress_attempts (w_trace w') = 0%nat
      /\ delivery_attempts (w_trace w') = 0%nat.
Proof.
  assert (H : skb_mac_header malformed <> skb_data malformed).
  { vm_compute. discriminate. }
  split; [exact H|].
  destruct (malformed_frame_dropped priv0 malformed port_a (world0 5) H)
    as (w' & E & _ & _ & Hd & _ & He & Hl & _).
  exists w'. split; [exact E|]. split; [exact Hd|]. split; [exact He|exact Hl].
Defined.

Lemma exclusive_local_master_only_witness :
  (exists frame w',
      hsr_prp_fill_frame_info priv0 (frame_uninit port_a) to_self port_a (world0 5)
      = Ret (0, frame) w'
      /\ is_local_exclusive frame = true
      /\ is_local_dest frame = true)
  /\ (exists ext,
      w_trace (final_world (hsr_prp_forward_do priv0 frame_to_self (world0 6)))
      = w_trace (world0 6) ++ ext
      /\ Forall master_only ext /\ egress_attempts ext = 0%nat)
  /\ filter is_master (ports priv0) = [port_m]
  /\ already_sent frame_to_self port_m (world0 6) = false
  /\ copy_obtainable frame_to_self port_m (world0 6)
  /\ exists frame' skb w',
      hsr_prp_forward_do priv0 frame_to_self (world0 6) = Ret frame' w'
      /\ w_trace w' = w_trace (world0 6) ++ [Ev_netif_rx port_m skb].
Proof.
  destruct (exclusive_local_master_only (FR := simple_framereg) priv0) as (A & B & C).
  assert (H1 : filter is_master (ports priv0) = [port_m]) by reflexivity.
  assert (H2 : already_sent frame_to_self port_m (world0 6) = false) by reflexivity.
  assert (H3 : copy_obtainable frame_to_self port_m (world0 6)).
  { split; [exact I|]. cbn. split; [discriminate|]. left. reflexivity. }
  split; [|split; [|split; [exact H1|split; [exact H2|split; [exact H3|]]]]].
  - apply A; reflexivity.
  - apply B. reflexivity.
  - apply (C frame_to_self (world0 6) port_m); try reflexivity; try assumption.
    right. exact H2.
Defined.

Lemma vlan_frame_processed_witness :
  let skb := vlan_frame 16 mac_bcast mac_peer PACKET_BROADCAST in
  skb_mac_header skb = skb_data skb
  /\ h_proto skb = ETH_P_8021Q
  /\ passes_checks priv0 skb port_a (world0 5) = true
  /\ exists frame w1,
      hsr_prp_fill_frame_info priv0 (frame_uninit port_a) skb port_a (world0 5)
      = Ret (0, frame) w1
      /\ is_vlan frame = true
      /\ forall d,
          tx_dropped (w_stats (final_world
                                 (hsr_prp_forward_skb priv0 skb port_a (world0 5))) d)
          = tx_dropped (w_stats (world0 5) d).
Proof.
  cbv zeta.
  assert (H1 : skb_mac_header (vlan_frame 16 mac_bcast mac_peer PACKET_BROADCAST)
               = skb_data (vlan_frame 16 mac_bcast mac_peer PACKET_BROADCAST))
    by reflexivity.
  assert (H2 : h_proto (vlan_frame 16 mac_bcast mac_peer PACKET_BROADCAST)
               = ETH_P_8021Q) by reflexivity.
  assert (H3 : passes_checks priv0 (vlan_frame 16 mac_bcast mac_peer PACKET_BROADCAST)
                 port_a (world0 5) = true) by reflexivity.
  split; [exact H1|]. split; [exact H2|]. split; [exact H3|].
  destruct (vlan_frame_processed priv0 (vlan_frame 16 mac_bcast mac_peer PACKET_BROADCAST)
              port_a (world0 5) H1 H2 H3)
    as (frame & w1 & E & Hv & _ & _ & _ & _ & _ & Hd).
  exists frame, w1. split; [exact E|]. split; [exact Hv|exact Hd].
Defined.

(** C3, as the design document words it, fails: the VLAN frame is
    delivered and sent on, and no drop counter moves. *)
Lemma vlan_frame_counterexample :
  let skb := vlan_frame 16 mac_bcast mac_peer PACKET_BROADCAST in
  h_proto skb = ETH_P_8021Q
  /\ exists w',
      hsr_prp_forward_skb priv0 skb port_a (world0 5) = Ret tt w'
      /\ tx_dropped (w_stats w' (dev_id (dev port_a))) = 0
      /\ egress_attempts (w_trace w') = 1%nat
      /\ delivery_attempts (w_trace w') = 1%nat.
Proof.
  cbv zeta. split; [reflexivity|].
  eexists. split; [vm_compute; reflexivity|].
  split; [reflexivity|]. split; reflexivity.
Qed.



(** The failing run of C7: a tagged broadcast frame received on slave
    A when the one allocation of the strip fails.  The master port comes
    first, the loop faults there, and slave B, whose clone would have
    been allocated next, is never served. *)
Lemma failed_strip_faults_witness :
  let w := consulted priv0 frame_tagged port_m (world_allocs 7 [None; Some 0]) in
  (exists w',
      hsr_prp_forward_port priv0 frame_tagged port_m (world_allocs 7 [None; Some 0])
      = Oops w'
      /\ forall rest,
          for_each_port priv0 (port_m :: rest) frame_tagged
            (world_allocs 7 [None; Some 0]) = Oops w')
  /\ hsr_prp_forward_skb priv0 exact_tagged port_a (world_allocs 7 [None; Some 0])
     = Oops (set_w_allocs
               (set_w_nodes w
                  (hsr_register_frame_in (w_nodes w) (Some 1%nat) port_a 7))
               [Some 0]).
Proof.
  cbv zeta. split.
  - apply (failed_strip_faults priv0 frame_tagged port_m exact_tagged
             (world_allocs 7 [None; Some 0])); try reflexivity.
    apply Nat.leb_le. reflexivity.
  - vm_compute. reflexivity.
Defined.

End Runs.

(** * Further properties of the code *)

(** ** The tag codec *)

Lemma nth_skipn_Z (l : list Z) (n k : nat) : nth k (skipn n l) 0 = nth (n + k) l 0.
Proof.
  revert l. induction n as [|n IH]; intros l; [reflexivity|].
  destruct l as [|x l]; cbn [skipn Nat.add nth]; [now destruct k|apply IH].
Qed.

Lemma skb_len_bytes (skb : sk_buff) : skb_len skb = length (skb_bytes skb).
Proof. unfold skb_len, skb_bytes. now rewrite length_skipn. Qed.

Section TagFields.
Context {R : Type}.

(** X1.  What a tagged copy carries.  For an untagged frame that holds its
    Ethernet header (and its VLAN header when flagged), and whose
    headroom leaves the mac header of the copy within its sixteen bits
    (headroom plus six below 65536), tagging yields,
    when the allocation succeeds, a frame six bytes longer with the same
    headroom, whose outer ethertype is the one of the protocol version,
    whose tag reads back the lane of the port, the sequence number of
    the frame context (sixteen bits of it), the size (length of the
    tagged frame less the Ethernet header and the VLAN header, twelve
    bits of it) and the ethertype the frame had, and whose addresses
    and payload are those of the frame. *)
Theorem create_tagged_skb_fields (priv : hsr_prp_priv) (f : sk_buff)
    (frame : hsr_prp_frame_info) (port : hsr_prp_port) (w : world R) :
  (ETH_HLEN + vlan_len frame <= skb_len f)%nat ->
  Z.of_nat (skb_headroom f) + Z.of_nat HSR_PRP_HLEN < 65536 ->
  allocs_succeed 1 (w_allocs w) ->
  exists t w',
    create_tagged_skb priv f frame port w = Ret (Some t) w'
    /\ skb_len t = (skb_len f + HSR_PRP_HLEN)%nat
    /\ skb_headroom t = skb_headroom f
    /\ skb_mac_header t = skb_data t
    /\ h_proto t = ethertype_of (prot_ver priv)
    /\ get_hsr_tag_path t = lane_of port
    /\ get_hsr_tag_LSDU_size t
       = (Z.of_nat (skb_len f) + 6 - 14 - Z.of_nat (vlan_len frame)) mod 4096
    /\ hsr_tag_sequence_nr t = u16 (sequence_nr frame)
    /\ hsr_tag_encap_proto t = u16 (get_be16 (skb_bytes f) 12)
    /\ firstn 12 (skb_bytes t) = firstn 12 (skb_bytes f)
    /\ skipn 20 (skb_bytes t) = skipn 14 (skb_bytes f)
    /\ w_trace w' = w_trace w.
Proof.
  intros Hlen _ Hal.
  destruct (allocs_succeed_S _ _ Hal) as (fill & Hf & _).
  destruct (split_at_data f) as (pre & Hhead & Hpre).
  { unfold skb_len, ETH_HLEN in Hlen. lia. }
  rewrite skb_len_bytes in *. unfold skb_headroom, vlan_len in *.
  destruct f as [hd0 d mh s c p ty dv].
  cbn [skb_data skb_head] in *.
  remember (skb_bytes (mk_skb hd0 d mh s c p ty dv)) as fr eqn:Efr.
  clear Efr. subst hd0 d.
  assert (H14 : (14 <= length fr)%nat) by (unfold ETH_HLEN in Hlen; lia).
  do 14 (explode_list fr H14). clear H14.
  rewrite create_tagged_skb_run with (fill := fill); [|exact Hf|].
  2:{ intros E. rewrite E in Hlen. cbn [length] in Hlen.
      unfold ETH_HLEN, VLAN_HLEN in *. lia. }
  pose proof (repeat_length fill (length pre)) as Hl.
  set (pre1 := repeat fill (length pre)) in *. clearbody pre1.
  rewrite <- Hl. clear Hl.
  eexists. eexists. split; [reflexivity|].
  unfold get_hsr_tag_path, get_hsr_tag_LSDU_size, hsr_tag_path_and_LSDU_size,
    hsr_tag_sequence_nr, hsr_tag_encap_proto, h_proto, skb_bytes, skb_len.
  cbn [skb_head skb_data skb_mac_header w_trace set_w_allocs].
  rewrite !get_be16_app_pre, skipn_app_pre0.
  set (m := (Z.of_nat (20 + length fr) - 14 - (if is_vlan frame then 4 else 0))
              mod 4096).
  assert (Hm : 0 <= m < 4096) by (apply Z.mod_pos_bound; lia).
  destruct (tag_word_fields (lane_of port) m (lane_of_cases port) Hm) as [Ep Es].
  assert (Em : m = (Z.of_nat (length (z :: z0 :: z1 :: z2 :: z3 :: z4 :: z5 :: z6
                      :: z7 :: z8 :: z9 :: z10 :: z11 :: z12 :: fr)) + 6 - 14
                    - Z.of_nat (if is_vlan frame then VLAN_HLEN else 0)) mod 4096).
  { unfold m. f_equal. cbn [length]. unfold VLAN_HLEN.
    destruct (is_vlan frame); lia. }
  split.
  { rewrite length_app, Nat.add_comm, Nat.add_sub. cbn [length app].
    unfold HSR_PRP_HLEN, be16_bytes. cbn [length app]. lia. }
  split; [reflexivity|]. split; [reflexivity|].
  unfold get_be16, be16_bytes. cbn [nth app firstn skipn].
  rewrite !be16_join.
  split.
  { unfold ethertype_of. destruct (prot_ver priv =? 0); reflexivity. }
  split; [exact Ep|]. split; [rewrite Es; exact Em|].
  split; [reflexivity|]. split; [reflexivity|].
  split; [reflexivity|]. split; reflexivity.
Qed.

(** X2.  What a stripped copy carries.  For a frame that holds an Ethernet
    header and a tag, with its mac header at the data, stripping yields,
    when the allocation succeeds, a frame six bytes shorter with the
    same headroom: the twelve address bytes followed by what came after
    the first eighteen bytes, so that its ethertype is the protocol the
    tag encapsulated, which is also what [protocol] is set to. *)
Theorem create_stripped_skb_fields (t : sk_buff) (frame : hsr_prp_frame_info)
    (w : world R) :
  (ETH_HLEN + HSR_PRP_HLEN <= skb_len t)%nat ->
  skb_mac_header t = skb_data t ->
  is_vlan frame = false ->
  allocs_succeed 1 (w_allocs w) ->
  exists s w',
    create_stripped_skb t frame w = Ret (t, Some s) w'
    /\ skb_bytes s = firstn 12 (skb_bytes t) ++ skipn 18 (skb_bytes t)
    /\ (skb_len s + HSR_PRP_HLEN)%nat = skb_len t
    /\ skb_headroom s = skb_headroom t
    /\ skb_mac_header s = skb_data s
    /\ h_proto s = hsr_tag_encap_proto t
    /\ protocol s = hsr_tag_encap_proto t
    /\ pkt_type s = pkt_type t
    /\ w_trace w' = w_trace w.
Proof.
  intros Hlen Hmac Hv Hal.
  destruct (allocs_succeed_S _ _ Hal) as (fill & Hf & _).
  destruct (split_at_data t) as (pre & Hhead & Hpre).
  { unfold skb_len, ETH_HLEN in Hlen. lia. }
  rewrite !skb_len_bytes in *. unfold skb_headroom in *.
  unfold hsr_tag_encap_proto, h_proto.
  destruct t as [hd0 d mh s c p ty dv].
  cbn [skb_data skb_head skb_mac_header] in *.
  remember (skb_bytes (mk_skb hd0 d mh s c p ty dv)) as fr eqn:Efr.
  clear Efr. subst hd0 mh d.
  assert (H20 : (20 <= length fr)%nat)
    by (unfold ETH_HLEN, HSR_PRP_HLEN in Hlen; lia).
  do 20 (explode_list fr H20). clear H20.
  rewrite create_stripped_skb_run with (fill := fill); [|exact Hf|exact Hv].
  eexists. eexists. split; [reflexivity|].
  unfold skb_bytes.
  cbn [skb_head skb_data skb_mac_header protocol pkt_type w_trace set_w_allocs].
  rewrite get_be16_app_pre.
  pose proof (repeat_length fill (length pre)) as Hl.
  set (pre1 := repeat fill (length pre)) in *. clearbody pre1.
  rewrite <- Hl. clear Hl.
  rewrite get_be16_app_pre, skipn_app_pre0.
  cbn [firstn skipn app length]. unfold HSR_PRP_HLEN, skb_len.
  cbn [skb_head skb_data]. rewrite length_app. cbn [length].
  repeat split; try reflexivity; try lia.
Qed.

End TagFields.

Lemma nth_app_pre_len (pre l : list Z) (n k : nat) :
  length pre = n -> nth (n + k) (pre ++ l) 0 = nth k l 0.
Proof. intros <-. apply nth_app_pre. Qed.

Section Shapes.
Context {R : Type}.

(** The buffer of a tagged copy: fresh headroom of the same size, a
    header of twenty bytes, and the frame from its fifteenth byte on;
    the other fields are those of the frame, the checksum start moved by
    the length of the tag when the checksum is partial. *)
Lemma create_tagged_skb_shape (priv : hsr_prp_priv) (f : sk_buff)
    (frame : hsr_prp_frame_info) (port : hsr_prp_port) (w : world R) :
  (ETH_HLEN + vlan_len frame <= skb_len f)%nat ->
  allocs_succeed 1 (w_allocs w) ->
  exists pre hdr,
    length pre = skb_data f /\ length hdr = 20%nat
    /\ create_tagged_skb priv f frame port w
       = Ret (Some (mk_skb (pre ++ hdr ++ skipn 14 (skb_bytes f))
                           (skb_data f) (skb_data f) (ip_summed f)
                           (tagged_csum (ip_summed f) (csum_start f))
                           (protocol f) (pkt_type f) (skb_dev f)))
             (set_w_allocs w (tl (w_allocs w))).
Proof.
  intros Hlen Hal.
  destruct (allocs_succeed_S _ _ Hal) as (fill & Hf & _).
  destruct (split_at_data f) as (pre & Hhead & Hpre).
  { unfold skb_len, ETH_HLEN in Hlen. lia. }
  rewrite skb_len_bytes in *. unfold vlan_len in *.
  destruct f as [hd0 d mh s c p ty dv].
  cbn [skb_data skb_head ip_summed csum_start protocol pkt_type skb_dev] in *.
  remember (skb_bytes (mk_skb hd0 d mh s c p ty dv)) as fr eqn:Efr.
  clear Efr. subst hd0 d.
  assert (H14 : (14 <= length fr)%nat) by (unfold ETH_HLEN in Hlen; lia).
  do 14 (explode_list fr H14). clear H14.
  rewrite create_tagged_skb_run with (fill := fill); [|exact Hf|].
  2:{ intros E. rewrite E in Hlen. cbn [length] in Hlen.
      unfold ETH_HLEN, VLAN_HLEN in *. lia. }
  eexists (repeat fill (length pre)).
  eexists ([z; z0; z1; z2; z3; z4; z5; z6; z7; z8; z9; z10]
             ++ be16_bytes _ ++ be16_bytes _ ++ be16_bytes _ ++ be16_bytes _).
  split; [apply repeat_length|]. split; [reflexivity|].
  cbn [skipn]. rewrite <- !app_assoc. reflexivity.
Qed.

(** The buffer of a stripped copy: fresh headroom of the same size, the
    twelve address bytes, and the frame from its nineteenth byte on. *)
Lemma create_stripped_skb_shape (t : sk_buff) (frame : hsr_prp_frame_info)
    (w : world R) :
  (ETH_HLEN + HSR_PRP_HLEN <= skb_len t)%nat ->
  skb_mac_header t = skb_data t ->
  is_vlan frame = false ->
  allocs_succeed 1 (w_allocs w) ->
  exists pre,
    length pre = skb_data t
    /\ create_stripped_skb t frame w
       = Ret (t, Some (mk_skb (pre ++ firstn 12 (skb_bytes t) ++ skipn 18 (skb_bytes t))
                              (skb_data t) (skb_data t) (ip_summed t)
                              (stripped_csum (ip_summed t) (csum_start t))
                              (hsr_tag_encap_proto t) (pkt_type t) (skb_dev t)))
             (set_w_allocs w (tl (w_allocs w))).
Proof.
  intros Hlen Hmac Hv Hal.
  destruct (allocs_succeed_S _ _ Hal) as (fill & Hf & _).
  destruct (split_at_data t) as (pre & Hhead & Hpre).
  { unfold skb_len, ETH_HLEN in Hlen. lia. }
  rewrite !skb_len_bytes in *. unfold hsr_tag_encap_proto.
  destruct t as [hd0 d mh s c p ty dv].
  cbn [skb_data skb_head skb_mac_header ip_summed csum_start protocol pkt_type
       skb_dev] in *.
  remember (skb_bytes (mk_skb hd0 d mh s c p ty dv)) as fr eqn:Efr.
  clear Efr. subst hd0 mh d.
  assert (H20 : (20 <= length fr)%nat)
    by (unfold ETH_HLEN, HSR_PRP_HLEN in Hlen; lia).
  do 20 (explode_list fr H20). clear H20.
  rewrite create_stripped_skb_run with (fill := fill); [|exact Hf|exact Hv].
  rewrite get_be16_app_pre.
  exists (repeat fill (length pre)). split; [apply repeat_length|].
  reflexivity.
Qed.

(** X3.  The checksum start follows the payload through the tagging: when
    the checksum is partial and starts at or after the payload, the
    start moves by six and designates the byte it designated. *)
Theorem tagging_keeps_checksum_target (priv : hsr_prp_priv) (f : sk_buff)
    (frame : hsr_prp_frame_info) (port : hsr_prp_port) (w : world R) :
  (ETH_HLEN + vlan_len frame <= skb_len f)%nat ->
  allocs_succeed 1 (w_allocs w) ->
  ip_summed f = CHECKSUM_PARTIAL ->
  Z.of_nat (skb_data f) + 14 <= csum_start f ->
  csum_start f + 6 < 65536 ->
  exists t w',
    create_tagged_skb priv f frame port w = Ret (Some t) w'
    /\ ip_summed t = CHECKSUM_PARTIAL
    /\ csum_start t = csum_start f + 6
    /\ csum_byte t = csum_byte f.
Proof.
  intros Hlen Hal Hs Hlo Hhi.
  destruct (create_tagged_skb_shape priv f frame port w Hlen Hal)
    as (pre & hdr & Lp & Lh & E).
  rewrite E. eexists. eexists. split; [reflexivity|].
  cbn [ip_summed csum_start]. split; [exact Hs|].
  assert (Ec : tagged_csum (ip_summed f) (csum_start f) = csum_start f + 6).
  { unfold tagged_csum, u16, HSR_PRP_HLEN. rewrite Hs. cbn [Z.eqb Pos.eqb].
    change (Z.of_nat 6) with 6. apply Z.mod_small. lia. }
  split; [exact Ec|].
  unfold csum_byte. cbn [csum_start skb_head]. rewrite Ec.
  destruct (split_at_data f) as (pre0 & Hhead & Hpre0).
  { unfold skb_len, ETH_HLEN in Hlen. lia. }
  rewrite Hhead.
  set (k := (Z.to_nat (csum_start f) - skb_data f - 14)%nat).
  replace (Z.to_nat (csum_start f + 6)) with (skb_data f + (20 + k))%nat by lia.
  replace (Z.to_nat (csum_start f)) with (skb_data f + (14 + k))%nat by lia.
  rewrite (nth_app_pre_len pre _ _ _ Lp), (nth_app_pre_len pre0 _ _ _ Hpre0).
  rewrite <- Lh, nth_app_pre, <- !nth_skipn_Z. reflexivity.
Qed.

(** X4.  And back through the strip: a partial checksum that starts at or
    after the payload of a tagged frame starts six bytes earlier in the
    stripped copy, on the same byte. *)
Theorem stripping_keeps_checksum_target (t : sk_buff) (frame : hsr_prp_frame_info)
    (w : world R) :
  (ETH_HLEN + HSR_PRP_HLEN <= skb_len t)%nat ->
  skb_mac_header t = skb_data t ->
  is_vlan frame = false ->
  allocs_succeed 1 (w_allocs w) ->
  ip_summed t = CHECKSUM_PARTIAL ->
  Z.of_nat (skb_data t) + 20 <= csum_start t ->
  csum_start t < 65536 ->
  exists s w',
    create_stripped_skb t frame w = Ret (t, Some s) w'
    /\ ip_summed s = CHECKSUM_PARTIAL
    /\ csum_start s = csum_start t - 6
    /\ csum_byte s = csum_byte t.
Proof.
  intros Hlen Hmac Hv Hal Hs Hlo Hhi.
  destruct (create_stripped_skb_shape t frame w Hlen Hmac Hv Hal) as (pre & Lp & E).
  rewrite E. eexists. eexists. split; [reflexivity|].
  cbn [ip_summed csum_start]. split; [exact Hs|].
  assert (Ec : stripped_csum (ip_summed t) (csum_start t) = csum_start t - 6).
  { unfold stripped_csum, u16, HSR_PRP_HLEN. rewrite Hs. cbn [Z.eqb Pos.eqb].
    change (Z.of_nat 6) with 6. apply Z.mod_small. lia. }
  split; [exact Ec|].
  unfold csum_byte. cbn [csum_start skb_head]. rewrite Ec.
  destruct (split_at_data t) as (pre0 & Hhead & Hpre0).
  { unfold skb_len, ETH_HLEN in Hlen. lia. }
  rewrite Hhead.
  set (k := (Z.to_nat (csum_start t) - skb_data t - 20)%nat).
  replace (Z.to_nat (csum_start t - 6)) with (skb_data t + (12 + (2 + k)))%nat by lia.
  replace (Z.to_nat (csum_start t)) with (skb_data t + (18 + (2 + k)))%nat by lia.
  rewrite (nth_app_pre_len pre _ _ _ Lp), (nth_app_pre_len pre0 _ _ _ Hpre0).
  assert (L12 : length (firstn 12 (skb_bytes t)) = 12%nat).
  { apply firstn_length_le. rewrite <- skb_len_bytes.
    unfold ETH_HLEN, HSR_PRP_HLEN in Hlen. lia. }
  rewrite <- L12 at 1. rewrite nth_app_pre, <- !nth_skipn_Z. reflexivity.
Qed.

End Shapes.

Section TagThenClassify.
Context {R : Type} {FR : Framereg R}.

(** The ethertype and the sequence number a tagged copy shows to a
    reader of its header. *)
Lemma create_tagged_skb_header (priv : hsr_prp_priv) (f : sk_buff)
    (frame : hsr_prp_frame_info) (port : hsr_prp_port) (w : world R) :
  (ETH_HLEN + vlan_len frame <= skb_len f)%nat ->
  allocs_succeed 1 (w_allocs w) ->
  exists t w',
    create_tagged_skb priv f frame port w = Ret (Some t) w'
    /\ h_proto t = ethertype_of (prot_ver priv)
    /\ hsr_get_skb_sequence_nr t = u16 (sequence_nr frame)
    /\ get_hsr_tag_path t = lane_of port
    /\ skb_len t = (skb_len f + HSR_PRP_HLEN)%nat
    /\ w_trace w' = w_trace w
    /\ w_allocs w' = tl (w_allocs w).
Proof.
  intros Hlen Hal.
  destruct (allocs_succeed_S _ _ Hal) as (fill & Hf & _).
  destruct (split_at_data f) as (pre & Hhead & Hpre).
  { unfold skb_len, ETH_HLEN in Hlen. lia. }
  rewrite skb_len_bytes in *. unfold vlan_len in *.
  destruct f as [hd0 d mh s c p ty dv].
  cbn [skb_data skb_head] in *.
  remember (skb_bytes (mk_skb hd0 d mh s c p ty dv)) as fr eqn:Efr.
  clear Efr. subst hd0 d.
  assert (H14 : (14 <= length fr)%nat) by (unfold ETH_HLEN in Hlen; lia).
  do 14 (explode_list fr H14). clear H14.
  rewrite create_tagged_skb_run with (fill := fill); [|exact Hf|].
  2:{ intros E. rewrite E in Hlen. cbn [length] in Hlen.
      unfold ETH_HLEN, VLAN_HLEN in *. lia. }
  pose proof (repeat_length fill (length pre)) as Hl.
  set (pre1 := repeat fill (length pre)) in *. clearbody pre1.
  rewrite <- Hl. clear Hl.
  eexists. eexists. split; [reflexivity|].
  unfold hsr_get_skb_sequence_nr, hsr_tag_sequence_nr, h_proto,
    get_hsr_tag_path, hsr_tag_path_and_LSDU_size, skb_len.
  cbn [skb_head skb_data skb_mac_header w_trace set_w_allocs].
  rewrite !get_be16_app_pre.
  set (m := (Z.of_nat (20 + length fr) - 14 - (if is_vlan frame then 4 else 0))
              mod 4096).
  assert (Hm : 0 <= m < 4096) by (apply Z.mod_pos_bound; lia).
  destruct (tag_word_fields (lane_of port) m (lane_of_cases port) Hm) as [Ep _].
  unfold get_be16, be16_bytes. cbn [nth app]. rewrite !be16_join.
  split.
  { unfold ethertype_of. destruct (prot_ver priv =? 0); reflexivity. }
  split; [reflexivity|]. split; [exact Ep|].
  split; [|split; reflexivity].
  rewrite length_app, Nat.add_comm, Nat.add_sub. cbn [length app].
  unfold HSR_PRP_HLEN. lia.
Qed.

(** X5.  Sender and receiver agree.  A frame tagged by [create_tagged_skb]
    is recognised as tagged by the classifier of whatever node receives
    it and passes its checks: the frame context gets the sequence number
    the sender wrote (sixteen bits of it), holds the frame as its tagged
    buffer, is not flagged VLAN, and the receiver's own sequence counter
    is left alone. *)
Theorem tagged_copy_is_classified (priv : hsr_prp_priv) (f : sk_buff)
    (frame : hsr_prp_frame_info) (port : hsr_prp_port) (w : world R) :
  (ETH_HLEN + vlan_len frame <= skb_len f)%nat ->
  allocs_succeed 1 (w_allocs w) ->
  exists t w',
    create_tagged_skb priv f frame port w = Ret (Some t) w'
    /\ forall (priv' : hsr_prp_priv) (frame0 : hsr_prp_frame_info)
              (port' : hsr_prp_port) (w2 : world R),
        passes_checks priv' t port' w2 = true ->
        exists fr w3,
          hsr_prp_fill_frame_info priv' frame0 t port' w2 = Ret (0, fr) w3
          /\ sequence_nr fr = u16 (sequence_nr frame)
          /\ skb_std fr = None
          /\ skb_hsr fr <> None
          /\ is_vlan fr = false
          /\ w_sequence_nr w3 = w_sequence_nr w2.
Proof.
  intros Hlen Hal.
  destruct (create_tagged_skb_header priv f frame port w Hlen Hal)
    as (t & w' & E & Hp & Hs & _).
  exists t, w'. split; [exact E|].
  intros priv' frame0 port' w2 Hc.
  destruct (fill_frame_info_run priv' frame0 t port' w2 Hc)
    as (fr & w3 & Ef & Hv & _ & _ & _ & _ & Hh & Hstd & Hseq & Hcnt & _).
  assert (Et : (h_proto t =? ETH_P_PRP) || (h_proto t =? ETH_P_HSR) = true).
  { rewrite Hp. unfold ethertype_of. destruct (prot_ver priv =? 0); reflexivity. }
  assert (Ev : (h_proto t =? ETH_P_8021Q) = false).
  { rewrite Hp. unfold ethertype_of. destruct (prot_ver priv =? 0); reflexivity. }
  rewrite Et in *. rewrite Ev in *.
  exists fr, w3. split; [exact Ef|]. split; [congruence|].
  split; [exact Hstd|]. split; [rewrite Hh; discriminate|].
  split; [exact Hv|exact Hcnt].
Qed.

End TagThenClassify.

(** ** The copies a port is served *)

Section CopiesServed.
Context {R : Type} {FR : Framereg R}.

Lemma allocs_succeed_hd (n : nat) (l : list (option Z)) :
  allocs_succeed (S n) l -> hd (Some 0) l <> None.
Proof.
  intros H. destruct (allocs_succeed_S _ _ H) as (fill & E & _). congruence.
Qed.


(** X7.  A frame that arrived untagged is tagged for slaves only.  On a port
    that is neither master nor slave the loop body returns without a
    dispatch and without touching the allocator. *)
Theorem untagged_frame_skips_non_slave (priv : hsr_prp_priv)
    (frame : hsr_prp_frame_info) (port : hsr_prp_port) (w : world R) :
  skb_hsr frame = None ->
  type port = HSR_PRP_PT_INTERLINK \/ type port = HSR_PRP_PT_NONE ->
  exists w',
    hsr_prp_forward_port priv frame port w = Ret frame w'
    /\ (forall q, dispatches q (w_trace w') = dispatches q (w_trace w))
    /\ w_allocs w' = w_allocs w.
Proof.
  intros Hh Hty. rewrite forward_port_by_exclusion.
  destruct (consulted_trace priv frame port w) as [Tc Ac].
  destruct (first_match _) as [e|].
  - eexists. split; [reflexivity|].
    destruct e; cbn [skipped_world]; rewrite ?Tc, ?Ac; auto.
    unfold handle_sup_frame.
    cbn [final_world w_trace w_allocs set_w_trace set_w_nodes].
    rewrite Tc, Ac. split; [|reflexivity]. intros q.
    rewrite dispatches_app. unfold dispatches at 2.
    cbn [filter is_dispatch_to length]. lia.
  - unfold copy_and_dispatch, frame_get_tagged_skb, is_master.
    rewrite Hh.
    assert (Em : port_type_eqb (type port) HSR_PRP_PT_MASTER = false
                 /\ negb (port_type_eqb (type port) HSR_PRP_PT_SLAVE_A)
                    && negb (port_type_eqb (type port) HSR_PRP_PT_SLAVE_B) = true).
    { destruct Hty as [E|E]; rewrite E; split; reflexivity. }
    destruct Em as [Em Es]. rewrite Em, Es. cbn [negb].
    unfold bind, WARN_ONCE, emit, ret. cbn [fst snd].
    eexists. split; [reflexivity|].
    cbn [w_trace w_allocs set_w_trace]. rewrite Tc, Ac.
    split; [|reflexivity]. intros q.
    rewrite dispatches_app. unfold dispatches at 2.
    cbn [filter is_dispatch_to length]. lia.
Qed.

Lemma xmit_unchanged (priv : hsr_prp_priv) (skb : sk_buff) (port : hsr_prp_port)
    (frame : hsr_prp_frame_info) (w : world R) :
  rx_offloaded priv = true \/ is_master (port_rcv frame) = false ->
  hsr_prp_xmit priv skb port frame w
  = Ret tt (set_w_trace w (w_trace w ++ [Ev_dev_queue_xmit port skb])).
Proof.
  intros H. unfold hsr_prp_xmit.
  assert (E : negb (rx_offloaded priv) && is_master (port_rcv frame) = false).
  { destruct H as [H|H]; rewrite H; [reflexivity|apply andb_false_r]. }
  rewrite E. reflexivity.
Qed.

(** X8.  A tagged frame goes round the ring as it came.  When a frame that
    arrived tagged on a slave (or under receive offload) survives the
    six tests on a port other than master and the clone is allocated,
    what is handed to the device is the received buffer itself, bytes
    and fields, with that port's device set; the frame context is left
    as it was. *)
Theorem tagged_frame_forwarded_unchanged (priv : hsr_prp_priv)
    (frame : hsr_prp_frame_info) (port : hsr_prp_port) (t : sk_buff) (w : world R) :
  first_match (exclusion_predicates priv frame port (already_sent frame port w)) = None ->
  skb_hsr frame = Some t ->
  is_master port = false ->
  rx_offloaded priv = true \/ is_master (port_rcv frame) = false ->
  allocs_succeed 1 (w_allocs w) ->
  exists w',
    hsr_prp_forward_port priv frame port w = Ret frame w'
    /\ w_trace w' = w_trace w ++ [Ev_dev_queue_xmit port (set_skb_dev t (dev port))].
Proof.
  intros Hf Hh Em Hsrc Hal.
  destruct (allocs_succeed_S _ _ Hal) as (fill & E1 & _).
  destruct (consulted_trace priv frame port w) as [Tc Ac].
  rewrite forward_port_by_exclusion, Hf.
  unfold copy_and_dispatch, frame_get_tagged_skb. rewrite Em, Hh. cbn [negb].
  unfold bind at 1. unfold bind at 1. rewrite skb_clone_run, Ac, E1.
  unfold ret at 1. cbn [fst snd]. unfold bind.
  rewrite xmit_unchanged by exact Hsrc. unfold ret.
  eexists. split; [reflexivity|].
  cbn [w_trace set_w_trace set_w_allocs]. rewrite Tc. reflexivity.
Qed.

(** One surviving slave port of the loop, for a frame that arrived
    untagged. *)
Lemma forward_port_tags_for_slave (priv : hsr_prp_priv)
    (frame : hsr_prp_frame_info) (port : hsr_prp_port) (f : sk_buff) (w : world R) :
  first_match (exclusion_predicates priv frame port (already_sent frame port w)) = None ->
  skb_hsr frame = None ->
  skb_std frame = Some f ->
  (ETH_HLEN + vlan_len frame <= skb_len f)%nat ->
  type port = HSR_PRP_PT_SLAVE_A \/ type port = HSR_PRP_PT_SLAVE_B ->
  rx_offloaded priv = true \/ is_master (port_rcv frame) = false ->
  allocs_succeed 1 (w_allocs w) ->
  exists s w',
    hsr_prp_forward_port priv frame port w = Ret frame w'
    /\ w_trace w' = w_trace w ++ [Ev_dev_queue_xmit port s]
    /\ skb_dev s = Some (dev port)
    /\ h_proto s = ethertype_of (prot_ver priv)
    /\ get_hsr_tag_path s = (if port_type_eqb (type port) HSR_PRP_PT_SLAVE_A
                             then 0 else 1)
    /\ hsr_tag_sequence_nr s = u16 (sequence_nr frame)
    /\ skb_len s = (skb_len f + HSR_PRP_HLEN)%nat
    /\ w_allocs w' = tl (w_allocs w).
Proof.
  intros Hf Hh Hs Hlen Hty Hsrc Hal.
  destruct (consulted_trace priv frame port w) as [Tc Ac].
  assert (Hal' : allocs_succeed 1 (w_allocs (consulted priv frame port w))).
  { rewrite Ac. exact Hal. }
  destruct (create_tagged_skb_header priv f frame port
              (consulted priv frame port w) Hlen Hal')
    as (t & w1 & E & Hp & Hseq & Hpath & Hl & Tw & Aw).
  rewrite forward_port_by_exclusion, Hf.
  unfold copy_and_dispatch, frame_get_tagged_skb, is_master.
  assert (Em : port_type_eqb (type port) HSR_PRP_PT_MASTER = false
               /\ negb (port_type_eqb (type port) HSR_PRP_PT_SLAVE_A)
                  && negb (port_type_eqb (type port) HSR_PRP_PT_SLAVE_B) = false).
  { destruct Hty as [E'|E']; rewrite E'; split; reflexivity. }
  destruct Em as [Em Es]. rewrite Em, Es, Hh, Hs. cbn [negb].
  unfold bind at 1. unfold bind at 1. rewrite E. unfold ret at 1. cbn [fst snd].
  unfold bind. rewrite xmit_unchanged by exact Hsrc. unfold ret.
  exists (set_skb_dev t (dev port)). eexists. split; [reflexivity|].
  cbn [w_trace w_allocs set_w_trace]. rewrite Tw, Tc, Aw, Ac.
  repeat split; assumption.
Qed.

(** X9.  Each slave gets its own lane.  When a frame that arrived untagged
    (and holds its headers) survives the six tests on a slave port and
    the copy is allocated, one buffer is handed to the device of that
    port; unless it is rewritten by the address substitution for frames
    from the master, it carries the ethertype of the protocol version,
    lane 0 on slave A and lane 1 on slave B, and the sequence number of
    the frame context. *)
Theorem untagged_frame_tagged_for_slave (priv : hsr_prp_priv)
    (frame : hsr_prp_frame_info) (port : hsr_prp_port) (f : sk_buff) (w : world R) :
  first_match (exclusion_predicates priv frame port (already_sent frame port w)) = None ->
  skb_hsr frame = None ->
  skb_std frame = Some f ->
  (ETH_HLEN + vlan_len frame <= skb_len f)%nat ->
  type port = HSR_PRP_PT_SLAVE_A \/ type port = HSR_PRP_PT_SLAVE_B ->
  rx_offloaded priv = true \/ is_master (port_rcv frame) = false ->
  allocs_succeed 1 (w_allocs w) ->
  exists s w',
    hsr_prp_forward_port priv frame port w = Ret frame w'
    /\ w_trace w' = w_trace w ++ [Ev_dev_queue_xmit port s]
    /\ skb_dev s = Some (dev port)
    /\ h_proto s = ethertype_of (prot_ver priv)
    /\ get_hsr_tag_path s = (if port_type_eqb (type port) HSR_PRP_PT_SLAVE_A
                             then 0 else 1)
    /\ hsr_tag_sequence_nr s = u16 (sequence_nr frame)
    /\ skb_len s = (skb_len f + HSR_PRP_HLEN)%nat.
Proof.
  intros Hf Hh Hs Hlen Hty Hsrc Hal.
  destruct (forward_port_tags_for_slave priv frame port f w Hf Hh Hs Hlen Hty Hsrc Hal)
    as (s & w' & E & H).
  exists s, w'. split; [exact E|]. tauto.
Qed.

End CopiesServed.

(** ** The two sinks *)

Section Sinks.
Context {R : Type} {FR : Framereg R}.

Lemma upd_stats_same (st : nat -> net_device_stats) (d : nat)
    (f : net_device_stats -> net_device_stats) :
  upd_stats st d f d = f (st d).
Proof. unfold upd_stats. now rewrite Nat.eqb_refl. Qed.

Lemma upd_stats_other (st : nat -> net_device_stats) (d d' : nat)
    (f : net_device_stats -> net_device_stats) :
  d' <> d -> upd_stats st d f d' = st d'.
Proof.
  intros H. unfold upd_stats. destruct (Nat.eqb_spec d' d); [contradiction|reflexivity].
Qed.

(** X10.  Every local delivery is accounted for once.  [hsr_prp_deliver_master]
    hands one buffer to [netif_rx], the frame without its Ethernet
    header, and then counts it on the device of the port either as
    dropped or as received, with its length and, if the frame was a
    multicast one, as multicast; the transmit-drop counter and the
    counters of every other device are not touched. *)
Theorem deliver_master_accounting (priv : hsr_prp_priv) (skb : sk_buff)
    (n : option node) (port : hsr_prp_port) (w : world R) :
  let sent :=
    skb_pull (if rx_offloaded priv then skb
              else hsr_addr_subst_source (w_nodes w) n skb) ETH_HLEN in
  let res := hd NET_RX_SUCCESS (w_netif_rx w) in
  let old := w_stats w (dev_id (dev port)) in
  exists w',
    hsr_prp_deliver_master priv skb n port w = Ret tt w'
    /\ w_trace w' = w_trace w ++ [Ev_netif_rx port sent]
    /\ (forall d, d <> dev_id (dev port) -> w_stats w' d = w_stats w d)
    /\ (let new := w_stats w' (dev_id (dev port)) in
        rx_packets new + rx_dropped new = rx_packets old + rx_dropped old + 1
        /\ tx_dropped new = tx_dropped old
        /\ (res = NET_RX_DROP ->
            rx_dropped new = rx_dropped old + 1 /\ rx_bytes new = rx_bytes old
            /\ multicast new = multicast old)
        /\ (res <> NET_RX_DROP ->
            rx_packets new = rx_packets old + 1
            /\ rx_bytes new = rx_bytes old + Z.of_nat (skb_len sent)
            /\ multicast new
               = multicast old + (if pkt_type skb =? PACKET_MULTICAST then 1 else 0))).
Proof.
  cbv zeta. unfold hsr_prp_deliver_master.
  set (sub := if negb (rx_offloaded priv) then addr_subst_source n skb else ret skb).
  assert (Es : sub w
               = Ret (if rx_offloaded priv then skb
                      else hsr_addr_subst_source (w_nodes w) n skb) w).
  { unfold sub. destruct (rx_offloaded priv); reflexivity. }
  unfold bind at 1. rewrite Es. clear Es sub.
  set (sent := skb_pull _ ETH_HLEN).
  unfold bind at 1. unfold netif_rx.
  cbn [w_netif_rx set_w_trace].
  destruct (w_netif_rx w) as [|r l]; cbn [hd].
  - change (NET_RX_SUCCESS =? NET_RX_DROP) with false. cbn iota.
    unfold bind, dev_stats, ret.
    destruct (pkt_type skb =? PACKET_MULTICAST);
      cbn [w_stats w_trace set_w_stats set_w_trace];
      (eexists; split; [reflexivity|]);
      cbn [w_stats w_trace set_w_stats set_w_trace];
      (split; [reflexivity|]);
      (split; [intros d Hd; now rewrite ?upd_stats_other by exact Hd|]);
      rewrite ?upd_stats_same; cbn;
      repeat split; try lia;
      try match goal with H : NET_RX_SUCCESS = NET_RX_DROP |- _ => discriminate H end.
  - destruct (Z.eqb_spec r NET_RX_DROP) as [Er|Er].
    + unfold dev_stats. eexists. split; [reflexivity|].
      cbn [w_stats w_trace set_w_stats set_w_trace set_w_netif_rx].
      split; [reflexivity|].
      split; [intros d Hd; now rewrite ?upd_stats_other by exact Hd|].
      rewrite ?upd_stats_same. cbn.
      repeat split; try lia; try contradiction.
    + unfold bind, dev_stats, ret.
      destruct (pkt_type skb =? PACKET_MULTICAST);
        cbn [w_stats w_trace set_w_stats set_w_trace set_w_netif_rx];
        (eexists; split; [reflexivity|]);
        cbn [w_stats w_trace set_w_stats set_w_trace set_w_netif_rx];
        (split; [reflexivity|]);
        (split; [intros d Hd; now rewrite ?upd_stats_other by exact Hd|]);
        rewrite ?upd_stats_same; cbn;
        repeat split; try lia; try contradiction.
Qed.

Lemma mem_write_length (mem bytes : list Z) (off : nat) :
  (off + length bytes <= length mem)%nat ->
  length (mem_write mem off bytes) = length mem.
Proof.
  intros H. unfold mem_write.
  rewrite !length_app, firstn_length_le, length_skipn by lia. lia.
Qed.

Lemma mem_read_write_same (mem bytes : list Z) (off : nat) :
  (off <= length mem)%nat ->
  mem_read (mem_write mem off bytes) off (length bytes) = bytes.
Proof.
  intros H. unfold mem_read, mem_write.
  assert (L : length (firstn off mem) = off) by (apply firstn_length_le; exact H).
  assert (E : forall X : list Z, skipn off (firstn off mem ++ X) = X).
  { intros X. rewrite <- L at 1. apply skipn_app_pre0. }
  rewrite E.
  rewrite <- (Nat.add_0_r (length bytes)) at 1. rewrite firstn_app_pre.
  cbn [firstn]. apply app_nil_r.
Qed.

(** X11.  Frames of the node leave with the address of the slave.  When a
    frame received from the master is transmitted on a port and receive
    is not offloaded, the buffer handed to the device is the one the
    destination substitution returned, with the six bytes of its source
    address replaced by the address of the device of the port; nothing
    before or after those six bytes is changed. *)
Theorem xmit_from_master_sets_source (priv : hsr_prp_priv) (skb : sk_buff)
    (port : hsr_prp_port) (frame : hsr_prp_frame_info) (w : world R) :
  let s0 := hsr_addr_subst_dest (w_nodes w) (node_src frame) skb port in
  rx_offloaded priv = false ->
  is_master (port_rcv frame) = true ->
  length (dev_addr (dev port)) = ETH_ALEN ->
  (skb_mac_header s0 + 12 <= length (skb_head s0))%nat ->
  exists s,
    hsr_prp_xmit priv skb port frame w
    = Ret tt (set_w_trace w (w_trace w ++ [Ev_dev_queue_xmit port s]))
    /\ h_source s = dev_addr (dev port)
    /\ length (skb_head s) = length (skb_head s0)
    /\ firstn (skb_mac_header s0 + 6) (skb_head s)
       = firstn (skb_mac_header s0 + 6) (skb_head s0)
    /\ skipn (skb_mac_header s0 + 12) (skb_head s)
       = skipn (skb_mac_header s0 + 12) (skb_head s0)
    /\ skb_data s = skb_data s0 /\ skb_mac_header s = skb_mac_header s0.
Proof.
  cbv zeta. intros Hoff Hm Hlen Hfit.
  unfold hsr_prp_xmit. rewrite Hoff, Hm. cbn [negb andb].
  unfold bind, addr_subst_dest, ret, dev_queue_xmit, emit.
  set (s0 := hsr_addr_subst_dest (w_nodes w) (node_src frame) skb port) in *.
  assert (Ea : firstn ETH_ALEN (dev_addr (dev port)) = dev_addr (dev port)).
  { apply firstn_all2. lia. }
  rewrite Ea.
  eexists. split; [reflexivity|].
  unfold h_source, set_skb_head. cbn [skb_head skb_mac_header skb_data].
  split.
  { rewrite <- Hlen. apply mem_read_write_same. lia. }
  split.
  { apply mem_write_length. unfold ETH_ALEN in Hlen. lia. }
  unfold mem_write. rewrite Hlen. unfold ETH_ALEN.
  assert (L : length (firstn (skb_mac_header s0 + 6) (skb_head s0))
              = (skb_mac_header s0 + 6)%nat) by (apply firstn_length_le; lia).
  split.
  { rewrite <- L at 1. rewrite <- (Nat.add_0_r (length _)), firstn_app_pre.
    cbn [firstn]. rewrite app_nil_r. reflexivity. }
  split; [|split; reflexivity].
  replace (skb_mac_header s0 + 12)%nat
    with (length (firstn (skb_mac_header s0 + 6) (skb_head s0)) + 6)%nat at 1 by lia.
  rewrite skipn_app_pre.
  rewrite <- Hlen at 1. unfold ETH_ALEN.
  rewrite <- (Nat.add_0_r (length (dev_addr (dev port)))), skipn_app_pre.
  cbn [skipn]. f_equal. lia.
Qed.

End Sinks.

(** ** The forwarding loop *)

Lemma port_type_eqb_eq (a b : hsr_prp_port_type) :
  port_type_eqb a b = true <-> a = b.
Proof. destruct a, b; cbn; split; intros H; try reflexivity; discriminate. Qed.

Lemma allowed_same_flags (priv : hsr_prp_priv) (f f' : hsr_prp_frame_info) (e : event) :
  same_flags f f' -> allowed priv f e -> allowed priv f' e.
Proof.
  intros (Hr & Hn & _ & Hs & _ & Hd & Hx). unfold allowed.
  destruct e; rewrite ?Hr, ?Hn, ?Hs, ?Hd, ?Hx; auto.
Qed.

Section LoopEvents.
Context {R : Type} {FR : Framereg R}.

Lemma sat_events_weaken (phi phi' : event -> Prop) {A} (Q : A -> Prop) (m : M R A) :
  (forall e, phi e -> phi' e) -> sat phi Q m -> sat phi' Q m.
Proof.
  intros Hi H w. specialize (H w).
  assert (E : forall w1 w2 : world R, evolves phi w1 w2 -> evolves phi' w1 w2).
  { intros w1 w2 [(ext & E1 & F) S]. split; [|exact S].
    exists ext. split; [exact E1|]. eapply Forall_impl; eauto. }
  destruct (m w); [destruct H; split; auto|auto].
Qed.

Lemma sat_handle_sup_frame_one (phi : event -> Prop) (skb : option sk_buff)
    (n : option node) (port : hsr_prp_port) :
  phi (Ev_handle_sup_frame skb n port) ->
  sat phi (fun _ => True) (handle_sup_frame (R := R) skb n port).
Proof.
  intros H w. cbn. split; [exact I|]. split; [|reflexivity].
  exists [Ev_handle_sup_frame skb n port]. auto.
Qed.

(** One port of the loop does only what the guards allow. *)
Lemma sat_forward_port_allowed (priv : hsr_prp_priv) (frame : hsr_prp_frame_info)
    (port : hsr_prp_port) :
  sat (allowed priv frame) (same_flags frame) (hsr_prp_forward_port priv frame port).
Proof.
  unfold hsr_prp_forward_port.
  destruct (port_eqb port (port_rcv frame)) eqn:Er;
    [apply sat_ret, same_flags_refl|].
  destruct (is_master port && negb (is_local_dest frame)) eqn:Ed;
    [apply sat_ret, same_flags_refl|].
  destruct (negb (is_master port) && is_local_exclusive frame) eqn:Ex;
    [apply sat_ret, same_flags_refl|].
  eapply sat_bind with (Q := fun _ => True).
  { destruct (negb (rx_offloaded priv));
      [apply sat_register_frame_out|now apply sat_ret]. }
  intros sent _. destruct sent; [apply sat_ret, same_flags_refl|].
  destruct (is_supervision frame && is_master port && negb (rx_offloaded priv)) eqn:Es.
  { eapply sat_bind.
    - apply sat_handle_sup_frame_one. cbn.
      apply andb_true_iff in Es. destruct Es as [Es Eo].
      apply andb_true_iff in Es. destruct Es as [Es _].
      apply negb_true_iff in Eo. auto.
    - intros _ _. apply sat_ret, same_flags_refl. }
  rewrite slave_pair_spec.
  destruct (l2_fwd_offloaded priv && slave_pair (type (port_rcv frame)) (type port))
    eqn:El; [apply sat_ret, same_flags_refl|].
  destruct (is_master port) eqn:Em; cbn [negb andb] in *.
  - apply negb_false_iff in Ed. rewrite andb_true_r in Es.
    eapply sat_bind;
      [apply sat_frame_get_stripped_skb; intros; exact I|].
    intros [f [s|]] Hf; cbn [fst snd] in *; [|apply sat_ret, Hf].
    eapply sat_bind.
    + apply sat_deliver_master. intros s'. cbn. auto.
    + intros _ _. apply sat_ret, Hf.
  - eapply sat_bind with (Q := fun r => fst r = frame).
    { eapply sat_bind;
        [apply sat_frame_get_tagged_skb; intros; exact I|].
      intros s _. now apply sat_ret. }
    intros [f [s|]] Hf; cbn [fst snd] in *; subst f;
      [|apply sat_ret, same_flags_refl].
    eapply sat_bind.
    + apply sat_xmit. intros s'. cbn. auto.
    + intros _ _. apply sat_ret, same_flags_refl.
Qed.

Lemma sat_for_each_port_allowed (priv : hsr_prp_priv) (l : list hsr_prp_port)
    (frame : hsr_prp_frame_info) :
  sat (allowed priv frame) (same_flags frame) (for_each_port priv l frame).
Proof.
  revert frame. induction l as [|port rest IH]; intros frame; cbn [for_each_port].
  - apply sat_ret, same_flags_refl.
  - eapply sat_bind; [apply sat_forward_port_allowed|].
    intros f Hf. eapply sat_weaken.
    + eapply sat_events_weaken; [|apply IH].
      intros e. apply allowed_same_flags.
      destruct Hf as (A & B & C & D & E & F & G). unfold same_flags. auto 10.
    + intros f' Hf'. eapply same_flags_trans; eauto.
Qed.

(** The events a run of the loop adds to the trace. *)
Lemma forward_do_extension (priv : hsr_prp_priv) (frame : hsr_prp_frame_info)
    (w : world R) :
  exists ext,
    w_trace (final_world (hsr_prp_forward_do priv frame w)) = w_trace w ++ ext
    /\ Forall (allowed priv frame) ext.
Proof.
  pose proof (sat_for_each_port_allowed priv (ports priv) frame w) as S.
  unfold hsr_prp_forward_do.
  destruct (for_each_port priv (ports priv) frame w) as [f w'|w']; cbn [final_world].
  - destruct S as [_ [S _]]. exact S.
  - destruct S as [S _]. exact S.
Qed.

(** X12.  The loop is bound by its guards.  Whatever the ports, the registry,
    the allocator and the outcome, every call the loop makes is one its
    guards allow for the frame: deliveries on master ports only and only
    for a locally destined frame the supervision handler does not take,
    egress on other ports only and never for a frame addressed to the
    node alone nor across the slaves under forward offload, never
    anything on the receiving port, the supervision handler only for a
    supervision frame, and no buffer freed. *)
Theorem forward_do_bound_by_guards (priv : hsr_prp_priv) (frame : hsr_prp_frame_info)
    (w : world R) :
  exists ext,
    w_trace (final_world (hsr_prp_forward_do priv frame w)) = w_trace w ++ ext
    /\ Forall (allowed priv frame) ext
    /\ Forall sink_matches_role ext
    /\ Forall (fun e => forall s, e <> Ev_kfree_skb s) ext.
Proof.
  destruct (forward_do_extension priv frame w) as (ext & E & F).
  exists ext. split; [exact E|]. split; [exact F|]. split.
  - eapply Forall_impl; [|exact F]. intros e He.
    destruct e; cbn in *; auto.
    + destruct He as (Hm & _). intros Hc. rewrite Hc in Hm. discriminate.
    + destruct He as (Hm & _). now apply port_type_eqb_eq.
  - eapply Forall_impl; [|exact F]. intros e He s Hc. subst e. exact He.
Qed.

(** X13.  Never back the way it came.  The loop makes no dispatch, of either
    kind, to the port the frame was received on. *)
Theorem forward_do_never_loops_back (priv : hsr_prp_priv) (frame : hsr_prp_frame_info)
    (w : world R) :
  dispatches (port_rcv frame) (w_trace (final_world (hsr_prp_forward_do priv frame w)))
  = dispatches (port_rcv frame) (w_trace w).
Proof.
  destruct (forward_do_extension priv frame w) as (ext & E & F).
  rewrite E, dispatches_app.
  assert (Z0 : dispatches (port_rcv frame) ext = 0%nat).
  { clear E. induction F as [|e ext He _ IH]; [reflexivity|].
    unfold dispatches in *. cbn [filter].
    destruct e; cbn [is_dispatch_to]; try exact IH.
    - destruct He as (_ & Hr & _). rewrite Hr. exact IH.
    - destruct He as (_ & Hr & _). rewrite Hr. exact IH. }
  lia.
Qed.

(** X14.  Under forward offload the software leaves the ring to the hardware:
    a frame received on slave A is never sent on a slave B, nor one
    received on slave B on a slave A. *)
Theorem forward_do_no_cross_slave (priv : hsr_prp_priv) (frame : hsr_prp_frame_info)
    (w : world R) :
  l2_fwd_offloaded priv = true ->
  exists ext,
    w_trace (final_world (hsr_prp_forward_do priv frame w)) = w_trace w ++ ext
    /\ Forall (fun e => match e with
                        | Ev_dev_queue_xmit p _ =>
                            (type (port_rcv frame) = HSR_PRP_PT_SLAVE_A ->
                             type p <> HSR_PRP_PT_SLAVE_B)
                            /\ (type (port_rcv frame) = HSR_PRP_PT_SLAVE_B ->
                                type p <> HSR_PRP_PT_SLAVE_A)
                        | _ => True
                        end) ext.
Proof.
  intros Hl.
  destruct (forward_do_extension priv frame w) as (ext & E & F).
  exists ext. split; [exact E|].
  eapply Forall_impl; [|exact F]. intros e He.
  destruct e; auto. cbn in He. destruct He as (_ & _ & _ & Hp).
  rewrite Hl in Hp. cbn [andb] in Hp.
  split; intros Hr Hc; rewrite Hr, Hc in Hp; discriminate Hp.
Qed.

End LoopEvents.

(** ** The receive entry point *)

Section EntryPoint.
Context {R : Type} {FR : Framereg R}.

(** The classifier on a frame that passes its checks, with the locality
    flag and the buffers of the frame context spelt out. *)
Lemma fill_frame_info_accepts (priv : hsr_prp_priv) (frame0 : hsr_prp_frame_info)
    (skb : sk_buff) (port : hsr_prp_port) (w : world R) :
  passes_checks priv skb port w = true ->
  exists frame w',
    hsr_prp_fill_frame_info priv frame0 skb port w = Ret (0, frame) w'
    /\ is_supervision frame = is_supervision_frame priv skb
    /\ port_rcv frame = port
    /\ is_local_exclusive frame = hsr_prp_addr_is_self priv (h_dest skb)
    /\ is_local_dest frame = local_dest_of priv skb
    /\ ((h_proto skb =? ETH_P_PRP) || (h_proto skb =? ETH_P_HSR) = true ->
        skb_hsr frame = Some (classified_skb priv skb) /\ skb_std frame = None)
    /\ ((h_proto skb =? ETH_P_PRP) || (h_proto skb =? ETH_P_HSR) = false ->
        skb_hsr frame = None /\ skb_std frame = Some (classified_skb priv skb))
    /\ (exists ext, w_trace w' = w_trace w ++ ext
                    /\ Forall is_bookkeeping ext)
    /\ w_stats w' = w_stats w
    /\ (rx_offloaded priv = true -> w_nodes w' = w_nodes w)
    /\ w_sequence_nr w'
       = (if (h_proto skb =? ETH_P_PRP) || (h_proto skb =? ETH_P_HSR)
          then w_sequence_nr w else u16 (w_sequence_nr w + 1)).
Proof.
  unfold passes_checks. intros Hp. apply andb_true_iff in Hp.
  destruct Hp as [Hsup Hnode]. apply negb_true_iff in Hsup.
  unfold hsr_prp_fill_frame_info.
  cbn [is_supervision skb_std skb_hsr port_rcv node_src sequence_nr is_vlan
       is_local_dest is_local_exclusive].
  rewrite Hsup.
  unfold bind at 1.
  assert (Hpre :
    exists frame1 w1,
      (if negb (rx_offloaded priv)
       then
         n <- get_node port skb (is_supervision_frame priv skb) ;;
         ret (mk_frame (skb_std frame0) (skb_hsr frame0) (port_rcv frame0) n
                       (sequence_nr frame0) (is_supervision_frame priv skb)
                       (is_vlan frame0) (is_local_dest frame0)
                       (is_local_exclusive frame0),
              match n with None => false | Some _ => true end)
       else
         ret (mk_frame (skb_std frame0) (skb_hsr frame0) (port_rcv frame0)
                       (node_src frame0) (sequence_nr frame0)
                       (is_supervision_frame priv skb) (is_vlan frame0)
                       (is_local_dest frame0) (is_local_exclusive frame0), true)) w
      = Ret (frame1, true) w1
      /\ is_supervision frame1 = is_supervision_frame priv skb
      /\ w_trace w1 = w_trace w /\ w_stats w1 = w_stats w
      /\ (rx_offloaded priv = true -> w_nodes w1 = w_nodes w)
      /\ w_sequence_nr w1 = w_sequence_nr w).
  { destruct (rx_offloaded priv); cbn [negb orb] in *.
    - eexists. eexists. split; [reflexivity|]. cbn. auto 10.
    - unfold bind, get_node, ret.
      destruct (hsr_prp_get_node (w_nodes w) port skb (is_supervision_frame priv skb))
        as [[n|] r]; cbn [fst] in Hnode; [|discriminate].
      eexists. eexists. split; [reflexivity|]. cbn.
      repeat split; auto. discriminate. }
  destruct Hpre as (frame1 & w1 & E & Hs1 & Ht1 & Hst1 & Hn1 & Hq1).
  rewrite E. clear E. cbn [fst snd negb].
  rewrite <- Ht1, <- Hst1, <- Hq1.
  unfold check_local_dest, local_dest_of, classified_skb.
  destruct (h_proto skb =? ETH_P_8021Q);
    destruct ((h_proto skb =? ETH_P_PRP) || (h_proto skb =? ETH_P_HSR));
    destruct (hsr_prp_addr_is_self priv (h_dest skb));
    (eexists; eexists; split; [reflexivity|]);
    cbn [is_supervision port_rcv is_local_exclusive is_local_dest skb_hsr skb_std
         set_frame_skb_hsr set_frame_skb_std set_frame_local pkt_type set_pkt_type
         orb w_trace w_stats w_nodes w_sequence_nr set_w_trace set_w_sequence_nr];
    rewrite <- ?app_assoc;
    (split; [exact Hs1|]); (split; [reflexivity|]); (split; [reflexivity|]);
    (split; [try reflexivity;
             destruct (pkt_type skb =? PACKET_HOST),
               (pkt_type skb =? PACKET_MULTICAST),
               (pkt_type skb =? PACKET_BROADCAST); reflexivity|]);
    (split; [intros Hc; try discriminate Hc; split; reflexivity|]);
    (split; [intros Hc; try discriminate Hc; split; reflexivity|]);
    (split; [eexists; split; [first [reflexivity | symmetry; apply app_nil_r]|];
             repeat (constructor; try exact I)|]);
    (split; [reflexivity|]); (split; [exact Hn1|reflexivity]).
Qed.

(** The classifier on a frame it rejects: the return code is negative,
    and nothing has happened but, for a supervision frame seen on a
    slave under receive offload, a warning, and otherwise the peer
    lookup that failed. *)
Lemma fill_frame_info_rejects (priv : hsr_prp_priv) (frame0 : hsr_prp_frame_info)
    (skb : sk_buff) (port : hsr_prp_port) (w : world R) :
  passes_checks priv skb port w = false ->
  let violation :=
    is_supervision_frame priv skb && rx_offloaded priv && negb (is_master port) in
  exists frame w',
    hsr_prp_fill_frame_info priv frame0 skb port w = Ret (-1, frame) w'
    /\ w_trace w' = w_trace w
                    ++ (if violation then [Ev_warn WARN_sup_frame_when_offloaded] else [])
    /\ w_stats w' = w_stats w
    /\ w_sequence_nr w' = w_sequence_nr w
    /\ w_allocs w' = w_allocs w
    /\ w_nodes w'
       = (if rx_offloaded priv then w_nodes w
          else snd (hsr_prp_get_node (w_nodes w) port skb
                      (is_supervision_frame priv skb))).
Proof.
  unfold passes_checks. intros Hp. cbv zeta.
  unfold hsr_prp_fill_frame_info.
  cbn [is_supervision skb_std skb_hsr port_rcv node_src sequence_nr is_vlan
       is_local_dest is_local_exclusive].
  destruct (is_supervision_frame priv skb && rx_offloaded priv && negb (is_master port))
    eqn:Ev.
  - eexists. eexists. split; [reflexivity|].
    cbn [w_trace w_stats w_sequence_nr w_allocs w_nodes set_w_trace].
    apply andb_true_iff in Ev. destruct Ev as [Ev _].
    apply andb_true_iff in Ev. destruct Ev as [_ Ev]. rewrite Ev. auto 10.
  - cbn [negb andb] in Hp.
    destruct (rx_offloaded priv); cbn [negb orb] in *; [discriminate|].
    unfold bind, get_node, ret.
    destruct (hsr_prp_get_node (w_nodes w) port skb (is_supervision_frame priv skb))
      as [[n|] r]; cbn [fst] in Hp; [discriminate|].
    cbn [fst snd negb]. eexists. eexists. split; [reflexivity|].
    cbn [w_trace w_stats w_sequence_nr w_allocs w_nodes set_w_nodes].
    rewrite app_nil_r. auto 10.
Qed.

(** The entry point past a successful classification. *)
Lemma forward_skb_accepts (priv : hsr_prp_priv) (skb : sk_buff) (port : hsr_prp_port)
    (w : world R) (frame : hsr_prp_frame_info) (w1 : world R) :
  skb_mac_header skb = skb_data skb ->
  hsr_prp_fill_frame_info priv (frame_uninit port) skb port w = Ret (0, frame) w1 ->
  hsr_prp_forward_skb priv skb port w
  = ((if negb (rx_offloaded priv)
      then register_frame_in (node_src frame) port (sequence_nr frame)
      else ret tt) ;;
     frame' <- hsr_prp_forward_do priv frame ;;
     match skb_hsr frame' with Some s => kfree_skb s | None => ret tt end ;;
     match skb_std frame' with Some s => kfree_skb s | None => ret tt end) w1.
Proof.
  intros Hmac E. unfold hsr_prp_forward_skb. rewrite Hmac, Nat.eqb_refl.
  cbn [negb]. unfold bind at 1. rewrite E. reflexivity.
Qed.

(** The entry point past a failed classification. *)
Lemma forward_skb_rejects (priv : hsr_prp_priv) (skb : sk_buff) (port : hsr_prp_port)
    (w : world R) (frame : hsr_prp_frame_info) (w1 : world R) :
  skb_mac_header skb = skb_data skb ->
  hsr_prp_fill_frame_info priv (frame_uninit port) skb port w = Ret (-1, frame) w1 ->
  hsr_prp_forward_skb priv skb port w
  = Ret tt (set_w_trace
              (set_w_stats w1 (upd_stats (w_stats w1) (dev_id (dev port)) inc_tx_dropped))
              (w_trace w1 ++ [Ev_kfree_skb skb])).
Proof.
  intros Hmac E. unfold hsr_prp_forward_skb. rewrite Hmac, Nat.eqb_refl.
  cbn [negb]. unfold bind at 1. rewrite E. reflexivity.
Qed.

(** X15.  A supervision frame that reaches software on a slave although
    receive is offloaded is a protocol violation: it is warned about and
    dropped, counted on the receiving device, before any peer is looked
    up or any sequence number assigned, and nothing is sent or
    delivered. *)
Theorem offloaded_supervision_frame_dropped (priv : hsr_prp_priv) (skb : sk_buff)
    (port : hsr_prp_port) (w : world R) :
  skb_mac_header skb = skb_data skb ->
  is_supervision_frame priv skb = true ->
  rx_offloaded priv = true ->
  is_master port = false ->
  exists w',
    hsr_prp_forward_skb priv skb port w = Ret tt w'
    /\ w_trace w' = w_trace w ++ [Ev_warn WARN_sup_frame_when_offloaded;
                                  Ev_kfree_skb skb]
    /\ w_stats w' = upd_stats (w_stats w) (dev_id (dev port)) inc_tx_dropped
    /\ w_nodes w' = w_nodes w
    /\ w_sequence_nr w' = w_sequence_nr w
    /\ w_allocs w' = w_allocs w.
Proof.
  intros Hmac Hs Ho Hm.
  assert (Hp : passes_checks priv skb port w = false).
  { unfold passes_checks. rewrite Hs, Ho, Hm. reflexivity. }
  destruct (fill_frame_info_rejects priv (frame_uninit port) skb port w Hp)
    as (fr & w1 & E & Ht & Hst & Hq & Ha & Hn).
  rewrite Hs, Ho, Hm in Ht. cbn [andb negb] in Ht. rewrite Ho in Hn.
  rewrite (forward_skb_rejects priv skb port w fr w1 Hmac E).
  eexists. split; [reflexivity|].
  cbn [w_trace w_stats w_nodes w_sequence_nr w_allocs set_w_trace set_w_stats].
  rewrite Ht, Hst, Hn, Hq, Ha, <- app_assoc. auto 10.
Qed.

(** X16.  A frame whose sender the registry does not produce is dropped: it
    is counted on the receiving device and freed, the only trace of it
    in the registry is what the lookup itself left, the sequence counter
    is not advanced, and nothing is sent or delivered. *)
Theorem unknown_peer_frame_dropped (priv : hsr_prp_priv) (skb : sk_buff)
    (port : hsr_prp_port) (w : world R) :
  skb_mac_header skb = skb_data skb ->
  rx_offloaded priv = false ->
  fst (hsr_prp_get_node (w_nodes w) port skb (is_supervision_frame priv skb)) = None ->
  exists w',
    hsr_prp_forward_skb priv skb port w = Ret tt w'
    /\ w_trace w' = w_trace w ++ [Ev_kfree_skb skb]
    /\ w_stats w' = upd_stats (w_stats w) (dev_id (dev port)) inc_tx_dropped
    /\ w_nodes w'
       = snd (hsr_prp_get_node (w_nodes w) port skb (is_supervision_frame priv skb))
    /\ w_sequence_nr w' = w_sequence_nr w
    /\ w_allocs w' = w_allocs w.
Proof.
  intros Hmac Ho Hn.
  assert (Hp : passes_checks priv skb port w = false).
  { unfold passes_checks. rewrite Ho, Hn. cbn. apply andb_false_r. }
  destruct (fill_frame_info_rejects priv (frame_uninit port) skb port w Hp)
    as (fr & w1 & E & Ht & Hst & Hq & Ha & Hnd).
  rewrite Ho in Ht, Hnd. rewrite andb_false_r in Ht. cbn [andb] in Ht.
  rewrite (forward_skb_rejects priv skb port w fr w1 Hmac E).
  eexists. split; [reflexivity|].
  cbn [w_trace w_stats w_nodes w_sequence_nr w_allocs set_w_trace set_w_stats].
  rewrite Ht, Hst, Hnd, Hq, Ha, app_nil_r. auto 10.
Qed.

End EntryPoint.

(** ** What a whole pass may do *)

Section WholePass.
Context {R : Type} {FR : Framereg R}.

(** Every event of a pass through the entry point is a warning, a lock
    operation, an access to the sequence counter, a release, or, for a
    frame that was classified, an event the guards of the loop allow for
    the classified frame. *)
Lemma forward_skb_events (phi : event -> Prop) (priv : hsr_prp_priv) (skb : sk_buff)
    (port : hsr_prp_port) (w : world R) :
  (forall e, is_bookkeeping e -> phi e) ->
  (forall s, phi (Ev_kfree_skb s)) ->
  (passes_checks priv skb port w = true ->
   forall frame,
     is_supervision frame = is_supervision_frame priv skb ->
     port_rcv frame = port ->
     is_local_exclusive frame = hsr_prp_addr_is_self priv (h_dest skb) ->
     is_local_dest frame = local_dest_of priv skb ->
     forall e, allowed priv frame e -> phi e) ->
  exists ext,
    w_trace (final_world (hsr_prp_forward_skb priv skb port w)) = w_trace w ++ ext
    /\ Forall phi ext.
Proof.
  intros Hb Hk Ha.
  destruct (Nat.eqb (skb_mac_header skb) (skb_data skb)) eqn:Hmac.
  2:{ unfold hsr_prp_forward_skb. rewrite Hmac. cbn.
      exists [Ev_warn WARN_malformed_frame; Ev_kfree_skb skb].
      rewrite <- !app_assoc. split; [reflexivity|].
      repeat constructor; [apply Hb; exact I|apply Hk]. }
  apply Nat.eqb_eq in Hmac.
  destruct (passes_checks priv skb port w) eqn:Hp.
  - destruct (fill_frame_info_accepts priv (frame_uninit port) skb port w Hp)
      as (frame & w1 & E & Hs & Hr & Hx & Hd & _ & _ & (ext1 & Ht1 & F1) & _).
    rewrite (forward_skb_accepts priv skb port w frame w1 Hmac E).
    specialize (Ha eq_refl frame Hs Hr Hx Hd).
    assert (S : sat phi (fun _ : unit => True)
                  ((if negb (rx_offloaded priv)
                    then register_frame_in (node_src frame) port (sequence_nr frame)
                    else ret tt) ;;
                   frame' <- hsr_prp_forward_do priv frame ;;
                   match skb_hsr frame' with Some s => kfree_skb s | None => ret tt end ;;
                   match skb_std frame' with Some s => kfree_skb s | None => ret tt end)).
    { eapply sat_bind with (Q := fun _ => True).
      { destruct (negb (rx_offloaded priv));
          [apply sat_register_frame_in|apply sat_ret; exact I]. }
      intros _ _. eapply sat_bind with (Q := fun _ => True).
      { apply sat_any with (Q := same_flags frame).
        apply sat_events_weaken with (phi := allowed priv frame); [exact Ha|].
        apply sat_for_each_port_allowed. }
      intros f' _. eapply sat_bind with (Q := fun _ => True).
      - destruct (skb_hsr f'); [apply sat_emit, Hk|apply sat_ret; exact I].
      - intros _ _. destruct (skb_std f'); [apply sat_emit, Hk|apply sat_ret; exact I]. }
    specialize (S w1).
    match goal with |- context [final_world ?o] => set (out := o) in * end.
    assert (Ev : evolves phi w1 (final_world out)).
    { destruct out; cbn [final_world]; [apply S|exact S]. }
    destruct Ev as [(ext2 & Ht2 & F2) _].
    exists (ext1 ++ ext2). rewrite Ht2, Ht1, app_assoc. split; [reflexivity|].
    apply Forall_app. split; [|exact F2].
    eapply Forall_impl; [|exact F1]. exact Hb.
  - destruct (fill_frame_info_rejects priv (frame_uninit port) skb port w Hp)
      as (fr & w1 & E & Ht & _).
    rewrite (forward_skb_rejects priv skb port w fr w1 Hmac E).
    cbn [final_world w_trace set_w_trace]. rewrite Ht, <- app_assoc.
    eexists. split; [reflexivity|].
    apply Forall_app. split.
    + destruct (_ && _ && _); repeat constructor. apply Hb. exact I.
    + repeat constructor. apply Hk.
Qed.

Lemma Forall_no_delivery (ext : list event) :
  Forall (fun e => is_delivery e = false) ext -> delivery_attempts ext = 0%nat.
Proof.
  unfold delivery_attempts. induction 1 as [|e l He _ IH]; [reflexivity|].
  cbn [filter]. rewrite He. exact IH.
Qed.

(** X17.  A frame for another host (not addressed to the node, and with a
    packet type other than host, multicast and broadcast) is never
    handed to the local stack, whatever the port it arrives on, the
    registry and the offload configuration. *)
Theorem other_host_frame_not_delivered (priv : hsr_prp_priv) (skb : sk_buff)
    (port : hsr_prp_port) (w : world R) :
  hsr_prp_addr_is_self priv (h_dest skb) = false ->
  pkt_type skb <> PACKET_HOST ->
  pkt_type skb <> PACKET_MULTICAST ->
  pkt_type skb <> PACKET_BROADCAST ->
  delivery_attempts (w_trace (final_world (hsr_prp_forward_skb priv skb port w)))
  = delivery_attempts (w_trace w).
Proof.
  intros Hs Hh Hm Hb.
  destruct (forward_skb_events (fun e => is_delivery e = false) priv skb port w)
    as (ext & Ht & F).
  - intros [] He; try reflexivity; destruct He.
  - reflexivity.
  - intros _ frame _ _ _ Hd [] He; try reflexivity.
    cbn in He. destruct He as (_ & _ & Hl & _).
    rewrite Hd in Hl. unfold local_dest_of in Hl. rewrite Hs in Hl.
    apply Z.eqb_neq in Hh, Hm, Hb. rewrite Hh, Hm, Hb in Hl. discriminate.
  - rewrite Ht, delivery_attempts_app, (Forall_no_delivery ext F). lia.
Qed.

(** X18.  A supervision frame is consumed by the node: unless it comes from
    the master port of a node with receive offload, no pass hands it to
    the local stack. *)
Theorem supervision_frame_not_delivered (priv : hsr_prp_priv) (skb : sk_buff)
    (port : hsr_prp_port) (w : world R) :
  is_supervision_frame priv skb = true ->
  rx_offloaded priv = false \/ is_master port = false ->
  delivery_attempts (w_trace (final_world (hsr_prp_forward_skb priv skb port w)))
  = delivery_attempts (w_trace w).
Proof.
  intros Hs Hc.
  destruct (forward_skb_events (fun e => is_delivery e = false) priv skb port w)
    as (ext & Ht & F).
  - intros [] He; try reflexivity; destruct He.
  - reflexivity.
  - intros Hp frame Hsf _ _ _ [] He; try reflexivity.
    cbn in He. destruct He as (_ & _ & _ & Hl).
    rewrite Hsf, Hs in Hl. cbn [andb] in Hl.
    apply negb_false_iff in Hl.
    destruct Hc as [Hc|Hc]; [congruence|].
    unfold passes_checks in Hp. rewrite Hs, Hl, Hc in Hp. discriminate.
  - rewrite Ht, delivery_attempts_app, (Forall_no_delivery ext F). lia.
Qed.

End WholePass.

(** ** What a pass leaves alone *)

Section Keeps.
Context {R : Type}.
Variable offl : bool.

Lemma quiet_refl (w : world R) : quiet offl w w.
Proof. split; auto. Qed.

Lemma quiet_trans (w1 w2 w3 : world R) :
  quiet offl w1 w2 -> quiet offl w2 w3 -> quiet offl w1 w3.
Proof.
  intros [A1 B1] [A2 B2]. split; [congruence|].
  intros H. rewrite (B2 H). auto.
Qed.

Lemma keeps_ret {A} (Q : A -> Prop) (a : A) : Q a -> keeps offl Q (@ret R A a).
Proof. intros H w. cbn. split; [exact H|apply quiet_refl]. Qed.

Lemma keeps_oops {A} (Q : A -> Prop) : keeps offl Q (@oops R A).
Proof. intros w. cbn. apply quiet_refl. Qed.

Lemma keeps_bind {A B} (Q : A -> Prop) (Q' : B -> Prop) (m : M R A) (k : A -> M R B) :
  keeps offl Q m -> (forall a, Q a -> keeps offl Q' (k a)) -> keeps offl Q' (bind m k).
Proof.
  intros Hm Hk w. unfold bind. specialize (Hm w).
  destruct (m w) as [a w1|w1]; [|exact Hm].
  destruct Hm as [Ha E1]. specialize (Hk a Ha w1).
  destruct (k a w1) as [b w2|w2].
  - destruct Hk as [Hb E2]. split; [exact Hb|]. eapply quiet_trans; eauto.
  - eapply quiet_trans; eauto.
Qed.

Lemma keeps_any {A} (Q : A -> Prop) (m : M R A) :
  keeps offl Q m -> keeps offl (fun _ => True) m.
Proof.
  intros H w. specialize (H w). destruct (m w); [|exact H].
  destruct H. split; auto.
Qed.

Lemma keeps_emit (e : event) : keeps offl (fun _ => True) (@emit R e).
Proof. intros w. cbn. repeat split; auto. Qed.

Lemma keeps_alloc : keeps offl (fun _ => True) (@alloc R).
Proof.
  intros w. unfold alloc. destruct (w_allocs w); cbn; repeat split; auto.
Qed.

Lemma keeps_dev_stats (d : net_device) (f : net_device_stats -> net_device_stats) :
  keeps offl (fun _ => True) (@dev_stats R d f).
Proof. intros w. cbn. repeat split; auto. Qed.

Lemma keeps_netif_rx (port : hsr_prp_port) (skb : sk_buff) :
  keeps offl (fun _ => True) (@netif_rx R port skb).
Proof.
  intros w. unfold netif_rx. cbn. destruct (w_netif_rx w); cbn; repeat split; auto.
Qed.

Lemma keeps_skb_clone (skb : option sk_buff) :
  keeps offl (fun _ => True) (@skb_clone R skb).
Proof.
  unfold skb_clone. destruct skb; [|apply keeps_oops].
  eapply keeps_bind; [apply keeps_alloc|]. intros [fill|] _; now apply keeps_ret.
Qed.

Lemma keeps_pskb_copy (skb : sk_buff) (headroom : Z) :
  keeps offl (fun _ => True) (@__pskb_copy R skb headroom).
Proof.
  unfold __pskb_copy. destruct (headroom <? 0); [apply keeps_oops|].
  eapply keeps_bind; [apply keeps_alloc|]. intros [fill|] _; now apply keeps_ret.
Qed.

Lemma keeps_skb_push (skb : sk_buff) (n : nat) :
  keeps offl (fun _ => True) (@skb_push R skb n).
Proof.
  unfold skb_push. destruct (n <=? skb_data skb)%nat.
  - now apply keeps_ret.
  - apply keeps_oops.
Qed.

Lemma keeps_create_tagged_skb (priv : hsr_prp_priv) (skb_o : sk_buff)
    (frame : hsr_prp_frame_info) (port : hsr_prp_port) :
  keeps offl (fun _ => True) (@create_tagged_skb R priv skb_o frame port).
Proof.
  unfold create_tagged_skb.
  eapply keeps_bind; [apply keeps_pskb_copy|]. intros [skb|] _; [|now apply keeps_ret].
  eapply keeps_bind; [apply keeps_skb_push|]. intros s _. now apply keeps_ret.
Qed.

(** Stripping hands the tagged buffer back as it was, when the tag can
    be pulled. *)
Lemma keeps_create_stripped_skb (skb_in : sk_buff) (frame : hsr_prp_frame_info) :
  (HSR_PRP_HLEN <= skb_len skb_in)%nat ->
  keeps offl (fun r => fst r = skb_in) (@create_stripped_skb R skb_in frame).
Proof.
  intros Hl w.
  destruct (create_stripped_skb_outcome skb_in frame w Hl) as (res & E & _).
  rewrite E. cbn. repeat split; auto.
Qed.

End Keeps.

Section KeepsForward.
Context {R : Type} {FR : Framereg R}.

Lemma buffers_kept_refl (f : hsr_prp_frame_info) : buffers_kept f f.
Proof. split; auto. Qed.

Lemma buffers_kept_trans (f1 f2 f3 : hsr_prp_frame_info) :
  buffers_kept f1 f2 -> buffers_kept f2 f3 -> buffers_kept f1 f3.
Proof.
  intros [A1 B1] [A2 B2]. split; [congruence|].
  intros H. rewrite <- (B1 H). apply B2. rewrite (B1 H). exact H.
Qed.

Lemma tag_pullable_kept (f f' : hsr_prp_frame_info) :
  buffers_kept f f' -> tag_pullable f -> tag_pullable f'.
Proof. intros [A _]. unfold tag_pullable. rewrite A. auto. Qed.

Lemma keeps_frame_get_stripped_skb (offl : bool) (frame : hsr_prp_frame_info)
    (port : hsr_prp_port) :
  tag_pullable frame ->
  keeps offl (fun r => buffers_kept frame (fst r))
        (frame_get_stripped_skb (R:=R) frame port).
Proof.
  intros Hp. unfold frame_get_stripped_skb.
  eapply keeps_bind with (Q := buffers_kept frame).
  - destruct (skb_std frame) eqn:Es; [apply keeps_ret, buffers_kept_refl|].
    unfold tag_pullable in Hp.
    destruct (skb_hsr frame) as [t|] eqn:Eh; [|apply keeps_oops].
    eapply keeps_bind; [apply keeps_create_stripped_skb, Hp|]. intros r Hr.
    apply keeps_ret. split; cbn.
    + rewrite Hr, Eh. reflexivity.
    + rewrite Es. intros H. now destruct H.
  - intros f Hf. eapply keeps_bind; [apply keeps_skb_clone|]. intros s _.
    apply keeps_ret. exact Hf.
Qed.

Lemma keeps_frame_get_tagged_skb (offl : bool) (priv : hsr_prp_priv)
    (frame : hsr_prp_frame_info) (port : hsr_prp_port) :
  keeps offl (fun _ => True) (frame_get_tagged_skb (R:=R) priv frame port).
Proof.
  unfold frame_get_tagged_skb.
  destruct (skb_hsr frame); [apply keeps_skb_clone|].
  destruct (_ && _).
  - eapply keeps_bind; [apply keeps_emit|]. intros _ _. now apply keeps_ret.
  - destruct (skb_std frame); [apply keeps_create_tagged_skb|apply keeps_oops].
Qed.

Lemma keeps_deliver_master (priv : hsr_prp_priv) (skb : sk_buff) (n : option node)
    (port : hsr_prp_port) :
  keeps (rx_offloaded priv) (fun _ => True) (hsr_prp_deliver_master priv skb n port).
Proof.
  unfold hsr_prp_deliver_master.
  eapply keeps_bind with (Q := fun _ => True).
  { destruct (negb (rx_offloaded priv)); [|now apply keeps_ret].
    intros w. cbn. split; [exact I|apply quiet_refl]. }
  intros s _. eapply keeps_bind; [apply keeps_netif_rx|]. intros res _.
  destruct (res =? NET_RX_DROP).
  - apply keeps_dev_stats.
  - eapply keeps_bind; [apply keeps_dev_stats|]. intros _ _.
    eapply keeps_bind; [apply keeps_dev_stats|]. intros _ _.
    destruct (pkt_type skb =? PACKET_MULTICAST);
      [apply keeps_dev_stats|now apply keeps_ret].
Qed.

Lemma keeps_xmit (priv : hsr_prp_priv) (skb : sk_buff) (port : hsr_prp_port)
    (frame : hsr_prp_frame_info) :
  keeps (rx_offloaded priv) (fun _ => True) (hsr_prp_xmit priv skb port frame).
Proof.
  unfold hsr_prp_xmit.
  eapply keeps_bind with (Q := fun _ => True).
  { destruct (_ && _); [|now apply keeps_ret].
    eapply keeps_bind with (Q := fun _ => True); [|intros s _; now apply keeps_ret].
    intros w. cbn. split; [exact I|apply quiet_refl]. }
  intros s _. apply keeps_emit.
Qed.

Lemma keeps_forward_port (priv : hsr_prp_priv) (frame : hsr_prp_frame_info)
    (port : hsr_prp_port) :
  tag_pullable frame ->
  keeps (rx_offloaded priv) (buffers_kept frame) (hsr_prp_forward_port priv frame port).
Proof.
  intros Hp. unfold hsr_prp_forward_port.
  destruct (port_eqb port (port_rcv frame)); [apply keeps_ret, buffers_kept_refl|].
  destruct (is_master port && negb (is_local_dest frame));
    [apply keeps_ret, buffers_kept_refl|].
  destruct (negb (is_master port) && is_local_exclusive frame);
    [apply keeps_ret, buffers_kept_refl|].
  eapply keeps_bind with (Q := fun _ => True).
  { destruct (rx_offloaded priv) eqn:Eo; cbn [negb]; [now apply keeps_ret|].
    intros w. unfold register_frame_out.
    destruct (hsr_register_frame_out (w_nodes w) port (node_src frame)
                (sequence_nr frame)) as [b r].
    cbn. repeat split; auto. discriminate. }
  intros sent _. destruct sent; [apply keeps_ret, buffers_kept_refl|].
  destruct (is_supervision frame && is_master port && negb (rx_offloaded priv)) eqn:Es.
  { eapply keeps_bind with (Q := fun _ => True);
      [|intros _ _; apply keeps_ret, buffers_kept_refl].
    apply andb_true_iff in Es. destruct Es as [_ Es]. apply negb_true_iff in Es.
    rewrite Es. intros w. cbn. repeat split; auto. discriminate. }
  destruct (l2_fwd_offloaded priv && _); [apply keeps_ret, buffers_kept_refl|].
  destruct (is_master port) eqn:Em; cbn [negb] in *.
  - eapply keeps_bind; [apply keeps_frame_get_stripped_skb, Hp|].
    intros [f [s|]] Hf; cbn [fst snd] in *; [|apply keeps_ret, Hf].
    eapply keeps_bind; [apply keeps_deliver_master|]. intros _ _.
    apply keeps_ret, Hf.
  - eapply keeps_bind with (Q := fun r => fst r = frame).
    { eapply keeps_bind; [apply keeps_frame_get_tagged_skb|]. intros s _.
      now apply keeps_ret. }
    intros [f [s|]] Hf; cbn [fst snd] in *; subst f;
      [|apply keeps_ret, buffers_kept_refl].
    eapply keeps_bind; [apply keeps_xmit|]. intros _ _.
    apply keeps_ret, buffers_kept_refl.
Qed.

Lemma keeps_for_each_port (priv : hsr_prp_priv) (l : list hsr_prp_port) :
  forall frame,
    tag_pullable frame ->
    keeps (rx_offloaded priv) (buffers_kept frame) (for_each_port priv l frame).
Proof.
  induction l as [|port rest IH]; intros frame Hp; cbn [for_each_port].
  - apply keeps_ret, buffers_kept_refl.
  - eapply keeps_bind; [apply keeps_forward_port, Hp|].
    intros f Hf w. specialize (IH f (tag_pullable_kept _ _ Hf Hp) w).
    destruct (for_each_port priv rest f w) as [f' w'|w']; [|exact IH].
    destruct IH as [Hf' Hq]. split; [|exact Hq].
    eapply buffers_kept_trans; eauto.
Qed.

End KeepsForward.

Section PassEffects.
Context {R : Type} {FR : Framereg R}.

(** A frame whose type field reads as a redundancy tag is long enough
    for the tag to be pulled. *)
Lemma tagged_is_pullable (priv : hsr_prp_priv) (skb : sk_buff) :
  skb_mac_header skb = skb_data skb ->
  (h_proto skb =? ETH_P_PRP) || (h_proto skb =? ETH_P_HSR) = true ->
  (HSR_PRP_HLEN <= skb_len (classified_skb priv skb))%nat.
Proof.
  intros Hmac Ht.
  assert (Hl : skb_len (classified_skb priv skb) = skb_len skb).
  { unfold classified_skb. destruct (hsr_prp_addr_is_self priv (h_dest skb)); reflexivity. }
  rewrite Hl. unfold skb_len, HSR_PRP_HLEN.
  destruct (Nat.le_gt_cases (length (skb_head skb)) (skb_mac_header skb + 12)) as [Hs|Hs];
    [|lia].
  exfalso. unfold h_proto, get_be16 in Ht.
  rewrite !nth_overflow in Ht by lia. cbn in Ht. discriminate.
Qed.

(** The part of the entry point that follows a successful
    classification leaves the sequence counter alone and, with receive
    offload, the registry; the loop keeps the buffers of the frame. *)
Lemma keeps_after_classification (priv : hsr_prp_priv) (frame : hsr_prp_frame_info)
    (port : hsr_prp_port) :
  tag_pullable frame ->
  keeps (rx_offloaded priv) (fun _ : unit => True)
        ((if negb (rx_offloaded priv)
          then register_frame_in (node_src frame) port (sequence_nr frame)
          else ret tt) ;;
         frame' <- hsr_prp_forward_do priv frame ;;
         match skb_hsr frame' with Some s => kfree_skb s | None => ret tt end ;;
         match skb_std frame' with Some s => kfree_skb s | None => ret tt end).
Proof.
  intros Hp.
  eapply keeps_bind with (Q := fun _ => True).
  { destruct (rx_offloaded priv) eqn:Eo; cbn [negb]; [now apply keeps_ret|].
    intros w. cbn. repeat split; auto. discriminate. }
  intros _ _. eapply keeps_bind with (Q := fun _ => True).
  { eapply keeps_any. apply keeps_for_each_port, Hp. }
  intros f' _. eapply keeps_bind with (Q := fun _ => True).
  - destruct (skb_hsr f'); [apply keeps_emit|now apply keeps_ret].
  - intros _ _. destruct (skb_std f'); [apply keeps_emit|now apply keeps_ret].
Qed.

Lemma classified_frame_pullable (priv : hsr_prp_priv) (skb : sk_buff)
    (frame : hsr_prp_frame_info) :
  skb_mac_header skb = skb_data skb ->
  ((h_proto skb =? ETH_P_PRP) || (h_proto skb =? ETH_P_HSR) = true ->
   skb_hsr frame = Some (classified_skb priv skb) /\ skb_std frame = None) ->
  ((h_proto skb =? ETH_P_PRP) || (h_proto skb =? ETH_P_HSR) = false ->
   skb_hsr frame = None /\ skb_std frame = Some (classified_skb priv skb)) ->
  tag_pullable frame.
Proof.
  intros Hmac Ht Hu. unfold tag_pullable.
  destruct ((h_proto skb =? ETH_P_PRP) || (h_proto skb =? ETH_P_HSR)) eqn:E.
  - destruct (Ht eq_refl) as [H _]. rewrite H.
    apply tagged_is_pullable; assumption.
  - destruct (Hu eq_refl) as [H _]. rewrite H. exact I.
Qed.

(** What a pass does to the world outside the trace. *)
Lemma forward_skb_quiet (priv : hsr_prp_priv) (skb : sk_buff) (port : hsr_prp_port)
    (w : world R) :
  let w' := final_world (hsr_prp_forward_skb priv skb port w) in
  w_sequence_nr w'
  = (if Nat.eqb (skb_mac_header skb) (skb_data skb)
        && passes_checks priv skb port w
        && negb ((h_proto skb =? ETH_P_PRP) || (h_proto skb =? ETH_P_HSR))
     then u16 (w_sequence_nr w + 1) else w_sequence_nr w)
  /\ (rx_offloaded priv = true -> w_nodes w' = w_nodes w).
Proof.
  cbv zeta.
  destruct (Nat.eqb (skb_mac_header skb) (skb_data skb)) eqn:Hmac.
  2:{ unfold hsr_prp_forward_skb. rewrite Hmac. cbn. auto. }
  apply Nat.eqb_eq in Hmac. cbn [andb].
  destruct (passes_checks priv skb port w) eqn:Hp; cbn [andb].
  - destruct (fill_frame_info_accepts priv (frame_uninit port) skb port w Hp)
      as (frame & w1 & E & _ & _ & _ & _ & Ht & Hu & _ & _ & Hn & Hq).
    rewrite (forward_skb_accepts priv skb port w frame w1 Hmac E).
    pose proof (keeps_after_classification priv frame port
                  (classified_frame_pullable priv skb frame Hmac Ht Hu) w1) as K.
    match goal with |- context [final_world ?o] => set (out := o) in * end.
    assert (Q : quiet (rx_offloaded priv) w1 (final_world out)).
    { destruct out; cbn [final_world]; [apply K|exact K]. }
    destruct Q as [Q1 Q2]. split.
    + rewrite Q1, Hq. destruct (_ || _); reflexivity.
    + intros Ho. rewrite (Q2 Ho). auto.
  - destruct (fill_frame_info_rejects priv (frame_uninit port) skb port w Hp)
      as (fr & w1 & E & _ & _ & Hq & _ & Hn).
    rewrite (forward_skb_rejects priv skb port w fr w1 Hmac E).
    cbn [final_world w_sequence_nr w_nodes set_w_trace set_w_stats].
    split; [exact Hq|]. intros Ho. rewrite Hn, Ho. reflexivity.
Qed.

(** X19.  With receive offload the software path never touches the node
    registry: whatever the frame and the port, and whether the pass
    ends, drops the frame or faults, the registry is as it was. *)
Theorem offload_leaves_registry_alone (priv : hsr_prp_priv) (skb : sk_buff)
    (port : hsr_prp_port) (w : world R) :
  rx_offloaded priv = true ->
  w_nodes (final_world (hsr_prp_forward_skb priv skb port w)) = w_nodes w.
Proof. intros Ho. apply (forward_skb_quiet priv skb port w), Ho. Qed.

(** X20.  A pass takes exactly one sequence number from the node's counter
    (wrapping at 16 bits) for a well-formed, accepted frame that arrives
    without a redundancy tag, and none in every other case; the
    forwarding loop itself never moves the counter. *)
Theorem pass_takes_one_sequence_number (priv : hsr_prp_priv) (skb : sk_buff)
    (port : hsr_prp_port) (w : world R) :
  w_sequence_nr (final_world (hsr_prp_forward_skb priv skb port w))
  = (if Nat.eqb (skb_mac_header skb) (skb_data skb)
        && passes_checks priv skb port w
        && negb ((h_proto skb =? ETH_P_PRP) || (h_proto skb =? ETH_P_HSR))
     then u16 (w_sequence_nr w + 1) else w_sequence_nr w).
Proof. apply (forward_skb_quiet priv skb port w). Qed.





End PassEffects.

(** ** The loop as a whole *)

Section WholeLoop.
Context {R : Type} {FR : Framereg R}.

Lemma forward_port_dispatch_bound (priv : hsr_prp_priv) (frame : hsr_prp_frame_info)
    (port : hsr_prp_port) (w : world R) (q : hsr_prp_port) :
  (dispatches q (w_trace (final_world (hsr_prp_forward_port priv frame port w)))
   <= dispatches q (w_trace w) + if port_eqb port q then 1 else 0)%nat.
Proof.
  rewrite forward_port_by_exclusion.
  destruct (consulted_trace priv frame port w) as [Tc _].
  destruct (first_match _) as [e|].
  - cbn [final_world].
    destruct e; cbn [skipped_world]; rewrite ?Tc; try lia.
    unfold handle_sup_frame.
    cbn [final_world w_trace set_w_trace set_w_nodes].
    rewrite dispatches_app, Tc.
    unfold dispatches at 2. cbn [filter is_dispatch_to length]. lia.
  - destruct (copy_and_dispatch_trace priv frame port (consulted priv frame port w))
      as (ext & E & B).
    rewrite E, Tc, dispatches_app. specialize (B q). lia.
Qed.

Lemma for_each_port_dispatch_bound (priv : hsr_prp_priv) (l : list hsr_prp_port)
    (q : hsr_prp_port) :
  forall frame (w : world R),
    (dispatches q (w_trace (final_world (for_each_port priv l frame w)))
     <= dispatches q (w_trace w) + length (filter (fun p => port_eqb p q) l))%nat.
Proof.
  induction l as [|port rest IH]; intros frame w; cbn [for_each_port filter].
  - cbn. lia.
  - pose proof (forward_port_dispatch_bound priv frame port w q) as B.
    unfold bind.
    destruct (hsr_prp_forward_port priv frame port w) as [f w1|w1];
      cbn [final_world] in *.
    + specialize (IH f w1). destruct (port_eqb port q); cbn [length]; lia.
    + destruct (port_eqb port q); cbn [length]; lia.
Qed.

(** X22.  The loop offers a port at most one copy of the frame for each time
    the port is listed: with the ports of a node listed once, no port is
    ever sent or delivered the same frame twice by one pass, and a port
    that is not listed gets nothing. *)
Theorem forward_do_one_copy_per_port (priv : hsr_prp_priv)
    (frame : hsr_prp_frame_info) (w : world R) (q : hsr_prp_port) :
  (dispatches q (w_trace (final_world (hsr_prp_forward_do priv frame w)))
   <= dispatches q (w_trace w)
      + length (filter (fun p => port_eqb p q) (ports priv)))%nat.
Proof. apply for_each_port_dispatch_bound. Qed.

Lemma allocs_succeed_one (n : nat) (l : list (option Z)) :
  allocs_succeed (S n) l -> allocs_succeed 1 l.
Proof. destruct l as [|[a|] l]; cbn; auto. Qed.

Lemma for_each_port_duplicates (priv : hsr_prp_priv) (frame : hsr_prp_frame_info)
    (f : sk_buff) (l : list hsr_prp_port) :
  rx_offloaded priv = true ->
  skb_hsr frame = None ->
  skb_std frame = Some f ->
  (ETH_HLEN + vlan_len frame <= skb_len f)%nat ->
  is_local_exclusive frame = false ->
  Forall (fun p =>
            (type p = HSR_PRP_PT_SLAVE_A \/ type p = HSR_PRP_PT_SLAVE_B)
            /\ l2_fwd_offloaded priv
               && slave_pair (type (port_rcv frame)) (type p) = false)
         (other_ports frame l) ->
  forall w : world R,
    allocs_succeed (length (other_ports frame l)) (w_allocs w) ->
    exists ext w',
      for_each_port priv l frame w = Ret frame w'
      /\ w_trace w' = w_trace w ++ ext
      /\ Forall2 (is_tagged_copy priv frame f) (other_ports frame l) ext.
Proof.
  intros Ho Hh Hs Hlen Hx.
  induction l as [|port rest IH]; intros Hall w Hal; cbn [for_each_port].
  - exists [], w. rewrite app_nil_r. repeat split. constructor.
  - unfold other_ports in *. cbn [filter] in *.
    destruct (port_eqb port (port_rcv frame)) eqn:Ep; cbn [negb] in *.
    + unfold bind, hsr_prp_forward_port. rewrite Ep. unfold ret at 1.
      apply IH; assumption.
    + inversion Hall as [|? ? [Hty Hcross] Hrest]; subst.
      cbn [length] in Hal.
      destruct (allocs_succeed_S _ _ Hal) as (fill & _ & Hal').
      assert (Hm : port_type_eqb (type port) HSR_PRP_PT_MASTER = false).
      { destruct Hty as [E|E]; rewrite E; reflexivity. }
      assert (Hf : first_match (exclusion_predicates priv frame port
                                  (already_sent frame port w)) = None).
      { unfold exclusion_predicates. rewrite Ep, Hm, Hx, Ho, Hcross.
        cbn. rewrite andb_false_r. reflexivity. }
      destruct (forward_port_tags_for_slave priv frame port f w Hf Hh Hs Hlen Hty
                  (or_introl Ho) (allocs_succeed_one _ _ Hal))
        as (s & w1 & E & Ht & Hd & Hp & Hl & Hq & Hn & Ha).
      rewrite <- Ha in Hal'.
      destruct (IH Hrest w1 Hal') as (ext & w2 & E2 & Ht2 & F2).
      exists (Ev_dev_queue_xmit port s :: ext), w2.
      unfold bind. rewrite E. split; [exact E2|].
      split; [rewrite Ht2, Ht, <- app_assoc; reflexivity|].
      constructor; [|exact F2].
      exists s. unfold lane_of. auto 10.
Qed.

(** X23.  Duplication.  With receive offload, a frame that arrived without a
    tag and is not for the node alone goes out once on every slave port
    other than the one it came from, in the order of the port list, as
    long as the allocator delivers: every copy carries the tag of the
    protocol version, the lane of its port and the one sequence number
    of the frame, and is six bytes longer than the frame. *)
Theorem untagged_frame_duplicated (priv : hsr_prp_priv) (frame : hsr_prp_frame_info)
    (f : sk_buff) (w : world R) :
  rx_offloaded priv = true ->
  skb_hsr frame = None ->
  skb_std frame = Some f ->
  (ETH_HLEN + vlan_len frame <= skb_len f)%nat ->
  is_local_exclusive frame = false ->
  Forall (fun p =>
            (type p = HSR_PRP_PT_SLAVE_A \/ type p = HSR_PRP_PT_SLAVE_B)
            /\ l2_fwd_offloaded priv
               && slave_pair (type (port_rcv frame)) (type p) = false)
         (other_ports frame (ports priv)) ->
  allocs_succeed (length (other_ports frame (ports priv))) (w_allocs w) ->
  exists ext w',
    hsr_prp_forward_do priv frame w = Ret frame w'
    /\ w_trace w' = w_trace w ++ ext
    /\ Forall2 (is_tagged_copy priv frame f) (other_ports frame (ports priv)) ext.
Proof.
  intros Ho Hh Hs Hlen Hx Hall Hal.
  exact (for_each_port_duplicates priv frame f (ports priv) Ho Hh Hs Hlen Hx Hall w Hal).
Qed.

End WholeLoop.

(** ** Runs of the further properties *)

Module Scenarios.
Import Sample Frames Scenes.

Lemma create_tagged_skb_fields_witness :
  (ETH_HLEN + vlan_len (frame_to_tag 5)
   <= skb_len (untagged 16 mac_bcast mac_peer PACKET_BROADCAST))%nat
  /\ Z.of_nat (skb_headroom (untagged 16 mac_bcast mac_peer PACKET_BROADCAST))
     + Z.of_nat HSR_PRP_HLEN < 65536
  /\ allocs_succeed 1 (w_allocs (world0 5))
  /\ exists t w',
      create_tagged_skb priv0 (untagged 16 mac_bcast mac_peer PACKET_BROADCAST)
        (frame_to_tag 5) port_b (world0 5) = Ret (Some t) w'
      /\ h_proto t = ETH_P_HSR
      /\ get_hsr_tag_path t = 1
      /\ hsr_tag_sequence_nr t = 5.
Proof.
  assert (H1 : (ETH_HLEN + vlan_len (frame_to_tag 5)
                <= skb_len (untagged 16 mac_bcast mac_peer PACKET_BROADCAST))%nat).
  { apply Nat.leb_le. reflexivity. }
  assert (H2 : allocs_succeed 1 (w_allocs (world0 5))) by exact I.
  assert (H3 : Z.of_nat (skb_headroom (untagged 16 mac_bcast mac_peer
                                         PACKET_BROADCAST))
               + Z.of_nat HSR_PRP_HLEN < 65536) by reflexivity.
  split; [exact H1|]. split; [exact H3|]. split; [exact H2|].
  destruct (create_tagged_skb_fields priv0
              (untagged 16 mac_bcast mac_peer PACKET_BROADCAST)
              (frame_to_tag 5) port_b (world0 5) H1 H3 H2)
    as (t & w' & E & _ & _ & _ & Hp & Hl & _ & Hs & _).
  exists t, w'. split; [exact E|]. split; [exact Hp|]. split; [exact Hl|exact Hs].
Defined.

Lemma create_stripped_skb_fields_witness :
  (ETH_HLEN + HSR_PRP_HLEN <= skb_len exact_tagged)%nat
  /\ skb_mac_header exact_tagged = skb_data exact_tagged
  /\ is_vlan frame_to_strip = false
  /\ allocs_succeed 1 (w_allocs (world0 6))
  /\ exists s w',
      create_stripped_skb exact_tagged frame_to_strip (world0 6)
      = Ret (exact_tagged, Some s) w'
      /\ skb_bytes s = firstn 12 (skb_bytes exact_tagged)
                       ++ skipn 18 (skb_bytes exact_tagged)
      /\ h_proto s = hsr_tag_encap_proto exact_tagged.
Proof.
  assert (H1 : (ETH_HLEN + HSR_PRP_HLEN <= skb_len exact_tagged)%nat).
  { apply Nat.leb_le. reflexivity. }
  assert (H2 : skb_mac_header exact_tagged = skb_data exact_tagged) by reflexivity.
  assert (H3 : is_vlan frame_to_strip = false) by reflexivity.
  assert (H4 : allocs_succeed 1 (w_allocs (world0 6))) by exact I.
  split; [exact H1|]. split; [exact H2|]. split; [exact H3|]. split; [exact H4|].
  destruct (create_stripped_skb_fields exact_tagged frame_to_strip (world0 6)
              H1 H2 H3 H4)
    as (s & w' & E & Hb & _ & _ & _ & Hp & _).
  exists s, w'. split; [exact E|]. split; [exact Hb|exact Hp].
Defined.

Lemma tagging_keeps_checksum_target_witness :
  (ETH_HLEN + vlan_len (frame_to_tag 5) <= skb_len csum_untagged)%nat
  /\ allocs_succeed 1 (w_allocs (world0 5))
  /\ ip_summed csum_untagged = CHECKSUM_PARTIAL
  /\ Z.of_nat (skb_data csum_untagged) + 14 <= csum_start csum_untagged
  /\ csum_start csum_untagged + 6 < 65536
  /\ exists t w',
      create_tagged_skb priv0 csum_untagged (frame_to_tag 5) port_a (world0 5)
      = Ret (Some t) w'
      /\ csum_start t = 36
      /\ csum_byte t = 69.
Proof.
  assert (H1 : (ETH_HLEN + vlan_len (frame_to_tag 5) <= skb_len csum_untagged)%nat).
  { apply Nat.leb_le. reflexivity. }
  assert (H2 : allocs_succeed 1 (w_allocs (world0 5))) by exact I.
  assert (H3 : ip_summed csum_untagged = CHECKSUM_PARTIAL) by reflexivity.
  assert (H4 : Z.of_nat (skb_data csum_untagged) + 14 <= csum_start csum_untagged).
  { vm_compute. discriminate. }
  assert (H5 : csum_start csum_untagged + 6 < 65536) by reflexivity.
  split; [exact H1|]. split; [exact H2|]. split; [exact H3|].
  split; [exact H4|]. split; [exact H5|].
  destruct (tagging_keeps_checksum_target priv0 csum_untagged (frame_to_tag 5)
              port_a (world0 5) H1 H2 H3 H4 H5)
    as (t & w' & E & _ & Hc & Hb).
  exists t, w'. split; [exact E|]. split; [exact Hc|exact Hb].
Defined.

Lemma stripping_keeps_checksum_target_witness :
  (ETH_HLEN + HSR_PRP_HLEN <= skb_len csum_tagged)%nat
  /\ skb_mac_header csum_tagged = skb_data csum_tagged
  /\ is_vlan frame_to_strip = false
  /\ allocs_succeed 1 (w_allocs (world0 6))
  /\ ip_summed csum_tagged = CHECKSUM_PARTIAL
  /\ Z.of_nat (skb_data csum_tagged) + 20 <= csum_start csum_tagged
  /\ csum_start csum_tagged < 65536
  /\ exists s w',
      create_stripped_skb csum_tagged frame_to_strip (world0 6)
      = Ret (csum_tagged, Some s) w'
      /\ csum_start s = 30
      /\ csum_byte s = 69.
Proof.
  assert (H1 : (ETH_HLEN + HSR_PRP_HLEN <= skb_len csum_tagged)%nat).
  { apply Nat.leb_le. reflexivity. }
  assert (H2 : skb_mac_header csum_tagged = skb_data csum_tagged) by reflexivity.
  assert (H3 : is_vlan frame_to_strip = false) by reflexivity.
  assert (H4 : allocs_succeed 1 (w_allocs (world0 6))) by exact I.
  assert (H5 : ip_summed csum_tagged = CHECKSUM_PARTIAL) by reflexivity.
  assert (H6 : Z.of_nat (skb_data csum_tagged) + 20 <= csum_start csum_tagged).
  { vm_compute. discriminate. }
  assert (H7 : csum_start csum_tagged < 65536) by reflexivity.
  split; [exact H1|]. split; [exact H2|]. split; [exact H3|]. split; [exact H4|].
  split; [exact H5|]. split; [exact H6|]. split; [exact H7|].
  destruct (stripping_keeps_checksum_target csum_tagged frame_to_strip (world0 6)
              H1 H2 H3 H4 H5 H6 H7)
    as (s & w' & E & _ & Hc & Hb).
  exists s, w'. split; [exact E|]. split; [exact Hc|exact Hb].
Defined.

(** The copy sent on slave B with sequence number 5 is read back with
    sequence number 5 by the node that receives it. *)
Lemma tagged_copy_is_classified_witness :
  (ETH_HLEN + vlan_len (frame_to_tag 5)
   <= skb_len (untagged 16 mac_bcast mac_peer PACKET_BROADCAST))%nat
  /\ allocs_succeed 1 (w_allocs (world0 5))
  /\ exists t w',
      create_tagged_skb priv0 (untagged 16 mac_bcast mac_peer PACKET_BROADCAST)
        (frame_to_tag 5) port_b (world0 5) = Ret (Some t) w'
      /\ passes_checks priv0 t port_a (world0 9) = true
      /\ exists fr w3,
          hsr_prp_fill_frame_info priv0 (frame_uninit port_a) t port_a (world0 9)
          = Ret (0, fr) w3
          /\ sequence_nr fr = 5
          /\ w_sequence_nr w3 = 9.
Proof.
  assert (H1 : (ETH_HLEN + vlan_len (frame_to_tag 5)
                <= skb_len (untagged 16 mac_bcast mac_peer PACKET_BROADCAST))%nat).
  { apply Nat.leb_le. reflexivity. }
  assert (H2 : allocs_succeed 1 (w_allocs (world0 5))) by exact I.
  split; [exact H1|]. split; [exact H2|].
  destruct (tagged_copy_is_classified priv0
              (untagged 16 mac_bcast mac_peer PACKET_BROADCAST)
              (frame_to_tag 5) port_b (world0 5) H1 H2)
    as (t & w' & E & H).
  exists t, w'. split; [exact E|].
  assert (Hp : passes_checks priv0 t port_a (world0 9) = true).
  { vm_compute in E. injection E as Et _. subst t. reflexivity. }
  split; [exact Hp|].
  destruct (H priv0 (frame_uninit port_a) port_a (world0 9) Hp)
    as (fr & w3 & E3 & Hs & _ & _ & _ & Hq).
  exists fr, w3. split; [exact E3|]. split; [exact Hs|exact Hq].
Defined.


Lemma untagged_frame_skips_non_slave_witness :
  skb_hsr frame_untagged = None
  /\ type port_i = HSR_PRP_PT_INTERLINK
  /\ exists w',
      hsr_prp_forward_port priv0 frame_untagged port_i (world0 6)
      = Ret frame_untagged w'
      /\ dispatches port_i (w_trace w') = 0%nat.
Proof.
  assert (H1 : skb_hsr frame_untagged = None) by reflexivity.
  assert (H2 : type port_i = HSR_PRP_PT_INTERLINK) by reflexivity.
  split; [exact H1|]. split; [exact H2|].
  destruct (untagged_frame_skips_non_slave priv0 frame_untagged port_i (world0 6)
              H1 (or_introl H2))
    as (w' & E & Hd & _).
  exists w'. split; [exact E|]. exact (Hd port_i).
Defined.

Lemma tagged_frame_forwarded_unchanged_witness :
  first_match (exclusion_predicates priv0 frame_tagged port_b
                 (already_sent frame_tagged port_b (world0 7))) = None
  /\ skb_hsr frame_tagged = Some exact_tagged
  /\ is_master port_b = false
  /\ is_master (port_rcv frame_tagged) = false
  /\ allocs_succeed 1 (w_allocs (world0 7))
  /\ exists w',
      hsr_prp_forward_port priv0 frame_tagged port_b (world0 7) = Ret frame_tagged w'
      /\ w_trace w' = [Ev_dev_queue_xmit port_b (set_skb_dev exact_tagged dev_b)].
Proof.
  assert (H1 : first_match (exclusion_predicates priv0 frame_tagged port_b
                 (already_sent frame_tagged port_b (world0 7))) = None)
    by reflexivity.
  assert (H2 : skb_hsr frame_tagged = Some exact_tagged) by reflexivity.
  assert (H3 : is_master port_b = false) by reflexivity.
  assert (H4 : is_master (port_rcv frame_tagged) = false) by reflexivity.
  assert (H5 : allocs_succeed 1 (w_allocs (world0 7))) by exact I.
  split; [exact H1|]. split; [exact H2|]. split; [exact H3|]. split; [exact H4|].
  split; [exact H5|].
  exact (tagged_frame_forwarded_unchanged priv0 frame_tagged port_b exact_tagged
           (world0 7) H1 H2 H3 (or_intror H4) H5).
Defined.

Lemma untagged_frame_tagged_for_slave_witness :
  first_match (exclusion_predicates priv0 frame_untagged port_b
                 (already_sent frame_untagged port_b (world0 6))) = None
  /\ skb_hsr frame_untagged = None
  /\ skb_std frame_untagged = Some (untagged 16 mac_bcast mac_peer PACKET_BROADCAST)
  /\ (ETH_HLEN + vlan_len frame_untagged
      <= skb_len (untagged 16 mac_bcast mac_peer PACKET_BROADCAST))%nat
  /\ type port_b = HSR_PRP_PT_SLAVE_B
  /\ is_master (port_rcv frame_untagged) = false
  /\ allocs_succeed 1 (w_allocs (world0 6))
  /\ exists s w',
      hsr_prp_forward_port priv0 frame_untagged port_b (world0 6)
      = Ret frame_untagged w'
      /\ w_trace w' = [Ev_dev_queue_xmit port_b s]
      /\ get_hsr_tag_path s = 1
      /\ hsr_tag_sequence_nr s = 5.
Proof.
  assert (H1 : first_match (exclusion_predicates priv0 frame_untagged port_b
                 (already_sent frame_untagged port_b (world0 6))) = None)
    by reflexivity.
  assert (H2 : skb_hsr frame_untagged = None) by reflexivity.
  assert (H3 : skb_std frame_untagged
               = Some (untagged 16 mac_bcast mac_peer PACKET_BROADCAST))
    by reflexivity.
  assert (H4 : (ETH_HLEN + vlan_len frame_untagged
                <= skb_len (untagged 16 mac_bcast mac_peer PACKET_BROADCAST))%nat).
  { apply Nat.leb_le. reflexivity. }
  assert (H5 : type port_b = HSR_PRP_PT_SLAVE_B) by reflexivity.
  assert (H6 : is_master (port_rcv frame_untagged) = false) by reflexivity.
  assert (H7 : allocs_succeed 1 (w_allocs (world0 6))) by exact I.
  split; [exact H1|]. split; [exact H2|]. split; [exact H3|]. split; [exact H4|].
  split; [exact H5|]. split; [exact H6|]. split; [exact H7|].
  destruct (untagged_frame_tagged_for_slave priv0 frame_untagged port_b
              (untagged 16 mac_bcast mac_peer PACKET_BROADCAST) (world0 6)
              H1 H2 H3 H4 (or_intror H5) (or_intror H6) H7)
    as (s & w' & E & Ht & _ & _ & Hl & Hs & _).
  exists s, w'. split; [exact E|]. split; [exact Ht|]. split; [exact Hl|exact Hs].
Defined.

Lemma xmit_from_master_sets_source_witness :
  rx_offloaded priv0 = false
  /\ is_master (port_rcv frame_from_host) = true
  /\ length (dev_addr (dev port_a)) = ETH_ALEN
  /\ (let s0 := hsr_addr_subst_dest (w_nodes (world0 5)) (node_src frame_from_host)
                  host_frame port_a in
      (skb_mac_header s0 + 12 <= length (skb_head s0))%nat)
  /\ exists s,
      hsr_prp_xmit priv0 host_frame port_a frame_from_host (world0 5)
      = Ret tt (set_w_trace (world0 5) [Ev_dev_queue_xmit port_a s])
      /\ h_source s = mac_master.
Proof.
  assert (H1 : rx_offloaded priv0 = false) by reflexivity.
  assert (H2 : is_master (port_rcv frame_from_host) = true) by reflexivity.
  assert (H3 : length (dev_addr (dev port_a)) = ETH_ALEN) by reflexivity.
  assert (H4 : let s0 := hsr_addr_subst_dest (w_nodes (world0 5))
                           (node_src frame_from_host) host_frame port_a in
               (skb_mac_header s0 + 12 <= length (skb_head s0))%nat).
  { apply Nat.leb_le. reflexivity. }
  split; [exact H1|]. split; [exact H2|]. split; [exact H3|]. split; [exact H4|].
  destruct (xmit_from_master_sets_source priv0 host_frame port_a frame_from_host
              (world0 5) H1 H2 H3 H4)
    as (s & E & Hs & _).
  exists s. split; [exact E|exact Hs].
Defined.

(** A tagged frame received on slave A of the node with forwarding
    offload is not sent on slave B. *)
Lemma forward_do_no_cross_slave_witness :
  l2_fwd_offloaded priv_off = true
  /\ type (port_rcv frame_tagged) = HSR_PRP_PT_SLAVE_A
  /\ exists ext,
      w_trace (final_world (hsr_prp_forward_do priv_off frame_tagged (world0 7)))
      = w_trace (world0 7) ++ ext
      /\ Forall (fun e => match e with
                          | Ev_dev_queue_xmit p _ => type p <> HSR_PRP_PT_SLAVE_B
                          | _ => True
                          end) ext.
Proof.
  assert (H1 : l2_fwd_offloaded priv_off = true) by reflexivity.
  assert (H2 : type (port_rcv frame_tagged) = HSR_PRP_PT_SLAVE_A) by reflexivity.
  split; [exact H1|]. split; [exact H2|].
  destruct (forward_do_no_cross_slave priv_off frame_tagged (world0 7) H1)
    as (ext & Ht & F).
  exists ext. split; [exact Ht|].
  eapply Forall_impl; [|exact F].
  intros [] He; try exact I. exact (proj1 He H2).
Defined.

Lemma offloaded_supervision_frame_dropped_witness :
  skb_mac_header sup_frame = skb_data sup_frame
  /\ is_supervision_frame priv_off sup_frame = true
  /\ rx_offloaded priv_off = true
  /\ is_master port_a = false
  /\ exists w',
      hsr_prp_forward_skb priv_off sup_frame port_a (world0 5) = Ret tt w'
      /\ w_trace w' = [Ev_warn WARN_sup_frame_when_offloaded; Ev_kfree_skb sup_frame]
      /\ w_nodes w' = w_nodes (world0 5).
Proof.
  assert (H1 : skb_mac_header sup_frame = skb_data sup_frame) by reflexivity.
  assert (H2 : is_supervision_frame priv_off sup_frame = true) by reflexivity.
  assert (H3 : rx_offloaded priv_off = true) by reflexivity.
  assert (H4 : is_master port_a = false) by reflexivity.
  split; [exact H1|]. split; [exact H2|]. split; [exact H3|]. split; [exact H4|].
  destruct (offloaded_supervision_frame_dropped priv_off sup_frame port_a (world0 5)
              H1 H2 H3 H4)
    as (w' & E & Ht & _ & Hn & _).
  exists w'. split; [exact E|]. split; [exact Ht|exact Hn].
Defined.

Lemma unknown_peer_frame_dropped_witness :
  skb_mac_header from_stranger = skb_data from_stranger
  /\ rx_offloaded priv0 = false
  /\ fst (hsr_prp_get_node (w_nodes (world0 5)) port_a from_stranger
            (is_supervision_frame priv0 from_stranger)) = None
  /\ exists w',
      hsr_prp_forward_skb priv0 from_stranger port_a (world0 5) = Ret tt w'
      /\ w_trace w' = [Ev_kfree_skb from_stranger]
      /\ w_sequence_nr w' = 5.
Proof.
  assert (H1 : skb_mac_header from_stranger = skb_data from_stranger) by reflexivity.
  assert (H2 : rx_offloaded priv0 = false) by reflexivity.
  assert (H3 : fst (hsr_prp_get_node (w_nodes (world0 5)) port_a from_stranger
                      (is_supervision_frame priv0 from_stranger)) = None)
    by reflexivity.
  split; [exact H1|]. split; [exact H2|]. split; [exact H3|].
  destruct (unknown_peer_frame_dropped priv0 from_stranger port_a (world0 5)
              H1 H2 H3)
    as (w' & E & Ht & _ & _ & Hq & _).
  exists w'. split; [exact E|]. split; [exact Ht|exact Hq].
Defined.

Lemma other_host_frame_not_delivered_witness :
  hsr_prp_addr_is_self priv0 (h_dest transit) = false
  /\ pkt_type transit <> PACKET_HOST
  /\ pkt_type transit <> PACKET_MULTICAST
  /\ pkt_type transit <> PACKET_BROADCAST
  /\ delivery_attempts
       (w_trace (final_world (hsr_prp_forward_skb priv0 transit port_a (world0 5))))
     = 0%nat.
Proof.
  assert (H1 : hsr_prp_addr_is_self priv0 (h_dest transit) = false) by reflexivity.
  assert (H2 : pkt_type transit <> PACKET_HOST) by (vm_compute; discriminate).
  assert (H3 : pkt_type transit <> PACKET_MULTICAST) by (vm_compute; discriminate).
  assert (H4 : pkt_type transit <> PACKET_BROADCAST) by (vm_compute; discriminate).
  split; [exact H1|]. split; [exact H2|]. split; [exact H3|]. split; [exact H4|].
  exact (other_host_frame_not_delivered priv0 transit port_a (world0 5) H1 H2 H3 H4).
Defined.

Lemma supervision_frame_not_delivered_witness :
  is_supervision_frame priv0 sup_frame = true
  /\ rx_offloaded priv0 = false
  /\ delivery_attempts
       (w_trace (final_world (hsr_prp_forward_skb priv0 sup_frame port_a (world0 5))))
     = 0%nat.
Proof.
  assert (H1 : is_supervision_frame priv0 sup_frame = true) by reflexivity.
  assert (H2 : rx_offloaded priv0 = false) by reflexivity.
  split; [exact H1|]. split; [exact H2|].
  exact (supervision_frame_not_delivered priv0 sup_frame port_a (world0 5)
           H1 (or_introl H2)).
Defined.

Lemma offload_leaves_registry_alone_witness :
  rx_offloaded priv_off = true
  /\ w_nodes (final_world (hsr_prp_forward_skb priv_off exact_tagged port_a (world0 7)))
     = w_nodes (world0 7).
Proof.
  assert (H1 : rx_offloaded priv_off = true) by reflexivity.
  split; [exact H1|].
  exact (offload_leaves_registry_alone priv_off exact_tagged port_a (world0 7) H1).
Defined.


(** The host's frame on the node with offload: one copy on slave A,
    one on slave B, both with sequence number 5. *)
Lemma untagged_frame_duplicated_witness :
  rx_offloaded priv_off = true
  /\ skb_hsr frame_from_host = None
  /\ skb_std frame_from_host = Some host_frame
  /\ (ETH_HLEN + vlan_len frame_from_host <= skb_len host_frame)%nat
  /\ is_local_exclusive frame_from_host = false
  /\ Forall (fun p =>
               (type p = HSR_PRP_PT_SLAVE_A \/ type p = HSR_PRP_PT_SLAVE_B)
               /\ l2_fwd_offloaded priv_off
                  && slave_pair (type (port_rcv frame_from_host)) (type p) = false)
            (other_ports frame_from_host (ports priv_off))
  /\ allocs_succeed (length (other_ports frame_from_host (ports priv_off)))
       (w_allocs (world0 6))
  /\ exists ext w',
      hsr_prp_forward_do priv_off frame_from_host (world0 6)
      = Ret frame_from_host w'
      /\ w_trace w' = w_trace (world0 6) ++ ext
      /\ Forall2 (is_tagged_copy priv_off frame_from_host host_frame)
           [port_a; port_b] ext.
Proof.
  assert (H1 : rx_offloaded priv_off = true) by reflexivity.
  assert (H2 : skb_hsr frame_from_host = None) by reflexivity.
  assert (H3 : skb_std frame_from_host = Some host_frame) by reflexivity.
  assert (H4 : (ETH_HLEN + vlan_len frame_from_host <= skb_len host_frame)%nat).
  { apply Nat.leb_le. reflexivity. }
  assert (H5 : is_local_exclusive frame_from_host = false) by reflexivity.
  assert (H6 : Forall (fun p =>
                         (type p = HSR_PRP_PT_SLAVE_A \/ type p = HSR_PRP_PT_SLAVE_B)
                         /\ l2_fwd_offloaded priv_off
                            && slave_pair (type (port_rcv frame_from_host)) (type p)
                            = false)
                      (other_ports frame_from_host (ports priv_off))).
  { constructor; [split; [left; reflexivity|reflexivity]|].
    constructor; [split; [right; reflexivity|reflexivity]|].
    constructor. }
  assert (H7 : allocs_succeed (length (other_ports frame_from_host (ports priv_off)))
                 (w_allocs (world0 6))) by exact I.
  split; [exact H1|]. split; [exact H2|]. split; [exact H3|]. split; [exact H4|].
  split; [exact H5|]. split; [exact H6|]. split; [exact H7|].
  exact (untagged_frame_duplicated priv_off frame_from_host host_frame (world0 6)
           H1 H2 H3 H4 H5 H6 H7).
Defined.

End Scenarios.
